(** * mcp-test: a shallow embedding of the runner, the registration API,
      the assertion engine and the call recorder.

    The TypeScript sources are embedded function by function:
    - [runner.ts]  : [Registration] (describe/test/hooks over the shared
                     suite objects) and [Runner] (runTest, runSuite,
                     runAllTests);
    - [expect.ts]  : [Expect] (Object.is, deepEqual, toBe, toEqual);
    - [mock.ts]    : [Mock] (MockFunction and its mutators).

    User code (test bodies, hooks, definition actions, mock behaviours)
    is arbitrary effectful code that may throw; it is modelled in a state
    and exception monad over an abstract world.  An [await]ed call is a
    sequenced call: the runner is single threaded and awaits every hook
    and body before it goes on. *)

Set Warnings "-register-all".
From Stdlib Require Import ZArith String List Bool Lia.
From Stdlib Require Import Floats.SpecFloat.
From stdpp Require Import base gmap list.
Import ListNotations.

Local Open Scope string_scope.
Local Open Scope list_scope.

(* ===================================================================== *)
(** * Part I: definitions                                                 *)
(* ===================================================================== *)

(** ** Effects: mutable state and exceptions *)

Module Eff.

(** How a JavaScript call completes: it returns a value or it throws
    (for an awaited promise: it resolves or it rejects). *)
Inductive completion (E A : Type) : Type :=
| Returns (a : A)
| Throws (e : E).
Arguments Returns {E A} a.
Arguments Throws {E A} e.

Definition M (S E A : Type) : Type := S -> S * completion E A.

Definition ret {S E A} (a : A) : M S E A := fun s => (s, Returns a).

Definition throw {S E A} (e : E) : M S E A := fun s => (s, Throws e).

Definition bind {S E A B} (m : M S E A) (k : A -> M S E B) : M S E B :=
  fun s =>
    match m s with
    | (s', Returns a) => k a s'
    | (s', Throws e) => (s', Throws e)
    end.

(** [try { body } catch (e) { handler e }]: the state changes made by
    [body] before it threw stay. *)
Definition try_catch {S E A} (body : M S E A) (handler : E -> M S E A)
  : M S E A :=
  fun s =>
    match body s with
    | (s', Returns a) => (s', Returns a)
    | (s', Throws e) => handler e s'
    end.

(** [try { body } finally { cleanup }] for a [cleanup] that is a plain
    assignment: it runs on both exits and the completion of [body] is
    kept. *)
Definition try_finally {S E A} (body : M S E A) (cleanup : S -> S)
  : M S E A :=
  fun s => let (s', c) := body s in (cleanup s', c).

Definition get {S E} : M S E S := fun s => (s, Returns s).

Definition modify {S E} (f : S -> S) : M S E unit :=
  fun s => (f s, Returns tt).

Declare Scope eff_scope.
Delimit Scope eff_scope with eff.
Notation "x <- c ;; k" := (bind c (fun x => k))
  (at level 100, c at next level, right associativity) : eff_scope.
Notation "c ;;; k" := (bind c (fun _ => k))
  (at level 100, right associativity) : eff_scope.

(** [for (const x of xs) { await body x }]: sequential, left to right,
    left at the first iteration that throws. *)
Fixpoint for_of {S E X} (xs : list X) (body : X -> M S E unit)
  : M S E unit :=
  match xs with
  | [] => ret tt
  | x :: rest => bind (body x) (fun _ => for_of rest body)
  end.

(** A [for ... of] loop whose body updates a local accumulator (the
    [results] array of the runner). *)
Fixpoint for_of_acc {S E X R} (xs : list X) (body : R -> X -> M S E R)
  (acc : R) : M S E R :=
  match xs with
  | [] => ret acc
  | x :: rest => bind (body acc x) (fun acc' => for_of_acc rest body acc')
  end.

End Eff.

Import Eff.
Local Open Scope eff_scope.

(** ** The suite tree (runner.ts, interfaces Test and Suite) *)

(** [Fn] is the type of the registered callbacks
    ([() => void | Promise<void>]). *)
Record Test (Fn : Type) : Type := mkTest {
  test_name : string;
  test_fn : Fn;
  test_skip : bool;
  test_only : bool
}.
Arguments mkTest {Fn}.
Arguments test_name {Fn}.
Arguments test_fn {Fn}.
Arguments test_skip {Fn}.
Arguments test_only {Fn}.

Inductive Suite (Fn : Type) : Type := mkSuite {
  suite_name : string;
  suite_tests : list (Test Fn);
  suite_beforeEach : list Fn;
  suite_afterEach : list Fn;
  suite_beforeAll : list Fn;
  suite_afterAll : list Fn;
  suite_suites : list (Suite Fn);
  suite_skip : bool;
  suite_only : bool
}.
Arguments mkSuite {Fn}.
Arguments suite_name {Fn}.
Arguments suite_tests {Fn}.
Arguments suite_beforeEach {Fn}.
Arguments suite_afterEach {Fn}.
Arguments suite_beforeAll {Fn}.
Arguments suite_afterAll {Fn}.
Arguments suite_suites {Fn}.
Arguments suite_skip {Fn}.
Arguments suite_only {Fn}.

(** ** The sequential runner (runner.ts, runTest .. runAllTests)

    The run phase only reads the suite objects, so the runner takes the
    suite tree as a value; [Registration.rootTrees] reads that tree off the
    registry. *)

Module Runner.

(** types.ts: AssertionResult is never built by the runner; the
    [assertions] array of every TestResult is empty. *)
Record AssertionResult : Type := mkAssertionResult {
  ar_description : string;
  ar_passed : bool
}.

Record TestResult (Err : Type) : Type := mkTestResult {
  tr_name : string;
  tr_passed : bool;
  tr_error : option Err;
  tr_duration : Z;
  tr_assertions : list AssertionResult
}.
Arguments mkTestResult {Err}.
Arguments tr_name {Err}.
Arguments tr_passed {Err}.
Arguments tr_error {Err}.
Arguments tr_duration {Err}.
Arguments tr_assertions {Err}.

Record TestSuiteResult (Err : Type) : Type := mkTestSuiteResult {
  sr_name : string;
  sr_tests : list (TestResult Err);
  sr_passed : nat;
  sr_failed : nat;
  sr_skipped : nat;
  sr_duration : Z
}.
Arguments mkTestSuiteResult {Err}.
Arguments sr_name {Err}.
Arguments sr_tests {Err}.
Arguments sr_passed {Err}.
Arguments sr_failed {Err}.
Arguments sr_skipped {Err}.
Arguments sr_duration {Err}.

Section WithWorld.

(** [World] is everything user code can read and write; [Err] is what
    it can throw. *)
Context {World Err : Type}.

(** [Date.now()]: reads the clock (and may let time pass). *)
Variable Date_now : World -> World * Z.

Definition Run (A : Type) : Type := M World Err A.

(** A hook or a test body, awaited. *)
Definition Action : Type := Run unit.

Definition date_now : Run Z :=
  fun w => let (w', t) := Date_now w in (w', Returns t).

(** [for (const hook of hooks) { await hook(); }] *)
Definition runHooks (hooks : list Action) : Run unit :=
  for_of hooks (fun hook => hook).

Definition runTest (test : Test Action) (suite : Suite Action)
  : Run (TestResult Err) :=
  startTime <- date_now ;;
  let assertions : list AssertionResult := [] in
  try_catch
    (runHooks (suite_beforeEach suite) ;;;
     test_fn test ;;;
     runHooks (suite_afterEach suite) ;;;
     endTime <- date_now ;;
     ret {| tr_name := test_name test;
            tr_passed := true;
            tr_error := None;
            tr_duration := endTime - startTime;
            tr_assertions := assertions |})
    (fun error =>
       try_catch (runHooks (suite_afterEach suite))
                 (fun hookError => ret tt) ;;;
       endTime <- date_now ;;
       ret {| tr_name := test_name test;
              tr_passed := false;
              tr_error := Some error;
              tr_duration := endTime - startTime;
              tr_assertions := assertions |}).

(** [parentName ? `${parentName} > ${suite.name}` : suite.name]: the
    empty string is falsy. *)
Definition fullNameOf (parentName name : string) : string :=
  if String.eqb parentName "" then name
  else parentName ++ " > " ++ name.

(** [suite.tests.some(t => t.only) || suite.suites.some(s => s.only)] *)
Definition hasOnlyOf (suite : Suite Action) : bool :=
  existsb test_only (suite_tests suite)
  || existsb suite_only (suite_suites suite).

(** The record pushed for a skipped test. *)
Definition skippedResult (test : Test Action) : TestResult Err :=
  {| tr_name := test_name test;
     tr_passed := true;
     tr_error := None;
     tr_duration := 0;
     tr_assertions := [] |}.

(** One iteration of the loop over [suite.tests]. *)
Definition testIteration (suite : Suite Action) (hasOnly : bool)
  (results : list (TestResult Err)) (test : Test Action)
  : Run (list (TestResult Err)) :=
  if test_skip test then
    ret (results ++ [skippedResult test])
  else if hasOnly && negb (test_only test) then
    ret results
  else
    result <- runTest test suite ;;
    ret (results ++ [result]).

Definition runTests (suite : Suite Action) (hasOnly : bool)
  (results : list (TestResult Err)) : Run (list (TestResult Err)) :=
  for_of_acc (suite_tests suite) (testIteration suite hasOnly) results.

(** One iteration of the loop over [suite.suites]; [recurse] is the
    recursive call [runSuite(nestedSuite, fullName)]. *)
Definition suiteIteration
  (recurse : Suite Action -> Run (TestSuiteResult Err))
  (hasOnly : bool) (results : list (TestResult Err))
  (nestedSuite : Suite Action) : Run (list (TestResult Err)) :=
  if suite_skip nestedSuite then
    ret results
  else if hasOnly && negb (suite_only nestedSuite) then
    ret results
  else
    nestedResult <- recurse nestedSuite ;;
    ret (results ++ sr_tests nestedResult).

Definition countPassed (results : list (TestResult Err)) : nat :=
  length (List.filter (fun r => tr_passed r) results).

Definition countFailed (results : list (TestResult Err)) : nat :=
  length (List.filter (fun r => negb (tr_passed r)) results).

Definition countSkipped (tests : list (Test Action)) : nat :=
  length (List.filter (fun t => test_skip t) tests).

Fixpoint runSuite (suite : Suite Action) (parentName : string)
  {struct suite} : Run (TestSuiteResult Err) :=
  let fullName := fullNameOf parentName (suite_name suite) in
  startTime <- date_now ;;
  runHooks (suite_beforeAll suite) ;;;
  let hasOnly := hasOnlyOf suite in
  results <- runTests suite hasOnly [] ;;
  results <-
    (fix nested (l : list (Suite Action))
         (results : list (TestResult Err)) {struct l}
       : Run (list (TestResult Err)) :=
       match l with
       | [] => ret results
       | nestedSuite :: rest =>
           results' <- suiteIteration
                         (fun s => runSuite s fullName)
                         hasOnly results nestedSuite ;;
           nested rest results'
       end) (suite_suites suite) results ;;
  runHooks (suite_afterAll suite) ;;;
  endTime <- date_now ;;
  ret {| sr_name := fullName;
         sr_tests := results;
         sr_passed := countPassed results;
         sr_failed := countFailed results;
         sr_skipped := countSkipped (suite_tests suite);
         sr_duration := endTime - startTime |}.

(** The loop over [suite.suites], as [runSuite] runs it. *)
Definition runNested (fullName : string) (hasOnly : bool)
  (suites : list (Suite Action)) (results : list (TestResult Err))
  : Run (list (TestResult Err)) :=
  for_of_acc suites
    (suiteIteration (fun s => runSuite s fullName) hasOnly) results.

(** [runAllTests], reading the root registry [rootSuites]. *)
Definition runAllTests (rootSuites : list (Suite Action))
  : Run (list (TestSuiteResult Err)) :=
  for_of_acc rootSuites
    (fun results suite =>
       if suite_skip suite then ret results
       else
         result <- runSuite suite "" ;;
         ret (results ++ [result]))
    [].

(** The suite without the children that only-mode leaves out: the
    tests that are neither skipped nor marked [only], and the child
    suites that are not marked [only]. *)
Definition withoutUnfocused (suite : Suite Action) : Suite Action :=
  mkSuite (suite_name suite)
    (List.filter (fun t => test_skip t || test_only t) (suite_tests suite))
    (suite_beforeEach suite) (suite_afterEach suite)
    (suite_beforeAll suite) (suite_afterAll suite)
    (List.filter (fun s => suite_only s) (suite_suites suite))
    (suite_skip suite) (suite_only suite).

(** The direct tests that get a TestResult, in declared order. *)
Definition recordedTests (suite : Suite Action) : list (Test Action) :=
  List.filter
    (fun t => test_skip t || negb (hasOnlyOf suite && negb (test_only t)))
    (suite_tests suite).

(** The child suites that are run, in declared order. *)
Definition runChildren (suite : Suite Action) : list (Suite Action) :=
  List.filter
    (fun s => negb (suite_skip s)
              && negb (hasOnlyOf suite && negb (suite_only s)))
    (suite_suites suite).

(** The names of the flattened results in declaration order: the
    recorded direct tests, then each child suite that is run, in
    place. *)
Fixpoint declaredOrder (suite : Suite Action) : list string :=
  map test_name (recordedTests suite)
  ++ (fix children (l : list (Suite Action)) : list string :=
        match l with
        | [] => []
        | c :: rest =>
            (if negb (suite_skip c)
                && negb (hasOnlyOf suite && negb (suite_only c))
             then declaredOrder c else [])
            ++ children rest
        end) (suite_suites suite).

(** The record of a failed test. *)
Definition failedResult (test : Test Action) (error : Err)
  (duration : Z) : TestResult Err :=
  {| tr_name := test_name test;
     tr_passed := false;
     tr_error := Some error;
     tr_duration := duration;
     tr_assertions := [] |}.

(** A cleanup pass in which every hook of the list is run, in order,
    and the error of a hook that throws is discarded. *)
Definition cleanupEveryHook (hooks : list Action) : Run unit :=
  for_of hooks (fun hook => try_catch hook (fun hookError => ret tt)).

(** "When the body or a before-each hook fails, all after-each hooks
    are still run in order, errors of this pass are discarded, and the
    result is the failed record with the original error." *)
Definition cleanupRunsEveryHook (test : Test Action)
  (suite : Suite Action) (w : World) : Prop :=
  forall w0 t0 w1 e,
    Date_now w = (w0, t0) ->
    (runHooks (suite_beforeEach suite) ;;; test_fn test) w0
    = (w1, Throws e) ->
    runTest test suite w
    = (let (w2, _) := cleanupEveryHook (suite_afterEach suite) w1 in
       let (w3, t1) := Date_now w2 in
       (w3, Returns (failedResult test e (t1 - t0)))).

(** "When an after-each hook fails after a passing body, the test is
    failed with that error and the entire after-each list is executed
    a second time, errors discarded." *)
Definition secondPassRunsEveryHook (test : Test Action)
  (suite : Suite Action) (w : World) : Prop :=
  forall w0 t0 w2 w3 e,
    Date_now w = (w0, t0) ->
    (runHooks (suite_beforeEach suite) ;;; test_fn test) w0
    = (w2, Returns tt) ->
    runHooks (suite_afterEach suite) w2 = (w3, Throws e) ->
    runTest test suite w
    = (let (w4, _) := cleanupEveryHook (suite_afterEach suite) w3 in
       let (w5, t1) := Date_now w4 in
       (w5, Returns (failedResult test e (t1 - t0)))).

(** No before-all or after-all hook of the tree ever throws. *)
Fixpoint suiteHooksReturn (suite : Suite Action) : Prop :=
  (forall hook,
      In hook (suite_beforeAll suite ++ suite_afterAll suite) ->
      forall w, exists w', hook w = (w', Returns tt))
  /\ (fix children (l : list (Suite Action)) : Prop :=
        match l with
        | [] => True
        | c :: rest => suiteHooksReturn c /\ children rest
        end) (suite_suites suite).

End WithWorld.

End Runner.

(** ** Thrown values *)

(** What user code and the framework throw: [new Error(message)], or any
    other value. *)
Inductive Thrown (V : Type) : Type :=
| JsError (message : string)
| ThrownValue (v : V).
Arguments JsError {V} message.
Arguments ThrownValue {V} v.

(** ** The registration API (runner.ts, test .. afterAll, clearSuites) *)

Module Registration.

(** Suite objects are shared and mutated in place: [currentSuite] and the
    [suites] array of its parent (or [rootSuites]) alias the same
    object.  Objects live in a store and are named by their address. *)
Abbreviation loc := nat.

Section WithFn.

Context {Fn V : Type}.

Record SuiteObj : Type := mkSuiteObj {
  so_name : string;
  so_tests : list (Test Fn);
  so_beforeEach : list Fn;
  so_afterEach : list Fn;
  so_beforeAll : list Fn;
  so_afterAll : list Fn;
  so_suites : list loc;
  so_skip : bool;
  so_only : bool
}.

(** The module state of runner.ts: the two module variables and the
    store of suite objects they point into. *)
Record ModuleState : Type := mkModuleState {
  store : gmap loc SuiteObj;
  currentSuite : option loc;
  rootSuites : list loc
}.

(** Registration code and definition actions: they act on the module
    state and may throw. *)
Definition Reg (A : Type) : Type := M ModuleState (Thrown V) A.

Definition set_currentSuite (c : option loc) (st : ModuleState)
  : ModuleState :=
  {| store := store st; currentSuite := c; rootSuites := rootSuites st |}.

(** The object literal [{ name, tests: [], ..., skip, only }]: a new
    object at an unused address. *)
Definition emptySuite (name : string) (skip only : bool) : SuiteObj :=
  {| so_name := name; so_tests := []; so_beforeEach := [];
     so_afterEach := []; so_beforeAll := []; so_afterAll := [];
     so_suites := []; so_skip := skip; so_only := only |}.

Definition newSuite (name : string) (skip only : bool) : Reg loc :=
  fun st =>
    let l := fresh (dom (store st)) in
    ({| store := <[l := emptySuite name skip only]> (store st);
        currentSuite := currentSuite st;
        rootSuites := rootSuites st |}, Returns l).

(** In-place update of the object at [l]. *)
Definition update (l : loc) (f : SuiteObj -> SuiteObj) : Reg unit :=
  modify (fun st =>
    {| store := alter f l (store st);
       currentSuite := currentSuite st;
       rootSuites := rootSuites st |}).

Definition push_test (t : Test Fn) (o : SuiteObj) : SuiteObj :=
  {| so_name := so_name o; so_tests := so_tests o ++ [t];
     so_beforeEach := so_beforeEach o; so_afterEach := so_afterEach o;
     so_beforeAll := so_beforeAll o; so_afterAll := so_afterAll o;
     so_suites := so_suites o; so_skip := so_skip o;
     so_only := so_only o |}.

Definition push_beforeEach (fn : Fn) (o : SuiteObj) : SuiteObj :=
  {| so_name := so_name o; so_tests := so_tests o;
     so_beforeEach := so_beforeEach o ++ [fn];
     so_afterEach := so_afterEach o;
     so_beforeAll := so_beforeAll o; so_afterAll := so_afterAll o;
     so_suites := so_suites o; so_skip := so_skip o;
     so_only := so_only o |}.

Definition push_afterEach (fn : Fn) (o : SuiteObj) : SuiteObj :=
  {| so_name := so_name o; so_tests := so_tests o;
     so_beforeEach := so_beforeEach o;
     so_afterEach := so_afterEach o ++ [fn];
     so_beforeAll := so_beforeAll o; so_afterAll := so_afterAll o;
     so_suites := so_suites o; so_skip := so_skip o;
     so_only := so_only o |}.

Definition push_beforeAll (fn : Fn) (o : SuiteObj) : SuiteObj :=
  {| so_name := so_name o; so_tests := so_tests o;
     so_beforeEach := so_beforeEach o; so_afterEach := so_afterEach o;
     so_beforeAll := so_beforeAll o ++ [fn];
     so_afterAll := so_afterAll o;
     so_suites := so_suites o; so_skip := so_skip o;
     so_only := so_only o |}.

Definition push_afterAll (fn : Fn) (o : SuiteObj) : SuiteObj :=
  {| so_name := so_name o; so_tests := so_tests o;
     so_beforeEach := so_beforeEach o; so_afterEach := so_afterEach o;
     so_beforeAll := so_beforeAll o;
     so_afterAll := so_afterAll o ++ [fn];
     so_suites := so_suites o; so_skip := so_skip o;
     so_only := so_only o |}.

Definition push_suite (child : loc) (o : SuiteObj) : SuiteObj :=
  {| so_name := so_name o; so_tests := so_tests o;
     so_beforeEach := so_beforeEach o; so_afterEach := so_afterEach o;
     so_beforeAll := so_beforeAll o; so_afterAll := so_afterAll o;
     so_suites := so_suites o ++ [child]; so_skip := so_skip o;
     so_only := so_only o |}.

(** [if (!currentSuite) throw new Error(msg); currentSuite.<push>] *)
Definition inCurrentSuite (msg : string) (f : SuiteObj -> SuiteObj)
  : Reg unit :=
  st <- get ;;
  match currentSuite st with
  | None => throw (JsError msg)
  | Some l => update l f
  end.

Definition test (name : string) (fn : Fn) : Reg unit :=
  inCurrentSuite "test() must be called inside describe()"
    (push_test (mkTest name fn false false)).

Definition test_dot_skip (name : string) (fn : Fn) : Reg unit :=
  inCurrentSuite "test.skip() must be called inside describe()"
    (push_test (mkTest name fn true false)).

Definition test_dot_only (name : string) (fn : Fn) : Reg unit :=
  inCurrentSuite "test.only() must be called inside describe()"
    (push_test (mkTest name fn false true)).

Definition beforeEach (fn : Fn) : Reg unit :=
  inCurrentSuite "beforeEach() must be called inside describe()"
    (push_beforeEach fn).

Definition afterEach (fn : Fn) : Reg unit :=
  inCurrentSuite "afterEach() must be called inside describe()"
    (push_afterEach fn).

Definition beforeAll (fn : Fn) : Reg unit :=
  inCurrentSuite "beforeAll() must be called inside describe()"
    (push_beforeAll fn).

Definition afterAll (fn : Fn) : Reg unit :=
  inCurrentSuite "afterAll() must be called inside describe()"
    (push_afterAll fn).

(** [if (currentSuite) currentSuite.suites.push(suite);
     else rootSuites.push(suite);] *)
Definition attach (suite : loc) : Reg unit :=
  st <- get ;;
  match currentSuite st with
  | Some parent => update parent (push_suite suite)
  | None =>
      modify (fun st =>
        {| store := store st; currentSuite := currentSuite st;
           rootSuites := rootSuites st ++ [suite] |})
  end.

(** [const previousSuite = currentSuite; currentSuite = suite;
     try { fn(); } finally { currentSuite = previousSuite; }] *)
Definition enter (suite : loc) (fn : Reg unit) : Reg unit :=
  st <- get ;;
  let previousSuite := currentSuite st in
  modify (set_currentSuite (Some suite)) ;;;
  try_finally fn (set_currentSuite previousSuite).

Definition describe (name : string) (fn : Reg unit) : Reg unit :=
  suite <- newSuite name false false ;;
  attach suite ;;;
  enter suite fn.

(** [describe.skip] never calls [fn]. *)
Definition describe_dot_skip (name : string) (fn : Reg unit) : Reg unit :=
  suite <- newSuite name true false ;;
  attach suite.

Definition describe_dot_only (name : string) (fn : Reg unit) : Reg unit :=
  suite <- newSuite name false true ;;
  attach suite ;;;
  enter suite fn.

(** [rootSuites.length = 0; currentSuite = null;] *)
Definition clearSuites : Reg unit :=
  modify (fun st =>
    {| store := store st; currentSuite := None; rootSuites := [] |}).

Definition initialState : ModuleState :=
  {| store := ∅; currentSuite := None; rootSuites := [] |}.

(** The tree the runner walks from a suite object.  [fuel] bounds the
    depth; the registration API only builds finite trees. *)
Fixpoint treeOf (fuel : nat) (h : gmap loc SuiteObj) (l : loc)
  : option (Suite Fn) :=
  match fuel with
  | O => None
  | S fuel' =>
      match h !! l with
      | None => None
      | Some o =>
          match mapM (treeOf fuel' h) (so_suites o) with
          | None => None
          | Some children =>
              Some (mkSuite (so_name o) (so_tests o) (so_beforeEach o)
                      (so_afterEach o) (so_beforeAll o) (so_afterAll o)
                      children (so_skip o) (so_only o))
          end
      end
  end.

Definition rootTrees (fuel : nat) (st : ModuleState)
  : option (list (Suite Fn)) :=
  mapM (treeOf fuel (store st)) (rootSuites st).

(** The state in which a definition action is started: a new suite
    has been constructed, appended to the children of the current suite
    (to the root registry when there is none) and made the current
    suite. *)
Definition stateAtEntry (name : string) (skip only : bool)
  (st : ModuleState) : ModuleState :=
  let l := fresh (dom (store st)) in
  let created := <[l := emptySuite name skip only]> (store st) in
  match currentSuite st with
  | Some parent =>
      {| store := alter (push_suite l) parent created;
         currentSuite := Some l;
         rootSuites := rootSuites st |}
  | None =>
      {| store := created;
         currentSuite := Some l;
         rootSuites := rootSuites st ++ [l] |}
  end.

(** The current-suite pointer points at a suite object. *)
Definition currentIsLive (st : ModuleState) : Prop :=
  forall p, currentSuite st = Some p -> is_Some (store st !! p).

End WithFn.

Arguments SuiteObj : clear implicits.
Arguments ModuleState : clear implicits.
Arguments Reg : clear implicits.

End Registration.

(** ** The assertion engine (expect.ts) *)

Module Expect.

(** JavaScript values as the matchers see them.  A number is an IEEE 754
    value ([spec_float]: signed zeros, infinities, one NaN, finite
    values).  Objects and functions have an identity [ref]; an object
    carries its own enumerable string-keyed properties in the order of
    [Object.keys] (an array is the object keyed by its indices).  Values
    are finite trees: cyclic objects are not represented. *)
Inductive JsValue : Type :=
| VUndefined
| VNull
| VBool (b : bool)
| VNumber (x : spec_float)
| VString (s : string)
| VFunction (ref : nat)
| VObject (ref : nat) (props : list (string * JsValue)).

Definition NaN : JsValue := VNumber S754_nan.
Definition posZero : JsValue := VNumber (S754_zero false).
Definition negZero : JsValue := VNumber (S754_zero true).
(** The number [n] for a positive integer [n] (mantissa [n], exponent 0). *)
Definition num (n : positive) : JsValue := VNumber (S754_finite false n 0).

Inductive JsType : Type :=
| TUndefined | TObject | TBoolean | TNumber | TString | TFunction.

Definition JsType_eqb (a b : JsType) : bool :=
  match a, b with
  | TUndefined, TUndefined | TObject, TObject | TBoolean, TBoolean
  | TNumber, TNumber | TString, TString | TFunction, TFunction => true
  | _, _ => false
  end.

(** [typeof v]; [typeof null] is ['object']. *)
Definition typeof (v : JsValue) : JsType :=
  match v with
  | VUndefined => TUndefined
  | VNull => TObject
  | VBool _ => TBoolean
  | VNumber _ => TNumber
  | VString _ => TString
  | VFunction _ => TFunction
  | VObject _ _ => TObject
  end.

(** SameValue on numbers (ECMAScript Number::sameValue): NaN is the same
    as NaN, +0 and -0 differ, otherwise numeric equality. *)
Definition Number_sameValue (x y : spec_float) : bool :=
  match x, y with
  | S754_nan, S754_nan => true
  | S754_zero sx, S754_zero sy => Bool.eqb sx sy
  | _, _ =>
      match SFcompare x y with
      | Some Eq => true
      | _ => false
      end
  end.

(** [Object.is(a, b)]: SameValue. *)
Definition Object_is (a b : JsValue) : bool :=
  match a, b with
  | VUndefined, VUndefined => true
  | VNull, VNull => true
  | VBool x, VBool y => Bool.eqb x y
  | VNumber x, VNumber y => Number_sameValue x y
  | VString x, VString y => String.eqb x y
  | VFunction r, VFunction r' => Nat.eqb r r'
  | VObject r _, VObject r' _ => Nat.eqb r r'
  | _, _ => false
  end.

(** [v === null] *)
Definition isNull (v : JsValue) : bool :=
  match v with VNull => true | _ => false end.

(** [Object.keys(o)] of a property list. *)
Definition keysOf (props : list (string * JsValue)) : list string :=
  map fst props.

(** [keys.includes(key)] *)
Definition includes (keys : list string) (key : string) : bool :=
  existsb (String.eqb key) keys.

(** [o[key]]: the first entry for [key]; [undefined] when there is none. *)
Fixpoint getProp (props : list (string * JsValue)) (key : string)
  : JsValue :=
  match props with
  | [] => VUndefined
  | (k, v) :: rest => if String.eqb key k then v else getProp rest key
  end.

(** [deepEqual(a, b)].  The loop [for (const key of keysA)] walks the
    entries of [a], so [a[key]] is the value of the entry. *)
Fixpoint deepEqual (a b : JsValue) {struct a} : bool :=
  if Object_is a b then true
  else if isNull a || isNull b then false
  else if negb (JsType_eqb (typeof a) TObject)
          || negb (JsType_eqb (typeof b) TObject) then false
  else
    match a, b with
    | VObject _ propsA, VObject _ propsB =>
        let keysB := keysOf propsB in
        if negb (Nat.eqb (length (keysOf propsA)) (length keysB)) then false
        else
          (fix each (entries : list (string * JsValue)) : bool :=
             match entries with
             | [] => true
             | (key, valueA) :: rest =>
                 if negb (includes keysB key) then false
                 else if negb (deepEqual valueA (getProp propsB key))
                 then false
                 else each rest
             end) propsA
    | _, _ => false
    end.

(** [message.replace('Expected', 'Expected not')]: the first occurrence
    of a plain string pattern. *)
Fixpoint replaceFirst (pattern replacement s : string) : string :=
  if String.prefix pattern s then
    replacement ++ String.substring (String.length pattern)
                     (String.length s - String.length pattern) s
  else
    match s with
    | EmptyString => EmptyString
    | String c rest => String c (replaceFirst pattern replacement rest)
    end.

Record AssertionError : Type := mkAssertionError {
  ae_message : string;
  ae_expected : JsValue;
  ae_actual : JsValue
}.

Record ExpectImpl : Type := mkExpectImpl {
  value : JsValue;
  isNot : bool
}.

(** [expect(value)] *)
Definition expect (v : JsValue) : ExpectImpl :=
  {| value := v; isNot := false |}.

(** [get not()] *)
Definition not_ (e : ExpectImpl) : ExpectImpl :=
  {| value := value e; isNot := negb (isNot e) |}.

Section WithFormat.

(** The message text is built with [String(v)], [JSON.stringify] and
    the [diff] package, which are not part of the sources. *)
Variable formatValue : JsValue -> string.
Variable getDiff : JsValue -> JsValue -> string.

(** [private assert(passed, message, expected, actual)] *)
Definition assert (e : ExpectImpl) (passed : bool) (message : string)
  (expected actual : JsValue) : completion AssertionError unit :=
  let passed := if isNot e then negb passed else passed in
  let message :=
    if isNot e then replaceFirst "Expected" "Expected not" message
    else message in
  if negb passed then Throws (mkAssertionError message expected actual)
  else Returns tt.

Definition toBe (e : ExpectImpl) (expected : JsValue)
  : completion AssertionError unit :=
  let passed := Object_is (value e) expected in
  assert e passed
    ("Expected " ++ formatValue (value e) ++ " to be "
       ++ formatValue expected)
    expected (value e).

Definition toEqual (e : ExpectImpl) (expected : JsValue)
  : completion AssertionError unit :=
  let passed := deepEqual (value e) expected in
  assert e passed
    ("Expected " ++ formatValue (value e) ++ " to equal "
       ++ formatValue expected ++ getDiff (value e) expected)
    expected (value e).

End WithFormat.

(** [typeof v === 'object' && v !== null] *)
Definition isObject (v : JsValue) : bool :=
  JsType_eqb (typeof v) TObject && negb (isNull v).

(** A matcher call passes when it returns normally. *)
Definition passes {E A} (c : completion E A) : bool :=
  match c with Returns _ => true | Throws _ => false end.

End Expect.

(** ** The call recorder (mock.ts) *)

Module Mock.

Section WithWorld.

(** [World] is the state user implementations act on; [Value] the
    values passed around, with [undefined] among them. *)
Context {World Value : Type}.
Variable undefined : Value.
Variable Date_now : World -> World * Z.

(** A user-supplied [Function], called and awaited: it may change the
    world, and returns or throws. *)
Definition UserFn : Type := list Value -> M World (Thrown Value) Value.

(** [throwError?: Error | string] and the argument of
    [mockRejectedValue]. *)
Inductive ErrorSpec : Type :=
| ErrString (s : string)
| ErrObject (e : Thrown Value).

(** [typeof error === 'string' ? new Error(error) : error] *)
Definition toError (spec : ErrorSpec) : Thrown Value :=
  match spec with
  | ErrString s => JsError s
  | ErrObject e => e
  end.

(** Truthiness of [options.throwError]: the empty string is falsy. *)
Definition truthy (spec : ErrorSpec) : bool :=
  match spec with
  | ErrString s => negb (String.eqb s "")
  | ErrObject _ => true
  end.

(** types.ts, MockToolOptions.  An absent or [undefined] property is
    [None]. *)
Record MockToolOptions : Type := mkOptions {
  opt_returnValue : option Value;
  opt_implementation : option UserFn;
  opt_throwError : option ErrorSpec
}.

(** The closures stored in [this.implementation].  The closure of
    [mockReturnValueOnce] owns the mutable flag [called].  The closure
    [() => options.returnValue] of the constructor holds the options object
    of the caller, which the caller can still assign to, and reads its
    [returnValue] at every call. *)
Inductive Implementation : Type :=
| UserImpl (fn : UserFn)
| ReturnImpl (value : Value)
| ThrowImpl (error : Thrown Value)
| OnceImpl (called : bool) (value : Value)
           (oldImpl : option Implementation)
| ResolvedImpl (value : Value)
| RejectedImpl (error : ErrorSpec)
| OptionsReturnImpl (options : MockToolOptions).

Record MockCall : Type := mkMockCall {
  mc_args : list Value;
  mc_timestamp : Z;
  mc_result : option Value;
  mc_error : option (Thrown Value)
}.

Record MockFunction : Type := mkMockFunction {
  mf_name : string;
  mf_implementation : option Implementation;
  mf_calls : list MockCall;
  mf_returnValues : list Value;
  mf_errors : list (Thrown Value)
}.

(** [new MockFunction(name, options)].  The [returnValue] branch stores
    the closure [() => options.returnValue], not the value it finds. *)
Definition new_MockFunction (name : string)
  (options : option MockToolOptions) : MockFunction :=
  let implementation :=
    match options with
    | None => None
    | Some o =>
        match opt_implementation o with
        | Some fn => Some (UserImpl fn)
        | None =>
            match opt_returnValue o with
            | Some _ => Some (OptionsReturnImpl o)
            | None =>
                match opt_throwError o with
                | Some spec =>
                    if truthy spec then Some (ThrowImpl (toError spec))
                    else None
                | None => None
                end
            end
        end
    end in
  {| mf_name := name; mf_implementation := implementation;
     mf_calls := []; mf_returnValues := []; mf_errors := [] |}.

(** [await impl(...args)]: the completion, and the closure after the
    call. *)
Fixpoint callImpl (impl : Implementation) (args : list Value)
  (w : World) : World * completion (Thrown Value) Value * Implementation :=
  match impl with
  | UserImpl fn => (fn args w, impl)
  | ReturnImpl value => (w, Returns value, impl)
  | ThrowImpl error => (w, Throws error, impl)
  | OnceImpl false value oldImpl =>
      (w, Returns value, OnceImpl true value oldImpl)
  | OnceImpl true value None => (w, Returns undefined, impl)
  | OnceImpl true value (Some old) =>
      let '(w', c, old') := callImpl old args w in
      (w', c, OnceImpl true value (Some old'))
  | ResolvedImpl value => (w, Returns value, impl)
  | RejectedImpl error => (w, Throws (toError error), impl)
  | OptionsReturnImpl options =>
      (w, Returns (match opt_returnValue options with
                   | Some value => value
                   | None => undefined
                   end), impl)
  end.

(** [options.returnValue = value], done by the caller on the object it
    gave to the constructor ([None] is [undefined]): the closure that holds
    the object sees the new value, wherever it is in the chain of
    [mockReturnValueOnce] closures. *)
Fixpoint assignReturnValue (value : option Value) (impl : Implementation)
  : Implementation :=
  match impl with
  | OptionsReturnImpl options =>
      OptionsReturnImpl {| opt_returnValue := value;
                           opt_implementation := opt_implementation options;
                           opt_throwError := opt_throwError options |}
  | OnceImpl called v (Some old) =>
      OnceImpl called v (Some (assignReturnValue value old))
  | _ => impl
  end.

(** The state [execute] acts on: the world and the recorder. *)
Definition MockM (A : Type) : Type :=
  M (World * MockFunction) (Thrown Value) A.

Definition updateMock (f : MockFunction -> MockFunction) : MockM unit :=
  modify (fun s => (fst s, f (snd s))).

Definition pushCall (c : MockCall) : MockM unit :=
  updateMock (fun m =>
    {| mf_name := mf_name m; mf_implementation := mf_implementation m;
       mf_calls := mf_calls m ++ [c];
       mf_returnValues := mf_returnValues m; mf_errors := mf_errors m |}).

Definition pushReturnValue (v : Value) : MockM unit :=
  updateMock (fun m =>
    {| mf_name := mf_name m; mf_implementation := mf_implementation m;
       mf_calls := mf_calls m;
       mf_returnValues := mf_returnValues m ++ [v];
       mf_errors := mf_errors m |}).

Definition pushError (e : Thrown Value) : MockM unit :=
  updateMock (fun m =>
    {| mf_name := mf_name m; mf_implementation := mf_implementation m;
       mf_calls := mf_calls m;
       mf_returnValues := mf_returnValues m;
       mf_errors := mf_errors m ++ [e] |}).

Definition setImplementation (i : option Implementation)
  (m : MockFunction) : MockFunction :=
  {| mf_name := mf_name m; mf_implementation := i;
     mf_calls := mf_calls m; mf_returnValues := mf_returnValues m;
     mf_errors := mf_errors m |}.

(** [Date.now()] *)
Definition date_now : MockM Z :=
  fun s =>
    let (w', t) := Date_now (fst s) in ((w', snd s), Returns t).

(** [this.implementation ? await this.implementation(...args)
                         : undefined] *)
Definition callImplementation (args : list Value) : MockM Value :=
  fun s =>
    match mf_implementation (snd s) with
    | None => (s, Returns undefined)
    | Some impl =>
        let '(w', c, impl') := callImpl impl args (fst s) in
        ((w', setImplementation (Some impl') (snd s)), c)
    end.

Definition execute (args : list Value) : MockM Value :=
  timestamp <- date_now ;;
  let call := {| mc_args := args; mc_timestamp := timestamp;
                 mc_result := None; mc_error := None |} in
  try_catch
    (result <- callImplementation args ;;
     let call := {| mc_args := mc_args call;
                    mc_timestamp := mc_timestamp call;
                    mc_result := Some result;
                    mc_error := mc_error call |} in
     pushCall call ;;;
     pushReturnValue result ;;;
     ret result)
    (fun error =>
       let call := {| mc_args := mc_args call;
                      mc_timestamp := mc_timestamp call;
                      mc_result := mc_result call;
                      mc_error := Some error |} in
       pushCall call ;;;
       pushError error ;;;
       throw error).

Definition mockReturnValue (value : Value) (m : MockFunction)
  : MockFunction :=
  setImplementation (Some (ReturnImpl value)) m.

Definition mockReturnValueOnce (value : Value) (m : MockFunction)
  : MockFunction :=
  let oldImpl := mf_implementation m in
  setImplementation (Some (OnceImpl false value oldImpl)) m.

Definition mockResolvedValue (value : Value) (m : MockFunction)
  : MockFunction :=
  setImplementation (Some (ResolvedImpl value)) m.

Definition mockRejectedValue (error : ErrorSpec) (m : MockFunction)
  : MockFunction :=
  setImplementation (Some (RejectedImpl error)) m.

Definition mockImplementation (fn : UserFn) (m : MockFunction)
  : MockFunction :=
  setImplementation (Some (UserImpl fn)) m.

Definition mockClear (m : MockFunction) : MockFunction :=
  {| mf_name := mf_name m; mf_implementation := mf_implementation m;
     mf_calls := []; mf_returnValues := []; mf_errors := [] |}.

Definition mockReset (m : MockFunction) : MockFunction :=
  setImplementation None (mockClear m).

(** [mockTool(name, options)] *)
Definition mockTool (name : string) (options : option MockToolOptions)
  : MockFunction :=
  new_MockFunction name options.

(** The calls a test can make on a recorder, and its assignment to the
    [returnValue] of the options object it built the recorder with. *)
Inductive MockOp : Type :=
| OpExecute (args : list Value)
| OpMockReturnValue (value : Value)
| OpMockReturnValueOnce (value : Value)
| OpMockResolvedValue (value : Value)
| OpMockRejectedValue (error : ErrorSpec)
| OpMockImplementation (fn : UserFn)
| OpMockClear
| OpMockReset
| OpAssignReturnValue (value : option Value).

(** One call; a throwing [execute] is caught by the caller. *)
Definition step (s : World * MockFunction) (op : MockOp)
  : World * MockFunction :=
  match op with
  | OpExecute args => fst (execute args s)
  | OpMockReturnValue v => (fst s, mockReturnValue v (snd s))
  | OpMockReturnValueOnce v => (fst s, mockReturnValueOnce v (snd s))
  | OpMockResolvedValue v => (fst s, mockResolvedValue v (snd s))
  | OpMockRejectedValue e => (fst s, mockRejectedValue e (snd s))
  | OpMockImplementation fn => (fst s, mockImplementation fn (snd s))
  | OpMockClear => (fst s, mockClear (snd s))
  | OpMockReset => (fst s, mockReset (snd s))
  | OpAssignReturnValue v =>
      (fst s,
       setImplementation
         (option_map (assignReturnValue v) (mf_implementation (snd s)))
         (snd s))
  end.

Definition steps (s : World * MockFunction) (ops : list MockOp)
  : World * MockFunction :=
  fold_left step ops s.

(** [expect(mock).toHaveBeenCalledTimes(times)]: the pass condition. *)
Definition calledTimes (m : MockFunction) (times : nat) : bool :=
  Nat.eqb (length (mf_calls m)) times.

(** Exactly one of [result] and [error] is set in a call record. *)
Definition exactlyOne (c : MockCall) : bool :=
  match mc_result c, mc_error c with
  | Some _, None | None, Some _ => true
  | _, _ => false
  end.

(** The message of a thrown [Error]. *)
Definition messageOf (e : Thrown Value) : option string :=
  match e with
  | JsError message => Some message
  | ThrownValue _ => None
  end.

End WithWorld.

End Mock.

(** ** Concrete worlds, suites and recorders used in the examples *)

Module Samples.

(** A world with a millisecond clock and a log of what user code did. *)
Record W : Type := mkW { clock : Z; log : list string }.

(** Every reading of the clock takes one millisecond. *)
Definition tick (w : W) : W * Z :=
  ({| clock := clock w + 1; log := log w |}, clock w).

Definition w0 : W := {| clock := 0; log := [] |}.

Definition Act : Type := @Runner.Action W string.

(** A callback that writes [s] to the log. *)
Definition say (s : string) : Act :=
  fun w => ({| clock := clock w; log := log w ++ [s] |}, Returns tt).

(** A callback that writes [s] to the log and throws [e]. *)
Definition fail (s e : string) : Act :=
  fun w => ({| clock := clock w; log := log w ++ [s] |}, Throws e).

(** A callback that succeeds on its first call and throws [e] on every
    later one (a cleanup that must not run twice). *)
Definition once (s e : string) : Act :=
  fun w =>
    ({| clock := clock w; log := log w ++ [s] |},
     if existsb (String.eqb s) (log w) then Throws e else Returns tt).

(** The tests of the sample suites. *)
Definition later : Test Act := mkTest "later" (say "later") true false.
Definition adds : Test Act := mkTest "adds" (say "adds") false false.
Definition breaks : Test Act :=
  mkTest "breaks" (fail "breaks" "boom") false false.
Definition bodyFails : Test Act :=
  mkTest "body fails" (fail "body" "body error") false false.
Definition bodyPasses : Test Act :=
  mkTest "body passes" (say "body") false false.

Definition leaf (name : string) (tests : list (Test Act))
  (skip only : bool) : Suite Act :=
  mkSuite name tests [] [] [] [] [] skip only.

(** describe('Math', () => {
      test('adds', ..); test.skip('later', ..); test.only('focus', ..);
      describe('inner', () => { test('deep', ..) });
      describe.only('chosen', () => { test('kept', ..) }) }) *)
Definition onlySuite : Suite Act :=
  mkSuite "Math"
    [ mkTest "adds" (say "adds") false false;
      mkTest "later" (say "later") true false;
      mkTest "focus" (say "focus") false true ]
    [say "beforeEach"] [say "afterEach"] [say "beforeAll"] [say "afterAll"]
    [ leaf "inner" [mkTest "deep" (say "deep") false false] false false;
      leaf "chosen" [mkTest "kept" (say "kept") false false] false true ]
    false false.

(** The same suite with no [only] marker anywhere. *)
Definition plainSuite : Suite Act :=
  mkSuite "Math"
    [ mkTest "adds" (say "adds") false false;
      mkTest "later" (say "later") true false;
      mkTest "breaks" (fail "breaks" "boom") false false ]
    [say "beforeEach"] [say "afterEach"] [say "beforeAll"] [say "afterAll"]
    [ leaf "inner" [mkTest "deep" (say "deep") false false] false false;
      leaf "hidden" [mkTest "never" (say "never") false false] true false;
      leaf "last" [mkTest "end" (say "end") false false] false false ]
    false false.

(** A failing body followed by a cleanup whose first hook throws. *)
Definition brokenCleanup : Suite Act :=
  mkSuite "cleanup"
    [ mkTest "body fails" (fail "body" "body error") false false ]
    [] [fail "after1" "cleanup error"; say "after2"] [] [] []
    false false.

(** A passing body; the second after-each hook throws. *)
Definition failingAfterEach : Suite Act :=
  mkSuite "afterEach"
    [ mkTest "body passes" (say "body") false false ]
    [] [say "a"; fail "f" "hook error"; say "c"] [] [] []
    false false.

(** A passing body; the first after-each hook must not run twice. *)
Definition closeTwice : Suite Act :=
  mkSuite "close"
    [ mkTest "body passes" (say "body") false false ]
    [] [once "close" "already closed"; say "b"; fail "f" "hook error"]
    [] [] [] false false.

(** A suite whose before-all hook throws, and one that would run next. *)
Definition badBeforeAll : Suite Act :=
  mkSuite "bad"
    [ mkTest "unreached" (say "unreached") false false ]
    [] [] [fail "beforeAll" "setup failed"] [say "afterAll"] []
    false false.

Definition badAfterAll : Suite Act :=
  mkSuite "bad"
    [ mkTest "reached" (say "reached") false false ]
    [] [] [] [fail "afterAll" "teardown failed"] []
    false false.

Definition nextSuite : Suite Act :=
  leaf "next" [mkTest "other" (say "other") false false] false false.

End Samples.

(** Definition actions used in the examples; the callbacks are named by
    strings. *)
Module RegistrationSamples.

Import Registration.

Definition R : Type := Reg string unit unit.
Definition State : Type := ModuleState string.

(** () => { test('a1', ..); describe('A1', () => { test('deep', ..) });
            throw new Error('bad definition'); test('a2', ..) } *)
Definition failingDefinition : R :=
  test "a1" "fa1" ;;;
  describe "A1" (test "deep" "fd") ;;;
  (throw (JsError "bad definition") : R) ;;;
  test "a2" "fa2".

(** try { describe('A', failingDefinition) } catch {}
    describe('B', () => { test('b1', ..); describe.skip('B1', ..);
                          describe.only('B2', () => test.only('y', ..)) }) *)
Definition twoRoots : R :=
  try_catch (describe "A" failingDefinition) (fun _ => ret tt) ;;;
  describe "B"
    (test "b1" "fb1" ;;;
     describe_dot_skip "B1" (test "x" "fx") ;;;
     describe_dot_only "B2" (test_dot_only "y" "fy")).

(** The state inside [describe('outer', ...)], before its action has
    registered anything. *)
Definition insideOuter : State :=
  stateAtEntry "outer" false false initialState.

End RegistrationSamples.

(** Values used in the examples of the assertion engine. *)
Module ExpectSamples.

Import Expect.

(** Two evaluations of the literal [{a: 1, b: {c: 2}}]: four distinct
    objects. *)
Definition nestedLeft : JsValue :=
  VObject 1 [("a", num 1); ("b", VObject 2 [("c", num 2)])].
Definition nestedRight : JsValue :=
  VObject 3 [("a", num 1); ("b", VObject 4 [("c", num 2)])].

(** [{a: 1}] and [{a: 1, b: 2}] *)
Definition small : JsValue := VObject 5 [("a", num 1)].
Definition large : JsValue := VObject 6 [("a", num 1); ("b", num 2)].

(** The arrays [[1, 2]] and [[1, 2, 3]], and the pattern [{length: 2}]. *)
Definition pair : JsValue := VObject 7 [("0", num 1); ("1", num 2)].
Definition triple : JsValue :=
  VObject 8 [("0", num 1); ("1", num 2); ("2", num 3)].
Definition lengthTwo : JsValue := VObject 9 [("length", num 2)].

(** The unlisted properties when every object is an array: its [length],
    the number of its elements. *)
Definition arrayLength (obj : JsValue) (key : string) : option JsValue :=
  match obj with
  | VObject _ props =>
      if String.eqb key "length" then
        Some (match length props with
              | O => posZero
              | S k => num (Pos.of_succ_nat k)
              end)
      else None
  | _ => None
  end.

(** A message formatter and a diff that print nothing of the values. *)
Definition plainFormat (v : JsValue) : string := "<value>".
Definition noDiff (a b : JsValue) : string := "".

End ExpectSamples.

(** A recorder used in the examples. *)
Module MockSamples.

Import Mock Samples.

(** Values are strings here; [None] is [undefined]. *)
Definition boomTool : @MockFunction W (option string) :=
  mockTool "failing-tool"
    (Some {| opt_returnValue := None; opt_implementation := None;
             opt_throwError := Some (ErrString "boom") |}).

End MockSamples.

(** ** More of the runner: what a run leaves out, and the summary
       (runner.ts, printResults; cli.ts, the [run] action) *)

Module RunnerMore.

Import Runner.

Section WithWorld.

Context {World Err : Type}.

(** A TestResult is consistent when it has an error exactly when it did not
    pass, and its [assertions] array is empty. *)
Definition consistentResult (r : TestResult Err) : bool :=
  Bool.eqb (tr_passed r) (match tr_error r with None => true | Some _ => false end)
  && match tr_assertions r with [] => true | _ :: _ => false end.

(** The suite without its skipped child suites. *)
Definition withoutSkipped (suite : Suite (@Action World Err))
  : Suite (@Action World Err) :=
  mkSuite (suite_name suite) (suite_tests suite)
    (suite_beforeEach suite) (suite_afterEach suite)
    (suite_beforeAll suite) (suite_afterAll suite)
    (List.filter (fun s => negb (suite_skip s)) (suite_suites suite))
    (suite_skip suite) (suite_only suite).

(** The suite with other before-each and after-each hooks. *)
Definition withEachHooks (beforeEach afterEach : list (@Action World Err))
  (suite : Suite (@Action World Err)) : Suite (@Action World Err) :=
  mkSuite (suite_name suite) (suite_tests suite)
    beforeEach afterEach
    (suite_beforeAll suite) (suite_afterAll suite)
    (suite_suites suite) (suite_skip suite) (suite_only suite).

(** No direct test of the suite is executed: each one is skipped or left
    out by only-mode. *)
Definition noDirectTestRuns (suite : Suite (@Action World Err)) : bool :=
  forallb (fun t => test_skip t || (hasOnlyOf suite && negb (test_only t)))
    (suite_tests suite).

(** All TestResults of a run, suite by suite. *)
Definition allResults (results : list (TestSuiteResult Err))
  : list (TestResult Err) :=
  concat (map sr_tests results).

(** [results.reduce((sum, r) => sum + r.failed, 0)] *)
Definition totalFailedOf (results : list (TestSuiteResult Err)) : nat :=
  fold_left (fun sum r => sum + sr_failed r) results 0.

(** [if (totalFailed > 0) process.exit(1)]: the [run] action ends the
    process with code 1; otherwise it returns and the process ends with
    code 0. *)
Definition exitCode (results : list (TestSuiteResult Err)) : nat :=
  if Nat.ltb 0 (totalFailedOf results) then 1 else 0.

(** The three counters of [printResults]. *)
Record Totals : Type := mkTotals {
  totalPassed : nat;
  totalFailed : nat;
  totalSkipped : nat
}.

(** The loop of [printResults] over the suites, without the printing. *)
Definition totalsOf (results : list (TestSuiteResult Err)) : Totals :=
  fold_left
    (fun t suite =>
       {| totalPassed := totalPassed t + sr_passed suite;
          totalFailed := totalFailed t + sr_failed suite;
          totalSkipped := totalSkipped t + sr_skipped suite |})
    results
    {| totalPassed := 0; totalFailed := 0; totalSkipped := 0 |}.

(** The number printed after "Total:". *)
Definition printedTotal (t : Totals) : nat := totalPassed t + totalFailed t.

(** The suite with another list of direct tests. *)
Definition withTests (tests : list (Test (@Action World Err)))
  (suite : Suite (@Action World Err)) : Suite (@Action World Err) :=
  mkSuite (suite_name suite) tests
    (suite_beforeEach suite) (suite_afterEach suite)
    (suite_beforeAll suite) (suite_afterAll suite)
    (suite_suites suite) (suite_skip suite) (suite_only suite).

(** The test with another body. *)
Definition withBody (fn : @Action World Err) (test : Test (@Action World Err))
  : Test (@Action World Err) :=
  mkTest (test_name test) fn (test_skip test) (test_only test).

(** The direct tests among [tests] that get a TestResult when only-mode is
    [hasOnly]. *)
Definition recordedAmong (hasOnly : bool)
  (tests : list (Test (@Action World Err))) : list (Test (@Action World Err)) :=
  List.filter
    (fun t => test_skip t || negb (hasOnly && negb (test_only t))) tests.

(** The suite result with the record [x] put in at index [k] of the
    flattened list, and counted as passed and as skipped. *)
Definition withSkipRecord (k : nat) (x : TestResult Err)
  (r : TestSuiteResult Err) : TestSuiteResult Err :=
  {| sr_name := sr_name r;
     sr_tests := firstn k (sr_tests r) ++ x :: skipn k (sr_tests r);
     sr_passed := S (sr_passed r);
     sr_failed := sr_failed r;
     sr_skipped := S (sr_skipped r);
     sr_duration := sr_duration r |}.

End WithWorld.

End RunnerMore.

(** More sample suites. *)
Module MoreSamples.

Import Samples.

(** describe('parent', () => {
      beforeEach(..); afterEach(..);
      describe('child', () => { test('nested', ..) }) }) *)
Definition parentWithHooks : Suite Act :=
  mkSuite "parent" []
    [say "parent beforeEach"] [say "parent afterEach"] [] []
    [ leaf "child" [mkTest "nested" (say "nested") false false] false false ]
    false false.

(** A suite in which every test passes. *)
Definition greenSuite : Suite Act :=
  leaf "green" [adds; later] false false.

End MoreSamples.

(** ** Test files as declarations

    A test file is a sequence of calls of the registration API.  [Decl] is
    the syntax of such calls (a definition action is the list of the calls
    it makes), [declare] makes them through the API, and [declaredSuites]
    is the tree a reader of the file sees. *)

Module Declarations.

Import Registration.

Inductive HookKind : Type := BeforeEach | AfterEach | BeforeAll | AfterAll.

Definition HookKind_eqb (a b : HookKind) : bool :=
  match a, b with
  | BeforeEach, BeforeEach | AfterEach, AfterEach
  | BeforeAll, BeforeAll | AfterAll, AfterAll => true
  | _, _ => false
  end.

Inductive Decl (Fn : Type) : Type :=
| DTest (name : string) (fn : Fn)
| DTestSkip (name : string) (fn : Fn)
| DTestOnly (name : string) (fn : Fn)
| DHook (kind : HookKind) (fn : Fn)
| DDescribe (name : string) (body : list (Decl Fn))
| DDescribeSkip (name : string) (body : list (Decl Fn))
| DDescribeOnly (name : string) (body : list (Decl Fn)).
Arguments DTest {Fn}.
Arguments DTestSkip {Fn}.
Arguments DTestOnly {Fn}.
Arguments DHook {Fn}.
Arguments DDescribe {Fn}.
Arguments DDescribeSkip {Fn}.
Arguments DDescribeOnly {Fn}.

Section WithFn.

Context {Fn V : Type}.

(** The API call of a declaration; the action of a [describe] makes the
    calls of its body in order. *)
Fixpoint declare (d : Decl Fn) : Reg Fn V unit :=
  let all :=
    fix all (l : list (Decl Fn)) : Reg Fn V unit :=
      match l with
      | [] => ret tt
      | d' :: rest => bind (declare d') (fun _ => all rest)
      end in
  match d with
  | DTest name fn => test name fn
  | DTestSkip name fn => test_dot_skip name fn
  | DTestOnly name fn => test_dot_only name fn
  | DHook BeforeEach fn => beforeEach fn
  | DHook AfterEach fn => afterEach fn
  | DHook BeforeAll fn => beforeAll fn
  | DHook AfterAll fn => afterAll fn
  | DDescribe name body => describe name (all body)
  | DDescribeSkip name body => describe_dot_skip name (all body)
  | DDescribeOnly name body => describe_dot_only name (all body)
  end.

(** The calls of a file or of a body, in order. *)
Definition declareAll (body : list (Decl Fn)) : Reg Fn V unit :=
  for_of body declare.

Definition isDescribe (d : Decl Fn) : bool :=
  match d with
  | DDescribe _ _ | DDescribeSkip _ _ | DDescribeOnly _ _ => true
  | _ => false
  end.

(** The test a declaration adds to the enclosing suite. *)
Definition testsOf (d : Decl Fn) : list (Test Fn) :=
  match d with
  | DTest name fn => [mkTest name fn false false]
  | DTestSkip name fn => [mkTest name fn true false]
  | DTestOnly name fn => [mkTest name fn false true]
  | _ => []
  end.

(** The hook of kind [k] a declaration adds to the enclosing suite. *)
Definition hooksOf (k : HookKind) (d : Decl Fn) : list Fn :=
  match d with
  | DHook k' fn => if HookKind_eqb k k' then [fn] else []
  | _ => []
  end.

(** The suite a declaration adds to the enclosing suite: the declarations
    of the body, each in its list, in the order in which they are written.
    The body of a [describe.skip] is not looked at. *)
Fixpoint suitesOf (d : Decl Fn) : list (Suite Fn) :=
  let children :=
    fix children (l : list (Decl Fn)) : list (Suite Fn) :=
      match l with
      | [] => []
      | d' :: rest => suitesOf d' ++ children rest
      end in
  match d with
  | DDescribe name body =>
      [mkSuite name (flat_map testsOf body)
         (flat_map (hooksOf BeforeEach) body)
         (flat_map (hooksOf AfterEach) body)
         (flat_map (hooksOf BeforeAll) body)
         (flat_map (hooksOf AfterAll) body)
         (children body) false false]
  | DDescribeSkip name body =>
      [mkSuite name [] [] [] [] [] [] true false]
  | DDescribeOnly name body =>
      [mkSuite name (flat_map testsOf body)
         (flat_map (hooksOf BeforeEach) body)
         (flat_map (hooksOf AfterEach) body)
         (flat_map (hooksOf BeforeAll) body)
         (flat_map (hooksOf AfterAll) body)
         (children body) false true]
  | _ => []
  end.

Definition declaredSuites (body : list (Decl Fn)) : list (Suite Fn) :=
  flat_map suitesOf body.

(** The suite object [o] after the declarations of [body] have been made
    in it and have put the new child suites at [news]. *)
Definition grown (o : SuiteObj Fn) (body : list (Decl Fn))
  (news : list loc) : SuiteObj Fn :=
  {| so_name := so_name o;
     so_tests := so_tests o ++ flat_map testsOf body;
     so_beforeEach := so_beforeEach o ++ flat_map (hooksOf BeforeEach) body;
     so_afterEach := so_afterEach o ++ flat_map (hooksOf AfterEach) body;
     so_beforeAll := so_beforeAll o ++ flat_map (hooksOf BeforeAll) body;
     so_afterAll := so_afterAll o ++ flat_map (hooksOf AfterAll) body;
     so_suites := so_suites o ++ news;
     so_skip := so_skip o;
     so_only := so_only o |}.

(** The objects of [h'] at addresses that [h] does not use. *)
Definition newPart (h h' : gmap loc (SuiteObj Fn)) : gmap loc (SuiteObj Fn) :=
  filter (fun kv => kv.1 ∉ dom h) h'.

(** The suite object at [l] is the root of the tree [t]. *)
Definition denotes (h : gmap loc (SuiteObj Fn)) (l : loc) (t : Suite Fn)
  : Prop :=
  exists fuel, treeOf fuel h l = Some t.

(** [run], started in [st], makes the declarations of [body]: it returns,
    leaves the current-suite pointer where it was, changes no suite object
    other than the current one, adds the tests and hooks of [body] to the
    current suite in order, and builds the suites of [body] out of new
    objects, appended in order to the children of the current suite or, when
    there is none, to the root registry. *)
Definition registers (run : Reg Fn V unit) (body : list (Decl Fn))
  (st : ModuleState Fn) : Prop :=
  exists st' news,
    run st = (st', Returns tt)
    /\ currentSuite st' = currentSuite st
    /\ (forall i x, currentSuite st <> Some i -> store st !! i = Some x ->
                    store st' !! i = Some x)
    /\ (forall l o, currentSuite st = Some l -> store st !! l = Some o ->
                    store st' !! l = Some (grown o body news)
                    /\ rootSuites st' = rootSuites st)
    /\ (currentSuite st = None -> rootSuites st' = rootSuites st ++ news)
    /\ Forall2 (denotes (newPart (store st) (store st'))) news
         (declaredSuites body).

End WithFn.

End Declarations.

(** A test file, written as declarations. *)
Module DeclarationSamples.

Import Declarations Samples.

(** describe('A', () => {
      test('a1', ..); beforeEach(..);
      describe('A1', () => { test.only('deep', ..) });
      test.skip('a2', ..); afterAll(..) });
    describe.skip('B', () => { test('never', ..) });
    describe.only('C', () => {}) *)
Definition sampleFile : list (Decl Act) :=
  [ DDescribe "A"
      [ DTest "a1" (say "a1");
        DHook BeforeEach (say "before");
        DDescribe "A1" [DTestOnly "deep" (say "deep")];
        DTestSkip "a2" (say "a2");
        DHook AfterAll (say "done") ];
    DDescribeSkip "B" [DTest "never" (say "never")];
    DDescribeOnly "C" [] ].

End DeclarationSamples.

(** ** More matchers (expect.ts) *)

Module Matchers.

Import Expect.

(** [v === undefined] *)
Definition isUndefined (v : JsValue) : bool :=
  match v with VUndefined => true | _ => false end.

(** [!!v] (ToBoolean): [undefined], [null], [false], [+0], [-0], [NaN] and
    the empty string are falsy. *)
Definition toBoolean (v : JsValue) : bool :=
  match v with
  | VUndefined | VNull => false
  | VBool b => b
  | VNumber (S754_zero _) | VNumber S754_nan => false
  | VNumber _ => true
  | VString s => negb (String.eqb s "")
  | VFunction _ | VObject _ _ => true
  end.

(** The own properties of an object; a value that is not an object has
    none to enumerate. *)
Definition propsOf (v : JsValue) : list (string * JsValue) :=
  match v with VObject _ props => props | _ => [] end.

(** All own keys are distinct, at every depth. *)
Fixpoint wellFormed (v : JsValue) : Prop :=
  match v with
  | VObject _ props =>
      List.NoDup (keysOf props)
      /\ (fix each (l : list (string * JsValue)) : Prop :=
            match l with
            | [] => True
            | (_, x) :: rest => wellFormed x /\ each rest
            end) props
  | _ => True
  end.

(** The one-character string holding a double quote. *)
Definition quote : string := String (Ascii.ascii_of_nat 34) EmptyString.

(** [haystack.includes(needle)] on strings. *)
Fixpoint stringIncludes (haystack needle : string) : bool :=
  if String.prefix needle haystack then true
  else match haystack with
       | EmptyString => false
       | String _ rest => stringIncludes rest needle
       end.

Section WithFormat.

Variable formatValue : JsValue -> string.

(** What [Object.keys] does not list, object by object: the own properties
    that are not enumerable (the [length] of an array) and the properties of
    the prototype chain.  [hidden obj key] is what [obj[key]] finds there. *)
Variable hidden : JsValue -> string -> option JsValue.

Definition toBeNull (e : ExpectImpl) : completion AssertionError unit :=
  let passed := isNull (value e) in
  assert e passed
    ("Expected " ++ formatValue (value e) ++ " to be null") VNull (value e).

Definition toBeUndefined (e : ExpectImpl) : completion AssertionError unit :=
  let passed := isUndefined (value e) in
  assert e passed
    ("Expected " ++ formatValue (value e) ++ " to be undefined")
    VUndefined (value e).

Definition toBeDefined (e : ExpectImpl) : completion AssertionError unit :=
  let passed := negb (isUndefined (value e)) in
  assert e passed "Expected value to be defined" (VString "defined") VUndefined.

Definition toBeTruthy (e : ExpectImpl) : completion AssertionError unit :=
  let passed := toBoolean (value e) in
  assert e passed
    ("Expected " ++ formatValue (value e) ++ " to be truthy")
    (VString "truthy") (value e).

Definition toBeFalsy (e : ExpectImpl) : completion AssertionError unit :=
  let passed := negb (toBoolean (value e)) in
  assert e passed
    ("Expected " ++ formatValue (value e) ++ " to be falsy")
    (VString "falsy") (value e).

(** [key in obj]: an own property, enumerable or not, or one of the
    prototype chain. *)
Definition hasProperty (obj : JsValue) (key : string) : bool :=
  includes (keysOf (propsOf obj)) key
  || match hidden obj key with Some _ => true | None => false end.

(** [obj[key]]: the own enumerable property, else the hidden one, else
    [undefined]. *)
Definition getMember (obj : JsValue) (key : string) : JsValue :=
  if includes (keysOf (propsOf obj)) key then getProp (propsOf obj) key
  else match hidden obj key with Some v => v | None => VUndefined end.

(** [private objectMatches(obj, pattern)]: the loop [for (const key in
    pattern)] walks the own enumerable keys of the pattern (a pattern
    written as an object or array literal inherits no enumerable one). *)
Definition objectMatches (obj pattern : JsValue) : bool :=
  forallb
    (fun key =>
       hasProperty obj key
       && deepEqual (getMember obj key) (getMember pattern key))
    (keysOf (propsOf pattern)).

(** [toMatchObject(object)]; [object] is an object by its type. *)
Definition toMatchObject (e : ExpectImpl) (object : JsValue)
  : completion AssertionError unit :=
  if negb (JsType_eqb (typeof (value e)) TObject) || isNull (value e) then
    Throws (mkAssertionError "toMatchObject() requires an object"
              VUndefined VUndefined)
  else
    let passed := objectMatches (value e) object in
    assert e passed
      ("Expected object to match " ++ formatValue object) object (value e).

(** *** Promises

    A promise is given by the way it settles; a rejection reason is an
    Error, given by its message. *)
Inductive Settled : Type :=
| Resolved (v : JsValue)
| Rejected (message : string).

(** The subject of [expect]: a value of [JsValue], or a promise. *)
Inductive Subject : Type :=
| Plain (v : JsValue)
| PromiseOf (p : Settled).

(** [ResolveExpect] and [RejectExpect]: the promise and [isNot]. *)
Record AsyncExpect : Type := mkAsyncExpect {
  promise : Settled;
  asyncIsNot : bool
}.

(** How an awaited matcher call fails: with an AssertionError of its own,
    or with the reason of the promise it awaited. *)
Inductive Failure : Type :=
| Assertion (e : AssertionError)
| Reason (message : string).

Definition liftAssertion {A} (c : completion AssertionError A)
  : completion Failure A :=
  match c with
  | Returns a => Returns a
  | Throws e => Throws (Assertion e)
  end.

(** [get resolves()] *)
Definition resolves (subject : Subject) (isNot : bool)
  : completion AssertionError AsyncExpect :=
  match subject with
  | PromiseOf p => Returns (mkAsyncExpect p isNot)
  | Plain _ =>
      Throws (mkAssertionError "Expected value to be a Promise"
                VUndefined VUndefined)
  end.

(** [get rejects()] *)
Definition rejects (subject : Subject) (isNot : bool)
  : completion AssertionError AsyncExpect :=
  match subject with
  | PromiseOf p => Returns (mkAsyncExpect p isNot)
  | Plain _ =>
      Throws (mkAssertionError "Expected value to be a Promise"
                VUndefined VUndefined)
  end.

(** [const value = await this.promise;
     new ExpectImpl(value, false).toBe(expected)] *)
Definition resolves_toBe (r : AsyncExpect) (expected : JsValue)
  : completion Failure unit :=
  match promise r with
  | Rejected message => Throws (Reason message)
  | Resolved v => liftAssertion (toBe formatValue (mkExpectImpl v false) expected)
  end.

Variable getDiff : JsValue -> JsValue -> string.

Definition resolves_toEqual (r : AsyncExpect) (expected : JsValue)
  : completion Failure unit :=
  match promise r with
  | Rejected message => Throws (Reason message)
  | Resolved v =>
      liftAssertion
        (toEqual formatValue getDiff (mkExpectImpl v false) expected)
  end.

(** The argument of [toThrow]: a string, a regular expression (its test,
    its printed form and the RegExp object itself), or an Error instance. *)
Inductive ErrorMatcher : Type :=
| ByString (s : string)
| ByRegExp (test : string -> bool) (printed : string) (self : JsValue)
| ByError.

(** [RejectExpect.toThrow(error?)] *)
Definition rejects_toThrow (r : AsyncExpect) (error : option ErrorMatcher)
  : completion Failure unit :=
  match promise r with
  | Resolved _ =>
      Throws (Assertion
                (mkAssertionError "Expected promise to reject, but it resolved"
                   VUndefined VUndefined))
  | Rejected message =>
      match error with
      | None => Returns tt
      | Some (ByString s) =>
          if negb (stringIncludes message s) then
            Throws (Assertion
                      (mkAssertionError
                         ("Expected error message to include " ++ quote
                            ++ s ++ quote)
                         (VString s) (VString message)))
          else Returns tt
      | Some (ByRegExp test printed self) =>
          if negb (test message) then
            Throws (Assertion
                      (mkAssertionError
                         ("Expected error message to match " ++ printed)
                         self (VString message)))
          else Returns tt
      | Some ByError => Returns tt
      end
  end.

End WithFormat.

End Matchers.

(** ** Runs of a call recorder *)

Module MockRuns.

Import Mock.

Section WithWorld.

Context {World Value : Type}.
Variable undefined : Value.
Variable Date_now : World -> World * Z.

Local Abbreviation Impl := (@Implementation World Value).
Local Abbreviation Recorder := (@MockFunction World Value).

(** A behaviour that is a fixed completion and stays as it is. *)
Definition fixedBehaviour (impl : Impl)
  (c : completion (Thrown Value) Value) : Prop :=
  forall args w, callImpl undefined impl args w = (w, c, impl).

(** The calls of [execute] among the operations. *)
Definition isCall (op : @MockOp World Value) : bool :=
  match op with OpExecute _ => true | _ => false end.

(** The operations are calls of [execute] and assignments to
    [options.returnValue] only. *)
Definition callsAndAssignments (ops : list (@MockOp World Value)) : bool :=
  forallb (fun op => match op with
                     | OpExecute _ | OpAssignReturnValue _ => true
                     | _ => false
                     end) ops.

(** [options.returnValue] after the operations, when it was [value]
    before them. *)
Definition currentReturnValue (value : option Value)
  (ops : list (@MockOp World Value)) : option Value :=
  fold_left (fun current op => match op with
                               | OpAssignReturnValue v => v
                               | _ => current
                               end) ops value.

(** [this.implementation ? await this.implementation(...args) : undefined]
    as a function of the stored closure. *)
Definition callOpt (i : option Impl) (args : list Value) (w : World)
  : World * completion (Thrown Value) Value * option Impl :=
  match i with
  | None => (w, Returns undefined, None)
  | Some impl =>
      let '(w', c, impl') := callImpl undefined impl args w in
      (w', c, Some impl')
  end.

(** The completions of [await mock.execute(...args)] for each [args] in
    turn, every throw caught by the caller. *)
Fixpoint outcomes (s : World * Recorder) (argss : list (list Value))
  : list (completion (Thrown Value) Value) :=
  match argss with
  | [] => []
  | args :: rest =>
      let r := execute undefined Date_now args s in
      snd r :: outcomes (fst r) rest
  end.

(** The world after [n] readings of the clock. *)
Fixpoint clock (n : nat) (w : World) : World :=
  match n with
  | O => w
  | S k => clock k (fst (Date_now w))
  end.

(** A closure of [mockReturnValueOnce] whose flag [called] is set hands
    every call to the closure it replaced. *)
Inductive behavesLike : option Impl -> option Impl -> Prop :=
| same (i : option Impl) : behavesLike i i
| spent (value : Value) (i j : option Impl) :
    behavesLike i j -> behavesLike (Some (OnceImpl true value i)) j.

(** [mock.mockReturnValueOnce(v1). ... .mockReturnValueOnce(vn)] *)
Definition registerOnce (values : list Value) (m : Recorder) : Recorder :=
  fold_left (fun m v => mockReturnValueOnce v m) values m.

(** The closure stored by [registerOnce]. *)
Definition stack (values : list Value) (old : option Impl) : option Impl :=
  fold_left (fun i v => Some (OnceImpl false v i)) values old.

End WithWorld.

End MockRuns.

(** ** The recorder matchers (expect.ts, toHaveBeenCalled ..
       toHaveBeenCalledWith), on a recorder whose values are [JsValue]s *)

Module MockMatchers.

Import Expect Mock.

(** The number [n] as a [JsValue]. *)
Definition numberOf (n : nat) : JsValue :=
  match n with
  | O => posZero
  | S k => num (Pos.of_succ_nat k)
  end.

(** [private assert(..)], which reads [this.isNot] only. *)
Definition assertFor (isNot : bool) (passed : bool) (message : string)
  (expected actual : JsValue) : completion AssertionError unit :=
  assert {| value := VUndefined; isNot := isNot |} passed message
    expected actual.

(** [call.args.length === args.length &&
     call.args.every((arg, i) => this.deepEqual(arg, args[i]))] *)
Definition argsMatch (callArgs args : list JsValue) : bool :=
  Nat.eqb (length callArgs) (length args)
  && forallb (fun pair => deepEqual (fst pair) (snd pair))
       (combine callArgs args).

Section WithWorld.

Context {World : Type}.

(** Printing a number, printing an argument array, and building an array
    value belong to the JavaScript runtime. *)
Variable showNumber : nat -> string.
Variable formatValue : JsValue -> string.
Variable arrayOf : list JsValue -> JsValue.

Definition Recorder : Type := @MockFunction World JsValue.

(** The matchers below are for a subject that is a recorder: its [calls]
    array is there, so the guard [!mock || !mock.calls] lets it through. *)
Definition toHaveBeenCalled (isNot : bool) (mock : Recorder)
  : completion AssertionError unit :=
  let passed := Nat.ltb 0 (length (mf_calls mock)) in
  assertFor isNot passed "Expected mock to have been called"
    (VString "called") (VString "not called").

Definition toHaveBeenCalledTimes (isNot : bool) (mock : Recorder)
  (times : nat) : completion AssertionError unit :=
  let passed := Nat.eqb (length (mf_calls mock)) times in
  assertFor isNot passed
    ("Expected mock to have been called " ++ showNumber times
       ++ " times, but was called " ++ showNumber (length (mf_calls mock))
       ++ " times")
    (numberOf times) (numberOf (length (mf_calls mock))).

Definition toHaveBeenCalledWith (isNot : bool) (mock : Recorder)
  (args : list JsValue) : completion AssertionError unit :=
  let passed := existsb (fun call => argsMatch (mc_args call) args)
                  (mf_calls mock) in
  assertFor isNot passed
    ("Expected mock to have been called with " ++ formatValue (arrayOf args))
    (arrayOf args)
    (arrayOf (map (fun c => arrayOf (mc_args c)) (mf_calls mock))).

End WithWorld.

End MockMatchers.

(* ===================================================================== *)
(** * Part II: theorems                                                   *)
(* ===================================================================== *)

(** ** Loops in the effect monad *)

Module EffFacts.

(** Two continuations that agree give the same sequence. *)
Lemma bind_cong {S E A B} (m : M S E A) (k1 k2 : A -> M S E B) s :
  (forall a s', k1 a s' = k2 a s') -> bind m k1 s = bind m k2 s.
Proof.
  intros Hk. unfold bind. destruct (m s) as [s' [a|e]]; [apply Hk | reflexivity].
Qed.

Lemma bind_cong_l {S E A B} (m1 m2 : M S E A) (k : A -> M S E B) s :
  m1 s = m2 s -> bind m1 k s = bind m2 k s.
Proof. intros Hm. unfold bind. rewrite Hm. reflexivity. Qed.

Lemma for_of_app {S E X} (xs ys : list X) (body : X -> M S E unit) s :
  for_of (xs ++ ys) body s = bind (for_of xs body) (fun _ => for_of ys body) s.
Proof.
  revert s. induction xs as [|x xs IH]; intros s; simpl.
  - reflexivity.
  - unfold bind in *. destruct (body x s) as [s' [[]|e]].
    + apply IH.
    + reflexivity.
Qed.

Lemma for_of_acc_app {S E X R} (xs ys : list X) (body : R -> X -> M S E R)
      acc s :
  for_of_acc (xs ++ ys) body acc s
  = bind (for_of_acc xs body acc) (fun acc' => for_of_acc ys body acc') s.
Proof.
  revert acc s. induction xs as [|x xs IH]; intros acc s; simpl.
  - reflexivity.
  - unfold bind in *. destruct (body acc x s) as [s' [acc'|e]].
    + apply IH.
    + reflexivity.
Qed.

(** Two loop bodies that agree on every element give the same loop. *)
Lemma for_of_acc_ext {S E X R} (xs : list X) (f g : R -> X -> M S E R) :
  (forall acc x s, In x xs -> f acc x s = g acc x s) ->
  forall acc s, for_of_acc xs f acc s = for_of_acc xs g acc s.
Proof.
  induction xs as [|x xs IH]; intros Hfg acc s; simpl.
  - reflexivity.
  - unfold bind. rewrite (Hfg acc x s) by (left; reflexivity).
    destruct (g acc x s) as [s' [acc'|e]].
    + apply IH. intros. apply Hfg. right. assumption.
    + reflexivity.
Qed.

(** Iterations that return the accumulator untouched and leave the state
    alone can be dropped from a loop. *)
Lemma for_of_acc_filter {S E X R} (keep : X -> bool) (xs : list X)
      (body : R -> X -> M S E R) :
  (forall acc x s, In x xs -> keep x = false -> body acc x s = (s, Returns acc)) ->
  forall acc s,
    for_of_acc xs body acc s = for_of_acc (List.filter keep xs) body acc s.
Proof.
  induction xs as [|x xs IH]; intros Hskip acc s; simpl.
  - reflexivity.
  - destruct (keep x) eqn:Hk; simpl.
    + unfold bind. destruct (body acc x s) as [s' [acc'|e]].
      * apply IH. intros. apply Hskip; [right|]; assumption.
      * reflexivity.
    + unfold bind. rewrite Hskip by (try left; auto).
      apply IH. intros. apply Hskip; [right|]; assumption.
Qed.

(** A sequence that returns went through both of its parts. *)
Lemma bind_returns_inv {S E A B} (m : M S E A) (k : A -> M S E B) s s' b :
  bind m k s = (s', Returns b) ->
  exists s1 a, m s = (s1, Returns a) /\ k a s1 = (s', Returns b).
Proof.
  unfold bind. destruct (m s) as [s1 [a|e]]; intros H.
  - exists s1, a. split; [reflexivity | exact H].
  - discriminate H.
Qed.

(** A sequence throws when its first part throws, or when the first part
    returns and the rest throws. *)
Lemma bind_throws_l {S E A B} (m : M S E A) (k : A -> M S E B) s s' e :
  m s = (s', Throws e) -> bind m k s = (s', Throws e).
Proof. intros H. unfold bind. rewrite H. reflexivity. Qed.

Lemma bind_returns_l {S E A B} (m : M S E A) (k : A -> M S E B) s s' a :
  m s = (s', Returns a) -> bind m k s = k a s'.
Proof. intros H. unfold bind. rewrite H. reflexivity. Qed.

End EffFacts.

(** ** The runner *)

Module RunnerFacts.

Import Runner EffFacts.

Section Facts.

Context {World Err : Type}.
Variable Date_now : World -> World * Z.

Local Abbreviation Act := (@Action World Err).
Local Abbreviation runHooks := (@runHooks World Err).
Local Abbreviation runTest := (runTest Date_now).
Local Abbreviation runSuite := (runSuite Date_now).
Local Abbreviation runNested := (runNested Date_now).
Local Abbreviation runTests := (runTests Date_now).
Local Abbreviation runAllTests := (runAllTests Date_now).
Local Abbreviation testIteration := (testIteration Date_now).
Local Abbreviation date_now := (@Runner.date_now World Err Date_now).
Local Abbreviation suiteIteration := (@suiteIteration World Err).
Local Abbreviation hasOnlyOf := (@hasOnlyOf World Err).
Local Abbreviation withoutUnfocused := (@withoutUnfocused World Err).

(** An induction principle that reaches the child suites. *)
Lemma Suite_nested_ind (P : Suite Act -> Prop)
  (step : forall s, Forall P (suite_suites s) -> P s) :
  forall s : Suite Act, P s.
Proof.
  fix IH 1. intros s. apply step.
  destruct s as [name tests bE aE bA aA children skip only].
  cbn [suite_suites].
  induction children as [|c children IHchildren].
  - apply List.Forall_nil.
  - apply List.Forall_cons; [apply IH | exact IHchildren].
Qed.

(** [runSuite], with its loop over the child suites named. *)
Lemma runSuite_eq (suite : Suite Act) (parentName : string) (w : World) :
  runSuite suite parentName w
  = (let fullName := fullNameOf parentName (suite_name suite) in
     startTime <- date_now ;;
     runHooks (suite_beforeAll suite) ;;;
     let hasOnly := hasOnlyOf suite in
     results <- runTests suite hasOnly [] ;;
     results <- runNested fullName hasOnly (suite_suites suite) results ;;
     runHooks (suite_afterAll suite) ;;;
     endTime <- date_now ;;
     ret {| sr_name := fullName;
            sr_tests := results;
            sr_passed := countPassed results;
            sr_failed := countFailed results;
            sr_skipped := countSkipped (suite_tests suite);
            sr_duration := endTime - startTime |}) w.
Proof.
  destruct suite as [name tests bE aE bA aA children skip only].
  cbn [Runner.runSuite suite_name suite_tests suite_beforeAll
       suite_afterAll suite_suites].
  set (fullName := fullNameOf parentName name).
  set (hasOnly := hasOnlyOf _).
  apply bind_cong; intros t0 w1.
  apply bind_cong; intros _ w2.
  apply bind_cong; intros rs w3.
  match goal with
  | |- bind (?f children rs) _ _ = _ =>
      assert (Hn : forall l acc w',
                 f l acc w' = runNested fullName hasOnly l acc w')
  end.
  { induction l as [|c l IH]; intros acc w'; [reflexivity|].
    cbn [Runner.runNested for_of_acc].
    apply bind_cong; intros acc' w''. apply IH. }
  unfold bind at 1 4. rewrite Hn. reflexivity.
Qed.

(** A test run never throws: every failure of user code is caught. *)
Lemma runTest_returns (test : Test Act) (suite : Suite Act) (w : World) :
  exists w' r, runTest test suite w = (w', Returns r).
Proof.
  unfold Runner.runTest, bind, try_catch, Runner.date_now, ret.
  destruct (Date_now w) as [w1 t0].
  destruct (runHooks (suite_beforeEach suite) w1) as [w2 [[]|e]].
  - destruct (test_fn test w2) as [w3 [[]|e]].
    + destruct (runHooks (suite_afterEach suite) w3) as [w4 [[]|e]].
      * destruct (Date_now w4) as [w5 t1]. eauto.
      * destruct (runHooks (suite_afterEach suite) w4) as [w5 [[]|e']];
          destruct (Date_now w5) as [w6 t1]; eauto.
    + destruct (runHooks (suite_afterEach suite) w3) as [w4 [[]|e']];
        destruct (Date_now w4) as [w5 t1]; eauto.
  - destruct (runHooks (suite_afterEach suite) w2) as [w3 [[]|e']];
      destruct (Date_now w3) as [w4 t1]; eauto.
Qed.

Lemma testIteration_returns suite hasOnly results (test : Test Act) w :
  exists w' rs, testIteration suite hasOnly results test w = (w', Returns rs).
Proof.
  unfold Runner.testIteration.
  destruct (test_skip test); [unfold ret; eauto|].
  destruct (hasOnly && negb (test_only test)); [unfold ret; eauto|].
  unfold bind. destruct (runTest_returns test suite w) as (w' & r & ->).
  unfold ret; eauto.
Qed.

(** The loop over the tests never throws either. *)
Lemma testLoop_returns suite hasOnly (tests : list (Test Act)) results w :
  exists w' rs,
    for_of_acc tests (testIteration suite hasOnly) results w
    = (w', Returns rs).
Proof.
  revert results w. induction tests as [|t tests IH]; intros results w.
  - simpl. unfold ret. eauto.
  - simpl. unfold bind.
    destruct (testIteration_returns suite hasOnly results t w)
      as (w' & rs & ->).
    apply IH.
Qed.

Lemma runTest_hooks_only (test : Test Act) (s s' : Suite Act) w :
  suite_beforeEach s = suite_beforeEach s' ->
  suite_afterEach s = suite_afterEach s' ->
  runTest test s w = runTest test s' w.
Proof. intros Hb Ha. unfold Runner.runTest. rewrite Hb, Ha. reflexivity. Qed.

Lemma existsb_filter_only {A} (f g : A -> bool) (l : list A) :
  (forall x, f x = true -> g x = true) ->
  existsb f (List.filter g l) = existsb f l.
Proof.
  intros Hfg. induction l as [|x l IH]; simpl; [reflexivity|].
  destruct (g x) eqn:Hg; simpl.
  - rewrite IH. reflexivity.
  - destruct (f x) eqn:Hf.
    + apply Hfg in Hf. congruence.
    + simpl. exact IH.
Qed.

Lemma hasOnlyOf_withoutUnfocused (s : Suite Act) :
  hasOnlyOf (withoutUnfocused s) = hasOnlyOf s.
Proof.
  unfold hasOnlyOf, withoutUnfocused; simpl.
  rewrite !existsb_filter_only; auto.
  intros t Ht. rewrite Ht. apply orb_true_r.
Qed.

Lemma countSkipped_withoutUnfocused (tests : list (Test Act)) :
  countSkipped (List.filter (fun t => test_skip t || test_only t) tests)
  = countSkipped tests.
Proof.
  unfold countSkipped. induction tests as [|t tests IH]; simpl; [reflexivity|].
  destruct (test_skip t) eqn:Hs; simpl.
  - rewrite Hs. simpl. f_equal. exact IH.
  - destruct (test_only t); simpl; [rewrite Hs|]; exact IH.
Qed.


Local Abbreviation recordedTests := (@recordedTests World Err).
Local Abbreviation runChildren := (@runChildren World Err).
Local Abbreviation declaredOrder := (@declaredOrder World Err).

Lemma runTest_name (test : Test Act) (suite : Suite Act) w w' r :
  runTest test suite w = (w', Returns r) -> tr_name r = test_name test.
Proof.
  unfold Runner.runTest. intros H.
  apply bind_returns_inv in H as (w1 & t0 & _ & H).
  unfold try_catch in H.
  match type of H with
  | match ?body w1 with _ => _ end = _ =>
      destruct (body w1) as [w2 [r2|e]] eqn:Hbody
  end.
  - injection H as _ <-.
    repeat (apply bind_returns_inv in Hbody as (? & ? & _ & Hbody)).
    unfold ret in Hbody. injection Hbody as _ <-. reflexivity.
  - repeat (apply bind_returns_inv in H as (? & ? & _ & H)).
    unfold ret in H. injection H as _ <-. reflexivity.
Qed.

(** The loop over the direct tests appends one result per recorded
    test, in declared order. *)
Lemma testLoop_order (s : Suite Act) (hasOnly : bool)
      (tests : list (Test Act)) acc w w' rs :
  for_of_acc tests (testIteration s hasOnly) acc w = (w', Returns rs) ->
  exists direct,
    rs = acc ++ direct
    /\ Forall2 (fun t x => tr_name x = test_name t)
         (List.filter
            (fun t => test_skip t || negb (hasOnly && negb (test_only t)))
            tests)
         direct.
Proof.
  revert acc w. induction tests as [|t tests IH]; intros acc w H.
  - simpl in H. injection H as _ <-. exists []. split.
    + symmetry. apply app_nil_r.
    + constructor.
  - cbn [for_of_acc] in H.
    apply bind_returns_inv in H as (w1 & acc1 & Hit & H).
    apply IH in H as (direct & -> & Hall).
    unfold Runner.testIteration in Hit. cbn [List.filter].
    destruct (test_skip t) eqn:Hs; cbn [orb].
    + injection Hit as _ <-. exists (skippedResult t :: direct). split.
      * rewrite <- app_assoc. reflexivity.
      * constructor; [reflexivity | exact Hall].
    + destruct (hasOnly && negb (test_only t)) eqn:Ho; cbn [negb].
      * injection Hit as _ <-. exists direct. split; [reflexivity | exact Hall].
      * apply bind_returns_inv in Hit as (w2 & r & Hrun & Hit).
        injection Hit as _ <-. exists (r :: direct). split.
        -- rewrite <- app_assoc. reflexivity.
        -- constructor; [eapply runTest_name; exact Hrun | exact Hall].
Qed.

(** The loop over the child suites splices one result list per child
    that is run, in declared order. *)
Lemma nestedLoop_order
      (recurse : Suite Act -> Run (TestSuiteResult Err))
      (hasOnly : bool) (children : list (Suite Act)) acc w w' rs :
  for_of_acc children (suiteIteration recurse hasOnly) acc w
  = (w', Returns rs) ->
  exists lists,
    rs = acc ++ concat lists
    /\ Forall2 (fun c l => exists w1 w2 rc,
                    recurse c w1 = (w2, Returns rc) /\ l = sr_tests rc)
         (List.filter
            (fun c => negb (suite_skip c)
                      && negb (hasOnly && negb (suite_only c)))
            children)
         lists.
Proof.
  revert acc w. induction children as [|c children IH]; intros acc w H.
  - simpl in H. injection H as _ <-. exists []. split.
    + symmetry. apply app_nil_r.
    + constructor.
  - cbn [for_of_acc] in H.
    apply bind_returns_inv in H as (w1 & acc1 & Hit & H).
    apply IH in H as (lists & -> & Hall).
    unfold Runner.suiteIteration in Hit. cbn [List.filter].
    destruct (suite_skip c) eqn:Hs; cbn [negb andb].
    + injection Hit as _ <-. exists lists. split; [reflexivity | exact Hall].
    + destruct (hasOnly && negb (suite_only c)) eqn:Ho; cbn [negb].
      * injection Hit as _ <-. exists lists. split; [reflexivity | exact Hall].
      * apply bind_returns_inv in Hit as (w2 & rc & Hrun & Hit).
        injection Hit as _ <-. exists (sr_tests rc :: lists). split.
        -- cbn [concat]. rewrite <- app_assoc. reflexivity.
        -- constructor; [exists w, w2, rc; split; [exact Hrun | reflexivity]
                        | exact Hall].
Qed.

(** What a suite run that returns went through. *)
Lemma runSuite_returns_inv (s : Suite Act) parentName w w' r :
  runSuite s parentName w = (w', Returns r) ->
  exists w2 w3 w4 direct,
    runTests s (hasOnlyOf s) [] w2 = (w3, Returns direct)
    /\ runNested (fullNameOf parentName (suite_name s)) (hasOnlyOf s)
         (suite_suites s) direct w3 = (w4, Returns (sr_tests r))
    /\ sr_name r = fullNameOf parentName (suite_name s).
Proof.
  rewrite runSuite_eq. cbv zeta. intros H.
  apply bind_returns_inv in H as (w1 & t0 & _ & H).
  apply bind_returns_inv in H as (w2 & [] & _ & H).
  apply bind_returns_inv in H as (w3 & direct & Htests & H).
  apply bind_returns_inv in H as (w4 & rs & Hnested & H).
  apply bind_returns_inv in H as (w5 & [] & _ & H).
  apply bind_returns_inv in H as (w6 & t1 & _ & H).
  unfold ret in H. injection H as _ <-.
  exists w2, w3, w4, direct. auto.
Qed.

Lemma declaredOrder_eq (s : Suite Act) :
  declaredOrder s
  = map test_name (recordedTests s)
    ++ flat_map declaredOrder (runChildren s).
Proof.
  destruct s as [name tests bE aE bA aA children skip only].
  cbn [Runner.declaredOrder suite_suites]. f_equal.
  unfold Runner.runChildren. cbn [suite_suites].
  set (hasOnly := hasOnlyOf _). clearbody hasOnly.
  induction children as [|c children IH]; [reflexivity|].
  cbn [List.filter].
  destruct (negb (suite_skip c) && negb (hasOnly && negb (suite_only c)));
    cbn [flat_map]; rewrite IH; reflexivity.
Qed.

Lemma map_names_Forall2 (tests : list (Test Act))
      (rs : list (TestResult Err)) :
  Forall2 (fun t x => tr_name x = test_name t) tests rs ->
  map tr_name rs = map test_name tests.
Proof.
  induction 1 as [|t x tests rs Hx _ IH]; simpl; [reflexivity|].
  rewrite Hx, IH. reflexivity.
Qed.

Lemma runSuite_declaredOrder (s : Suite Act) :
  forall parentName w w' r,
    runSuite s parentName w = (w', Returns r) ->
    map tr_name (sr_tests r) = declaredOrder s.
Proof.
  induction s as [s IHc] using Suite_nested_ind.
  intros parentName w w' r H.
  apply runSuite_returns_inv in H as (w2 & w3 & w4 & direct & Ht & Hn & _).
  apply testLoop_order in Ht as (direct' & -> & Hdirect).
  apply nestedLoop_order in Hn as (lists & -> & Hlists).
  rewrite declaredOrder_eq. cbn [app]. rewrite map_app. f_equal.
  - apply map_names_Forall2. exact Hdirect.
  - unfold Runner.runChildren.
    assert (Hkept : Forall (fun c => forall p w w' r,
                                runSuite c p w = (w', Returns r) ->
                                map tr_name (sr_tests r) = declaredOrder c)
                      (List.filter
                         (fun c => negb (suite_skip c)
                                   && negb (hasOnlyOf s && negb (suite_only c)))
                         (suite_suites s))).
    { rewrite List.Forall_forall in *. intros c Hc.
      apply List.filter_In in Hc as [Hc _]. apply IHc. exact Hc. }
    clear IHc. revert Hkept.
    induction Hlists as [|c l cs ls (w1 & w1' & rc & Hrun & ->) _ IH];
      intros Hkept; [reflexivity|].
    cbn [concat flat_map]. rewrite map_app.
    apply List.Forall_cons_iff in Hkept as [Hc Hkept].
    rewrite (Hc _ _ _ _ Hrun), IH by exact Hkept. reflexivity.
Qed.

Lemma runHooks_returns (hooks : list Act) :
  (forall hook, In hook hooks -> forall w, exists w', hook w = (w', Returns tt)) ->
  forall w, exists w', runHooks hooks w = (w', Returns tt).
Proof.
  unfold Runner.runHooks.
  induction hooks as [|h hooks IH]; intros Hall w; cbn [for_of].
  - exists w. reflexivity.
  - destruct (Hall h (or_introl eq_refl) w) as [w1 Hh].
    rewrite (bind_returns_l _ _ _ _ _ Hh).
    apply IH. intros hook Hin. apply Hall. right. exact Hin.
Qed.

Lemma suiteHooksReturn_children (s : Suite Act) :
  suiteHooksReturn s -> Forall (@suiteHooksReturn World Err) (suite_suites s).
Proof.
  destruct s as [name tests bE aE bA aA children skip only].
  cbn [Runner.suiteHooksReturn suite_suites]. intros [_ H].
  induction children as [|c children IH].
  - apply List.Forall_nil.
  - destruct H as [Hc H]. apply List.Forall_cons; [exact Hc | apply IH, H].
Qed.

Lemma nestedLoop_returns fullName hasOnly (children : list (Suite Act)) :
  Forall (fun c => forall parentName w, exists w' r,
              runSuite c parentName w = (w', Returns r)) children ->
  forall acc w, exists w' rs,
    runNested fullName hasOnly children acc w = (w', Returns rs).
Proof.
  unfold Runner.runNested.
  induction children as [|c children IH]; intros Hall acc w; cbn [for_of_acc].
  - exists w, acc. reflexivity.
  - apply List.Forall_cons_iff in Hall as [Hc Hall].
    assert (Hit : exists w' acc',
               suiteIteration (fun s => runSuite s fullName) hasOnly acc c w
               = (w', Returns acc')).
    { unfold Runner.suiteIteration.
      destruct (suite_skip c); [exists w, acc; reflexivity|].
      destruct (hasOnly && negb (suite_only c)); [exists w, acc; reflexivity|].
      destruct (Hc fullName w) as (w' & r & Hrun).
      rewrite (bind_returns_l _ _ _ _ _ Hrun). eexists. eexists.
      reflexivity. }
    destruct Hit as (w' & acc' & Hit).
    rewrite (bind_returns_l _ _ _ _ _ Hit).
    apply IH. exact Hall.
Qed.

(** A suite whose before-all and after-all hooks never throw, at any
    depth, is run to its TestSuiteResult: failing bodies and per-test hooks
    do not stop the run. *)
Lemma runSuite_returns (s : Suite Act) :
  suiteHooksReturn s ->
  forall parentName w, exists w' r, runSuite s parentName w = (w', Returns r).
Proof.
  induction s as [s IHc] using Suite_nested_ind.
  intros Hs parentName w. rewrite runSuite_eq. cbv zeta.
  pose proof (suiteHooksReturn_children s Hs) as Hchildren.
  destruct s as [name tests bE aE bA aA children skip only].
  cbn [suite_name suite_tests suite_beforeAll suite_afterAll suite_suites] in *.
  destruct Hs as [Hhooks _].
  cbn [suite_beforeAll suite_afterAll] in Hhooks.
  set (hasOnly := hasOnlyOf _). set (fullName := fullNameOf parentName name).
  unfold bind at 1. unfold Runner.date_now at 1.
  destruct (Date_now w) as [w1 t0].
  destruct (runHooks_returns bA) with (w := w1) as [w2 Hb].
  { intros hook Hin. apply Hhooks. apply in_or_app. left. exact Hin. }
  rewrite (bind_returns_l _ _ _ _ _ Hb).
  destruct (testLoop_returns
              (mkSuite name tests bE aE bA aA children skip only)
              hasOnly tests [] w2) as (w3 & rs & Ht).
  unfold Runner.runTests at 1. cbn [suite_tests].
  rewrite (bind_returns_l _ _ _ _ _ Ht).
  assert (Hn : forall acc w0, exists w' rs',
               runNested fullName hasOnly children acc w0 = (w', Returns rs')).
  { apply nestedLoop_returns. rewrite List.Forall_forall in *.
    intros c Hc. apply IHc; [exact Hc | apply Hchildren, Hc]. }
  destruct (Hn rs w3) as (w4 & rs' & Hnested).
  rewrite (bind_returns_l _ _ _ _ _ Hnested).
  destruct (runHooks_returns aA) with (w := w4) as [w5 Ha].
  { intros hook Hin. apply Hhooks. apply in_or_app. right. exact Hin. }
  rewrite (bind_returns_l _ _ _ _ _ Ha).
  unfold bind, Runner.date_now, ret. destruct (Date_now w5) as [w6 t1].
  eexists. eexists. reflexivity.
Qed.

(** C2: the flattened result list of a suite run is made of one result
    per recorded direct test, in declared order, followed by the result
    list of each child suite that is run, in declared order and in one
    piece; its names are the declaration order of the tree.  [runAllTests]
    returns one SuiteResult per non-skipped root suite, in registration
    order, and none for a nested suite.  A suite whose before-all and
    after-all hooks never throw does return such a result. *)
Theorem results_in_declaration_order :
  (forall (s : Suite Act) parentName w w' r,
      runSuite s parentName w = (w', Returns r) ->
      map tr_name (sr_tests r) = declaredOrder s
      /\ exists direct lists,
          sr_tests r = direct ++ concat lists
          /\ Forall2 (fun t x => tr_name x = test_name t)
               (recordedTests s) direct
          /\ Forall2 (fun c l => exists w1 w2 rc,
                          runSuite c (fullNameOf parentName (suite_name s)) w1
                          = (w2, Returns rc)
                          /\ l = sr_tests rc)
               (runChildren s) lists)
  /\ (forall (roots : list (Suite Act)) w w' rs,
         runAllTests roots w = (w', Returns rs) ->
         Forall2 (fun root r =>
                    sr_name r = suite_name root
                    /\ map tr_name (sr_tests r) = declaredOrder root)
           (List.filter (fun s => negb (suite_skip s)) roots) rs)
  /\ (forall (s : Suite Act) parentName w,
         suiteHooksReturn s ->
         exists w' r,
           runSuite s parentName w = (w', Returns r)
           /\ map tr_name (sr_tests r) = declaredOrder s).
Proof.
  split; [|split].
  3:{ intros s parentName w Hs.
      destruct (runSuite_returns s Hs parentName w) as (w' & r & Hrun).
      exists w', r. split; [exact Hrun|].
      eapply runSuite_declaredOrder. exact Hrun. }
  - intros s parentName w w' r H. split.
    + eapply runSuite_declaredOrder. exact H.
    + apply runSuite_returns_inv in H as (w2 & w3 & w4 & direct & Ht & Hn & _).
      apply testLoop_order in Ht as (direct' & -> & Hdirect).
      apply nestedLoop_order in Hn as (lists & Heq & Hlists).
      exists direct', lists. split; [exact Heq|]. split; assumption.
  - intros roots w w' rs H. unfold Runner.runAllTests in H.
    assert (Hgen : forall acc w0,
               for_of_acc roots
                 (fun results suite =>
                    if suite_skip suite then ret results
                    else result <- runSuite suite "" ;;
                         ret (results ++ [result])) acc w0
               = (w', Returns rs) ->
               exists new,
                 rs = acc ++ new
                 /\ Forall2 (fun root r =>
                               sr_name r = suite_name root
                               /\ map tr_name (sr_tests r)
                                  = declaredOrder root)
                      (List.filter (fun s => negb (suite_skip s)) roots) new).
    { clear H. induction roots as [|root roots IH]; intros acc w0 H.
      - simpl in H. injection H as _ <-. exists []. split.
        + symmetry. apply app_nil_r.
        + constructor.
      - cbn [for_of_acc] in H.
        apply bind_returns_inv in H as (w1 & acc1 & Hit & H).
        apply IH in H as (new & -> & Hall). cbn [List.filter].
        destruct (suite_skip root) eqn:Hs; cbn [negb].
        + injection Hit as _ <-. exists new. split; [reflexivity | exact Hall].
        + apply bind_returns_inv in Hit as (w2 & r & Hrun & Hit).
          injection Hit as _ <-. exists (r :: new). split.
          * rewrite <- app_assoc. reflexivity.
          * constructor; [|exact Hall]. split.
            -- apply runSuite_returns_inv in Hrun
                 as (_ & _ & _ & _ & _ & _ & ->). reflexivity.
            -- eapply runSuite_declaredOrder. exact Hrun. }
    apply Hgen in H as (new & -> & Hall). exact Hall.
Qed.

Local Abbreviation cleanupEveryHook := (@cleanupEveryHook World Err).

(** A pass in which no hook throws runs every hook. *)
Lemma runHooks_returns_every (hooks : list Act) w w' :
  runHooks hooks w = (w', Returns tt) ->
  cleanupEveryHook hooks w = (w', Returns tt).
Proof.
  unfold Runner.runHooks, Runner.cleanupEveryHook.
  revert w. induction hooks as [|h hooks IH]; intros w H.
  - exact H.
  - cbn [for_of] in *.
    apply bind_returns_inv in H as (w1 & [] & Hh & H).
    unfold bind, try_catch. rewrite Hh. apply IH. exact H.
Qed.

(** The catch path of [runTest], entered in world [w1] with [e]. *)
Lemma runTest_catch (test : Test Act) (suite : Suite Act) w w0 t0 w1 e :
  Date_now w = (w0, t0) ->
  (runHooks (suite_beforeEach suite) ;;;
   test_fn test ;;;
   runHooks (suite_afterEach suite) ;;;
   endTime <- date_now ;;
   ret ({| tr_name := test_name test; tr_passed := true;
           tr_error := None; tr_duration := endTime - t0;
           tr_assertions := [] |} : TestResult Err)) w0
  = (w1, Throws e) ->
  runTest test suite w
  = (let (w2, _) := runHooks (suite_afterEach suite) w1 in
     let (w3, t1) := Date_now w2 in
     (w3, Returns (failedResult test e (t1 - t0)))).
Proof.
  intros Hnow Hbody. unfold Runner.runTest.
  unfold bind at 1. unfold Runner.date_now at 1. rewrite Hnow.
  unfold try_catch at 1. rewrite Hbody.
  unfold bind, try_catch, Runner.date_now, ret.
  destruct (runHooks (suite_afterEach suite) w1) as [w2 [[]|e']];
    destruct (Date_now w2) as [w3 t1]; reflexivity.
Qed.

(** C3 (amended): when the body or a before-each hook of a test fails,
    the after-each hooks are run afterwards in order up to the first one
    that fails (all of them when none fails), an error of this cleanup
    pass ends the pass and is discarded, and the TestResult has
    passed=false and carries the original error. *)
Theorem failed_test_cleanup
  (test : Test Act) (suite : Suite Act) (w w0 w1 : World) (t0 : Z)
  (e : Err) :
  Date_now w = (w0, t0) ->
  (runHooks (suite_beforeEach suite) w0 = (w1, Throws e)
   \/ exists w', runHooks (suite_beforeEach suite) w0 = (w', Returns tt)
                 /\ test_fn test w' = (w1, Throws e)) ->
  runTest test suite w
  = (let (w2, _) := runHooks (suite_afterEach suite) w1 in
     let (w3, t1) := Date_now w2 in
     (w3, Returns {| tr_name := test_name test;
                     tr_passed := false;
                     tr_error := Some e;
                     tr_duration := t1 - t0;
                     tr_assertions := [] |}))
  /\ (forall w2,
         runHooks (suite_afterEach suite) w1 = (w2, Returns tt) ->
         cleanupEveryHook (suite_afterEach suite) w1 = (w2, Returns tt)).
Proof.
  intros Hnow Hfail. split; [|apply runHooks_returns_every].
  apply (runTest_catch _ _ _ _ _ _ _ Hnow).
  destruct Hfail as [Hb | (w' & Hb & Hf)].
  - apply bind_throws_l. exact Hb.
  - rewrite (bind_returns_l _ _ _ _ _ Hb). apply bind_throws_l. exact Hf.
Qed.

(** C10 (amended): when the body and the before-each hooks succeed and
    an after-each hook then fails, the test is recorded as failed with
    that hook's error, and the after-each list is started a second time
    from its first hook in the catch path: the second pass begins with
    the hooks that precede the failing one, stops at the first hook that
    fails in it (that error is discarded), and runs every hook when none
    fails. *)
Theorem after_each_failure_reruns_hooks
  (test : Test Act) (suite : Suite Act) (w w0 w1 w2 w3 : World) (t0 : Z)
  (e : Err) :
  Date_now w = (w0, t0) ->
  runHooks (suite_beforeEach suite) w0 = (w1, Returns tt) ->
  test_fn test w1 = (w2, Returns tt) ->
  runHooks (suite_afterEach suite) w2 = (w3, Throws e) ->
  runTest test suite w
  = (let (w4, _) := runHooks (suite_afterEach suite) w3 in
     let (w5, t1) := Date_now w4 in
     (w5, Returns {| tr_name := test_name test;
                     tr_passed := false;
                     tr_error := Some e;
                     tr_duration := t1 - t0;
                     tr_assertions := [] |}))
  /\ (forall pre h post,
         suite_afterEach suite = pre ++ h :: post ->
         runHooks (suite_afterEach suite) w3
         = (runHooks pre ;;; h ;;; runHooks post) w3)
  /\ (forall w4,
         runHooks (suite_afterEach suite) w3 = (w4, Returns tt) ->
         cleanupEveryHook (suite_afterEach suite) w3 = (w4, Returns tt)).
Proof.
  intros Hnow Hb Hf Ha. split; [|split].
  - apply (runTest_catch _ _ _ _ _ _ _ Hnow).
    rewrite (bind_returns_l _ _ _ _ _ Hb).
    rewrite (bind_returns_l _ _ _ _ _ Hf).
    apply bind_throws_l. exact Ha.
  - intros pre h post ->. unfold Runner.runHooks.
    rewrite for_of_app. reflexivity.
  - apply runHooks_returns_every.
Qed.

(** C4: an error thrown by a before-all hook, by an after-all hook or by
    the run of a child suite leaves [runSuite] as that same error, in the
    world in which it was thrown (no TestSuiteResult is built); an error
    that leaves the run of a root suite leaves [runAllTests], and the
    root suites after it are not run. *)
Theorem hook_failure_aborts_run :
  (forall (s : Suite Act) parentName w w0 t0 w1 e,
      Date_now w = (w0, t0) ->
      runHooks (suite_beforeAll s) w0 = (w1, Throws e) ->
      runSuite s parentName w = (w1, Throws e))
  /\ (forall (s : Suite Act) parentName w w0 t0 w1 w2 w3 w4 rs rs' e,
         Date_now w = (w0, t0) ->
         runHooks (suite_beforeAll s) w0 = (w1, Returns tt) ->
         runTests s (hasOnlyOf s) [] w1 = (w2, Returns rs) ->
         runNested (fullNameOf parentName (suite_name s)) (hasOnlyOf s)
           (suite_suites s) rs w2 = (w3, Returns rs') ->
         runHooks (suite_afterAll s) w3 = (w4, Throws e) ->
         runSuite s parentName w = (w4, Throws e))
  /\ (forall (s c : Suite Act) pre post parentName
             w w0 t0 w1 w2 w3 w4 rs rs' e,
         Date_now w = (w0, t0) ->
         runHooks (suite_beforeAll s) w0 = (w1, Returns tt) ->
         runTests s (hasOnlyOf s) [] w1 = (w2, Returns rs) ->
         suite_suites s = pre ++ c :: post ->
         runNested (fullNameOf parentName (suite_name s)) (hasOnlyOf s)
           pre rs w2 = (w3, Returns rs') ->
         suite_skip c = false ->
         hasOnlyOf s && negb (suite_only c) = false ->
         runSuite c (fullNameOf parentName (suite_name s)) w3
         = (w4, Throws e) ->
         runSuite s parentName w = (w4, Throws e))
  /\ (forall (s : Suite Act) pre post w w1 w2 rs e,
         runAllTests pre w = (w1, Returns rs) ->
         suite_skip s = false ->
         runSuite s "" w1 = (w2, Throws e) ->
         runAllTests (pre ++ s :: post) w = (w2, Throws e)).
Proof.
  assert (Hnow : forall w w0 t0,
             Date_now w = (w0, t0) -> date_now w = (w0, Returns t0)).
  { intros w w0 t0 H. unfold Runner.date_now. rewrite H. reflexivity. }
  repeat split.
  - intros s parentName w w0 t0 w1 e H0 Hb.
    rewrite runSuite_eq. cbv zeta.
    rewrite (bind_returns_l _ _ _ _ _ (Hnow _ _ _ H0)).
    apply bind_throws_l. exact Hb.
  - intros s parentName w w0 t0 w1 w2 w3 w4 rs rs' e H0 Hb Ht Hn Ha.
    rewrite runSuite_eq. cbv zeta.
    rewrite (bind_returns_l _ _ _ _ _ (Hnow _ _ _ H0)).
    rewrite (bind_returns_l _ _ _ _ _ Hb).
    rewrite (bind_returns_l _ _ _ _ _ Ht).
    rewrite (bind_returns_l _ _ _ _ _ Hn).
    apply bind_throws_l. exact Ha.
  - intros s c pre post parentName w w0 t0 w1 w2 w3 w4 rs rs' e
           H0 Hb Ht Hc Hpre Hskip Honly Hrun.
    rewrite runSuite_eq. cbv zeta.
    rewrite (bind_returns_l _ _ _ _ _ (Hnow _ _ _ H0)).
    rewrite (bind_returns_l _ _ _ _ _ Hb).
    rewrite (bind_returns_l _ _ _ _ _ Ht).
    apply bind_throws_l. rewrite Hc. unfold Runner.runNested in *.
    rewrite for_of_acc_app. rewrite (bind_returns_l _ _ _ _ _ Hpre).
    cbn [for_of_acc]. apply bind_throws_l.
    unfold Runner.suiteIteration. rewrite Hskip, Honly.
    apply bind_throws_l. exact Hrun.
  - intros s pre post w w1 w2 rs e Hpre Hskip Hrun.
    unfold Runner.runAllTests in *.
    rewrite for_of_acc_app. rewrite (bind_returns_l _ _ _ _ _ Hpre).
    cbn [for_of_acc]. apply bind_throws_l. rewrite Hskip.
    apply bind_throws_l. exact Hrun.
Qed.

Local Abbreviation withTests := (@RunnerMore.withTests World Err).
Local Abbreviation withBody := (@RunnerMore.withBody World Err).
Local Abbreviation recordedAmong := (@RunnerMore.recordedAmong World Err).
Local Abbreviation withSkipRecord := (@RunnerMore.withSkipRecord Err).

(** An iteration of the test loop reads the suite for its before-each and
    after-each hooks only. *)
Lemma testIteration_hooks_only (s s' : Suite Act) hasOnly acc
      (t : Test Act) w :
  suite_beforeEach s = suite_beforeEach s' ->
  suite_afterEach s = suite_afterEach s' ->
  testIteration s hasOnly acc t w = testIteration s' hasOnly acc t w.
Proof.
  intros Hb Ha. unfold Runner.testIteration.
  destruct (test_skip t); [reflexivity|].
  destruct (hasOnly && negb (test_only t)); [reflexivity|].
  apply bind_cong_l. apply runTest_hooks_only; assumption.
Qed.

(** The test loop appends to its accumulator: one record for each test
    that is skipped or not left out by only-mode. *)
Lemma testLoop_appends (s : Suite Act) hasOnly (tests : list (Test Act)) w :
  exists w' direct,
    (forall acc,
        for_of_acc tests (testIteration s hasOnly) acc w
        = (w', Returns (acc ++ direct)))
    /\ length direct = length (recordedAmong hasOnly tests).
Proof.
  revert w. induction tests as [|t tests IH]; intros w.
  - exists w, []. split; [|reflexivity].
    intros acc. cbn. rewrite app_nil_r. reflexivity.
  - unfold RunnerMore.recordedAmong. cbn [for_of_acc List.filter].
    unfold Runner.testIteration at 1.
    destruct (test_skip t) eqn:Hskip; cbn [orb].
    + destruct (IH w) as (w' & d & Hd & Hlen).
      exists w', (skippedResult t :: d). split.
      * intros acc. unfold bind, ret. rewrite Hd, <- app_assoc. reflexivity.
      * cbn [length]. rewrite Hlen. reflexivity.
    + destruct (hasOnly && negb (test_only t)) eqn:Hout; cbn [negb].
      * destruct (IH w) as (w' & d & Hd & Hlen).
        exists w', d. split; [|exact Hlen].
        intros acc. unfold bind, ret. apply Hd.
      * destruct (runTest_returns t s w) as (w1 & r & Hr).
        destruct (IH w1) as (w' & d & Hd & Hlen).
        exists w', (r :: d). split.
        -- intros acc. unfold bind, ret. rewrite Hr, Hd, <- app_assoc.
           reflexivity.
        -- cbn [length]. rewrite Hlen. reflexivity.
Qed.

(** The loop over the child suites appends to its accumulator, or throws
    whatever the accumulator is. *)
Lemma nestedLoop_appends
      (recurse : Suite Act -> Run (TestSuiteResult Err))
      (hasOnly : bool) (children : list (Suite Act)) w :
  (exists w' nested,
      forall acc,
        for_of_acc children (suiteIteration recurse hasOnly) acc w
        = (w', Returns (acc ++ nested)))
  \/ (exists w' e,
         forall acc,
           for_of_acc children (suiteIteration recurse hasOnly) acc w
           = (w', Throws e)).
Proof.
  revert w. induction children as [|c children IH]; intros w.
  - left. exists w, []. intros acc. cbn. rewrite app_nil_r. reflexivity.
  - cbn [for_of_acc]. unfold Runner.suiteIteration at 1 3.
    destruct (suite_skip c).
    { destruct (IH w) as [(w' & d & Hd) | (w' & e & He)].
      - left. exists w', d. intros acc. unfold bind, ret. apply Hd.
      - right. exists w', e. intros acc. unfold bind, ret. apply He. }
    destruct (hasOnly && negb (suite_only c)).
    { destruct (IH w) as [(w' & d & Hd) | (w' & e & He)].
      - left. exists w', d. intros acc. unfold bind, ret. apply Hd.
      - right. exists w', e. intros acc. unfold bind, ret. apply He. }
    destruct (recurse c w) as [w1 [rc|e]] eqn:Hrc.
    + destruct (IH w1) as [(w' & d & Hd) | (w' & e & He)].
      * left. exists w', (sr_tests rc ++ d). intros acc.
        unfold bind, ret. rewrite Hrc, Hd, <- app_assoc. reflexivity.
      * right. exists w', e. intros acc.
        unfold bind, ret. rewrite Hrc, He. reflexivity.
    + right. exists w1, e. intros acc. unfold bind. rewrite Hrc. reflexivity.
Qed.

(** The test loop around a skipped test: the records of the tests before
    it, its own record, the records of the tests after it; the world goes
    unchanged from the former to the latter. *)
Lemma testLoop_around_skipped (s : Suite Act) hasOnly
      (pre post : list (Test Act)) (test : Test Act) w :
  test_skip test = true ->
  exists w1 w2 d1 d2,
    (forall acc,
        for_of_acc (pre ++ test :: post) (testIteration s hasOnly) acc w
        = (w2, Returns (acc ++ d1 ++ skippedResult test :: d2)))
    /\ (forall acc,
           for_of_acc (pre ++ post) (testIteration s hasOnly) acc w
           = (w2, Returns (acc ++ d1 ++ d2)))
    /\ (forall acc,
           for_of_acc pre (testIteration s hasOnly) acc w
           = (w1, Returns (acc ++ d1)))
    /\ length d1 = length (recordedAmong hasOnly pre).
Proof.
  intros Hskip.
  destruct (testLoop_appends s hasOnly pre w) as (w1 & d1 & Hpre & Hlen).
  destruct (testLoop_appends s hasOnly post w1) as (w2 & d2 & Hpost & _).
  exists w1, w2, d1, d2. repeat split; [| |exact Hpre|exact Hlen].
  - intros acc. rewrite for_of_acc_app. unfold bind at 1. rewrite Hpre.
    cbn [for_of_acc]. unfold Runner.testIteration at 1. rewrite Hskip.
    unfold bind, ret. rewrite Hpost, <- !app_assoc. reflexivity.
  - intros acc. rewrite for_of_acc_app. unfold bind at 1. rewrite Hpre.
    rewrite Hpost, <- !app_assoc. reflexivity.
Qed.

Lemma countPassed_insert (d1 d2 : list (TestResult Err)) (x : TestResult Err) :
  tr_passed x = true ->
  countPassed (d1 ++ x :: d2) = S (countPassed (d1 ++ d2))
  /\ countFailed (d1 ++ x :: d2) = countFailed (d1 ++ d2).
Proof.
  intros Hx. unfold Runner.countPassed, Runner.countFailed.
  rewrite !List.filter_app, !length_app. cbn [List.filter].
  rewrite Hx. cbn [negb length]. split; lia.
Qed.

(** C5: a test whose skip flag is set, at any place among the direct tests
    of a suite.  Its body is never executed: [runSuite] is the same whatever
    the body is.  When [runSuite] returns, the flattened list has, at the
    place of the test, the record
    [{name, passed: true, duration: 0, assertions: []}] with no error.  And
    when the test is not marked [only] (test.skip builds it so), the run is
    the run of the suite without the test, with that record put in and
    counted as passed and as skipped: the world is the same at every step,
    so no before-each or after-each hook was executed for it. *)
Theorem skipped_test_recorded_not_run
  (suite : Suite Act) (pre post : list (Test Act)) (test : Test Act)
  (parentName : string) (w : World) :
  suite_tests suite = pre ++ test :: post ->
  test_skip test = true ->
  let record : TestResult Err :=
    {| tr_name := test_name test;
       tr_passed := true;
       tr_error := None;
       tr_duration := 0;
       tr_assertions := [] |} in
  let place := length (recordedAmong (hasOnlyOf suite) pre) in
  (forall fn,
      runSuite (withTests (pre ++ withBody fn test :: post) suite)
        parentName w
      = runSuite suite parentName w)
  /\ (forall w' r,
         runSuite suite parentName w = (w', Returns r) ->
         nth_error (sr_tests r) place = Some record)
  /\ (test_only test = false ->
      runSuite suite parentName w
      = (let (w', c) :=
           runSuite (withTests (pre ++ post) suite) parentName w in
         (w', match c with
              | Returns r => Returns (withSkipRecord place record r)
              | Throws e => Throws e
              end))).
Proof.
  intros Htests Hskip record place.
  change record with (skippedResult test) in *.
  split; [|split].
  - intros fn. rewrite !runSuite_eq. cbv zeta.
    assert (Honly : hasOnlyOf (withTests (pre ++ withBody fn test :: post)
                                 suite)
                    = hasOnlyOf suite).
    { unfold Runner.hasOnlyOf, RunnerMore.withTests; cbn.
      rewrite Htests, !existsb_app. reflexivity. }
    rewrite Honly.
    cbn [RunnerMore.withTests suite_name suite_tests suite_beforeAll
         suite_afterAll suite_suites].
    apply bind_cong; intros t0 w1.
    apply bind_cong; intros _ w2.
    assert (Hloop : runTests (withTests (pre ++ withBody fn test :: post)
                                suite) (hasOnlyOf suite) [] w2
                    = runTests suite (hasOnlyOf suite) [] w2).
    { unfold Runner.runTests. cbn [RunnerMore.withTests suite_tests].
      rewrite Htests, !for_of_acc_app.
      rewrite (bind_cong_l _ _ _ _
                 (for_of_acc_ext pre _ (testIteration suite (hasOnlyOf suite))
                    (fun acc x s0 _ =>
                       testIteration_hooks_only _ suite (hasOnlyOf suite)
                         acc x s0 eq_refl eq_refl) [] w2)).
      apply bind_cong; intros rs w3.
      cbn [for_of_acc].
      assert (Hit : forall s0 t,
                 test_skip t = true ->
                 testIteration s0 (hasOnlyOf suite) rs t w3
                 = (w3, Returns (rs ++ [skippedResult t]))).
      { intros s0 t Ht. unfold Runner.testIteration. rewrite Ht.
        reflexivity. }
      rewrite (bind_returns_l _ _ _ _ _ (Hit _ (withBody fn test) Hskip)).
      rewrite (bind_returns_l _ _ _ _ _ (Hit suite test Hskip)).
      apply for_of_acc_ext. intros.
      apply testIteration_hooks_only; reflexivity. }
    unfold bind at 1 5. rewrite Hloop.
    destruct (runTests suite (hasOnlyOf suite) [] w2) as [w3 [rs|e]];
      [|reflexivity].
    apply bind_cong; intros rs' w4.
    apply bind_cong; intros _ w5.
    apply bind_cong; intros t1 w6.
    unfold ret. do 3 f_equal. unfold Runner.countSkipped.
    rewrite Htests, !List.filter_app.
    cbn [List.filter RunnerMore.withBody test_skip].
    rewrite Hskip, !length_app. reflexivity.
  - intros w' r Hr.
    apply runSuite_returns_inv in Hr
      as (w2 & w3 & w4 & direct & Ht & Hn & _).
    unfold Runner.runTests in Ht. rewrite Htests in Ht.
    destruct (testLoop_around_skipped suite (hasOnlyOf suite) pre post test
                w2 Hskip) as (w1' & w2' & d1 & d2 & Hwith & _ & _ & Hlen).
    rewrite Hwith in Ht. injection Ht as <- <-.
    apply nestedLoop_order in Hn as (lists & -> & _).
    cbn [app]. rewrite <- app_assoc. subst place. rewrite <- Hlen.
    rewrite nth_error_app2 by lia. rewrite Nat.sub_diag. reflexivity.
  - intros Honly0. rewrite !runSuite_eq. cbv zeta.
    assert (Honly : hasOnlyOf (withTests (pre ++ post) suite)
                    = hasOnlyOf suite).
    { unfold Runner.hasOnlyOf, RunnerMore.withTests; cbn.
      rewrite Htests, !existsb_app. cbn [existsb]. rewrite Honly0.
      reflexivity. }
    rewrite Honly.
    cbn [RunnerMore.withTests suite_name suite_tests suite_beforeAll
         suite_afterAll suite_suites].
    unfold bind.
    destruct (date_now w) as [w1 [t0|e]]; [|reflexivity].
    destruct (runHooks (suite_beforeAll suite) w1) as [w2 [[]|e]];
      [|reflexivity].
    unfold Runner.runTests. cbn [RunnerMore.withTests suite_tests].
    rewrite Htests.
    destruct (testLoop_around_skipped suite (hasOnlyOf suite) pre post test
                w2 Hskip) as (w1' & w3 & d1 & d2 & Hwith & Hwithout & _ & Hlen).
    rewrite Hwith.
    rewrite (for_of_acc_ext (pre ++ post) _
               (testIteration suite (hasOnlyOf suite)))
      by (intros; apply testIteration_hooks_only; reflexivity).
    rewrite Hwithout. cbn [app].
    unfold Runner.runNested.
    destruct (nestedLoop_appends
                (fun s => runSuite s (fullNameOf parentName (suite_name suite)))
                (hasOnlyOf suite) (suite_suites suite) w3)
      as [(w4 & dn & Hdn) | (w4 & e & He)].
    + rewrite !Hdn.
      destruct (runHooks (suite_afterAll suite) w4) as [w5 [[]|e]];
        [|reflexivity].
      destruct (date_now w5) as [w6 [t1|e]]; [|reflexivity].
      unfold ret, RunnerMore.withSkipRecord.
      cbn [sr_name sr_tests sr_passed sr_failed sr_skipped sr_duration].
      subst place. rewrite <- Hlen.
      rewrite <- !app_assoc. cbn [app].
      destruct (countPassed_insert d1 (d2 ++ dn) (skippedResult test)
                  eq_refl) as [Hp Hf].
      rewrite Hp, Hf.
      rewrite take_app_length, drop_app_length.
      unfold Runner.countSkipped. rewrite !List.filter_app, !length_app.
      cbn [List.filter]. rewrite Hskip. cbn [length].
      rewrite Nat.add_succ_r. reflexivity.
    + rewrite !He. reflexivity.
Qed.

End Facts.

End RunnerFacts.

(** ** The runner on the sample suites *)

Module RunnerExamples.

Import Runner RunnerFacts Samples.
Local Open Scope Z_scope.

(** Only-mode on [onlySuite]: "adds" and the suite "inner" leave no trace
    in the log or in the results; the skipped "later" is still recorded. *)
Example onlySuite_run :
  hasOnlyOf onlySuite = true
  /\ log (fst (runSuite tick onlySuite "" w0))
     = ["beforeAll"; "beforeEach"; "focus"; "afterEach"; "kept"; "afterAll"]
  /\ declaredOrder onlySuite = ["later"; "focus"; "kept"].
Proof. repeat split. Qed.

(** An [only] marker two levels down does not switch only-mode on. *)
Example only_is_not_inherited :
  hasOnlyOf (mkSuite "top" [adds] [] [] [] [] [onlySuite] false false)
  = false.
Proof. reflexivity. Qed.


(** The skipped "later" of [plainSuite], between "adds" and "breaks": the
    run does not depend on its body, its record is the second one of the
    flattened list, and the run is the run of the suite without it, with
    that record put in. *)
Lemma skipped_test_witness :
  suite_tests plainSuite = [adds] ++ later :: [breaks]
  /\ test_skip later = true
  /\ (forall fn,
         runSuite tick
           (RunnerMore.withTests
              ([adds] ++ RunnerMore.withBody fn later :: [breaks]) plainSuite)
           "" w0
         = runSuite tick plainSuite "" w0)
  /\ (exists w' r,
         runSuite tick plainSuite "" w0 = (w', Returns r)
         /\ nth_error (sr_tests r) 1
            = Some {| tr_name := "later"; tr_passed := true;
                      tr_error := None; tr_duration := 0;
                      tr_assertions := [] |}
         /\ existsb (String.eqb "later") (log w') = false)
  /\ test_only later = false
  /\ runSuite tick plainSuite "" w0
     = (let (w', c) :=
          runSuite tick (RunnerMore.withTests ([adds] ++ [breaks]) plainSuite)
            "" w0 in
        (w', match c with
             | Returns r =>
                 Returns (RunnerMore.withSkipRecord 1
                            {| tr_name := "later"; tr_passed := true;
                               tr_error := None; tr_duration := 0;
                               tr_assertions := [] |} r)
             | Throws e => Throws e
             end)).
Proof.
  split; [reflexivity|]. split; [reflexivity|].
  split;
    [exact (proj1 (skipped_test_recorded_not_run tick plainSuite
                     [adds] [breaks] later "" w0 eq_refl eq_refl))|].
  split.
  - eexists. eexists. split; [vm_compute; reflexivity|].
    split; [|vm_compute; reflexivity].
    refine (proj1 (proj2 (skipped_test_recorded_not_run tick plainSuite
                            [adds] [breaks] later "" w0 eq_refl eq_refl))
              _ _ _).
    vm_compute. reflexivity.
  - split; [reflexivity|].
    exact (proj2 (proj2 (skipped_test_recorded_not_run tick plainSuite
                           [adds] [breaks] later "" w0 eq_refl eq_refl))
             eq_refl).
Defined.

Lemma declaration_order_witness :
  exists w' r,
    runSuite tick plainSuite "" w0 = (w', Returns r)
    /\ map tr_name (sr_tests r) = ["adds"; "later"; "breaks"; "deep"; "end"].
Proof.
  eexists. eexists. split.
  - vm_compute. reflexivity.
  - refine (proj1 (proj1 (results_in_declaration_order tick)
                     plainSuite "" w0 _ _ _)).
    vm_compute. reflexivity.
Defined.

Lemma failed_test_cleanup_witness :
  runTest tick breaks plainSuite w0
  = ({| clock := 2; log := ["beforeEach"; "breaks"; "afterEach"] |},
     Returns {| tr_name := "breaks"; tr_passed := false;
                tr_error := Some "boom"; tr_duration := 1;
                tr_assertions := [] |}).
Proof.
  destruct (failed_test_cleanup tick breaks plainSuite w0
              {| clock := 1; log := [] |}
              {| clock := 1; log := ["beforeEach"; "breaks"] |}
              0 "boom" eq_refl
              (or_intror
                 (ex_intro _ {| clock := 1; log := ["beforeEach"] |}
                    (conj eq_refl eq_refl)))) as [H _].
  rewrite H. reflexivity.
Defined.

(** The body fails and the first after-each hook throws during the
    cleanup: the second after-each hook is not run. *)
Lemma cleanup_stops_at_failing_hook :
  ~ cleanupRunsEveryHook tick bodyFails brokenCleanup w0.
Proof.
  intros H.
  specialize (H {| clock := 1; log := [] |} 0
                {| clock := 1; log := ["body"] |} "body error"
                eq_refl eq_refl).
  vm_compute in H. discriminate H.
Qed.

Example brokenCleanup_log :
  log (fst (runTest tick bodyFails brokenCleanup w0)) = ["body"; "after1"]
  /\ log (fst (cleanupEveryHook (suite_afterEach brokenCleanup)
                 {| clock := 1; log := ["body"] |}))
     = ["body"; "after1"; "after2"].
Proof. split; reflexivity. Qed.

Lemma after_each_failure_witness :
  runTest tick bodyPasses failingAfterEach w0
  = ({| clock := 2; log := ["body"; "a"; "f"; "a"; "f"] |},
     Returns {| tr_name := "body passes"; tr_passed := false;
                tr_error := Some "hook error"; tr_duration := 1;
                tr_assertions := [] |}).
Proof.
  destruct (after_each_failure_reruns_hooks tick bodyPasses failingAfterEach
              w0 {| clock := 1; log := [] |} {| clock := 1; log := [] |}
              {| clock := 1; log := ["body"] |}
              {| clock := 1; log := ["body"; "a"; "f"] |}
              0 "hook error" eq_refl eq_refl eq_refl eq_refl) as [H _].
  rewrite H. reflexivity.
Defined.

(** The second pass stops where the first one did, so the hook after the
    failing one never runs; and a hook before the failing one that throws
    on its second call keeps the hooks after it from running twice. *)
Lemma second_pass_stops_at_failing_hook :
  ~ secondPassRunsEveryHook tick bodyPasses failingAfterEach w0
  /\ ~ secondPassRunsEveryHook tick bodyPasses closeTwice w0.
Proof.
  split; intros H.
  - specialize (H {| clock := 1; log := [] |} 0
                  {| clock := 1; log := ["body"] |}
                  {| clock := 1; log := ["body"; "a"; "f"] |} "hook error"
                  eq_refl eq_refl eq_refl).
    vm_compute in H. discriminate H.
  - specialize (H {| clock := 1; log := [] |} 0
                  {| clock := 1; log := ["body"] |}
                  {| clock := 1; log := ["body"; "close"; "b"; "f"] |}
                  "hook error" eq_refl eq_refl eq_refl).
    vm_compute in H. discriminate H.
Qed.

Example second_pass_logs :
  log (fst (runTest tick bodyPasses failingAfterEach w0))
  = ["body"; "a"; "f"; "a"; "f"]
  /\ log (fst (runTest tick bodyPasses closeTwice w0))
     = ["body"; "close"; "b"; "f"; "close"].
Proof. split; reflexivity. Qed.

(** The before-all hook of the first root suite throws: its test, its
    after-all hook and the next root suite do not run. *)
Lemma hook_failure_witness :
  runSuite tick badBeforeAll "" w0
  = ({| clock := 1; log := ["beforeAll"] |}, Throws "setup failed")
  /\ runAllTests tick ([] ++ badBeforeAll :: [nextSuite]) w0
     = ({| clock := 1; log := ["beforeAll"] |}, Throws "setup failed")
  /\ runAllTests tick ([] ++ badAfterAll :: [nextSuite]) w0
     = ({| clock := 3; log := ["reached"; "afterAll"] |},
        Throws "teardown failed").
Proof.
  destruct (@hook_failure_aborts_run W string tick)
    as (Hbefore & Hafter & _ & Hall).
  split; [|split].
  - apply (Hbefore badBeforeAll "" w0 {| clock := 1; log := [] |} 0);
      reflexivity.
  - apply (Hall badBeforeAll [] [nextSuite] w0 w0 _ []); [reflexivity..|].
    apply (Hbefore badBeforeAll "" w0 {| clock := 1; log := [] |} 0);
      reflexivity.
  - apply (Hall badAfterAll [] [nextSuite] w0 w0 _ []); [reflexivity..|].
    apply (Hafter badAfterAll "" w0 {| clock := 1; log := [] |} 0
             {| clock := 1; log := [] |}
             {| clock := 3; log := ["reached"] |}
             {| clock := 3; log := ["reached"] |}
             {| clock := 3; log := ["reached"; "afterAll"] |}
             [ {| tr_name := "reached"; tr_passed := true; tr_error := None;
                  tr_duration := 1; tr_assertions := [] |} ]
             [ {| tr_name := "reached"; tr_passed := true; tr_error := None;
                  tr_duration := 1; tr_assertions := [] |} ]);
      reflexivity.
Defined.

End RunnerExamples.

(** ** The registration API *)

Module RegistrationFacts.

Import Registration EffFacts.

Section Facts.

Context {Fn V : Type}.

Local Abbreviation State := (ModuleState Fn).
Local Abbreviation Def := (Reg Fn V unit).

Lemma fresh_unused (st : State) :
  store st !! fresh (dom (store st)) = None.
Proof. apply not_elem_of_dom. apply is_fresh. Qed.

(** [describe] and [describe.only] run the definition action in
    [stateAtEntry] and put the previous pointer back on both exits. *)
Lemma define_eq (name : string) (only : bool) (fn : Def) (st : State) :
  (suite <- newSuite name false only ;; attach suite ;;; enter suite fn) st
  = (let (st2, c) := fn (stateAtEntry name false only st) in
     (set_currentSuite (currentSuite st) st2, c)).
Proof.
  unfold bind, newSuite, attach, enter, get, modify, update, try_finally,
    stateAtEntry, set_currentSuite; cbn.
  destruct (currentSuite st) as [parent|]; cbn; reflexivity.
Qed.

(** C6: [describe] (and [describe.only]) constructs a new suite object,
    appends it to the children of the current suite, or to the root
    registry when there is no current suite, runs the definition action
    with the new suite as the current suite, and puts the previous
    current-suite pointer back whether the action returns or throws;
    [describe.skip] appends the new suite and never touches the
    pointer. *)
Theorem describe_restores_current_suite
  (name : string) (fn : Def) (st : State) :
  let l := fresh (dom (store st)) in
  (forall only,
      let entry := stateAtEntry name false only st in
      store st !! l = None
      /\ currentSuite entry = Some l
      /\ (currentIsLive st ->
          store entry !! l = Some (emptySuite name false only))
      /\ (forall p o, currentSuite st = Some p -> store st !! p = Some o ->
                      store entry !! p = Some (push_suite l o)
                      /\ rootSuites entry = rootSuites st)
      /\ (currentSuite st = None -> rootSuites entry = rootSuites st ++ [l]))
  /\ (forall st2 c,
         fn (stateAtEntry name false false st) = (st2, c) ->
         describe name fn st = (set_currentSuite (currentSuite st) st2, c))
  /\ (forall st2 c,
         fn (stateAtEntry name false true st) = (st2, c) ->
         describe_dot_only name fn st
         = (set_currentSuite (currentSuite st) st2, c))
  /\ currentSuite (fst (describe name fn st)) = currentSuite st
  /\ currentSuite (fst (describe_dot_only name fn st)) = currentSuite st
  /\ describe_dot_skip name fn st
     = (set_currentSuite (currentSuite st) (stateAtEntry name true false st),
        Returns tt).
Proof.
  intros l. pose proof (fresh_unused st) as Hfresh. fold l in Hfresh.
  split; [|split; [|split; [|split; [|split]]]].
  - intros only entry. subst entry. unfold stateAtEntry. fold l.
    split; [exact Hfresh|].
    destruct (currentSuite st) as [parent|] eqn:Hcur; cbn.
    + split; [reflexivity|]. split; [|split].
      * intros Hlive. destruct (Hlive parent Hcur) as [o Ho].
        rewrite lookup_alter_ne by congruence.
        apply lookup_insert_eq.
      * intros p o [= <-] Ho. split; [|reflexivity].
        rewrite lookup_alter_eq, lookup_insert_ne by congruence.
        rewrite Ho. reflexivity.
      * discriminate.
    + split; [reflexivity|]. split; [|split].
      * intros _. apply lookup_insert_eq.
      * discriminate.
      * reflexivity.
  - intros st2 c Hfn. unfold describe. rewrite define_eq, Hfn. reflexivity.
  - intros st2 c Hfn. unfold describe_dot_only.
    rewrite define_eq, Hfn. reflexivity.
  - unfold describe. rewrite define_eq.
    destruct (fn _) as [st2 c]. reflexivity.
  - unfold describe_dot_only. rewrite define_eq.
    destruct (fn _) as [st2 c]. reflexivity.
  - unfold describe_dot_skip, bind, newSuite, attach, get, modify, update,
      stateAtEntry, set_currentSuite; cbn.
    destruct (currentSuite st) as [parent|]; cbn; reflexivity.
Qed.

End Facts.

End RegistrationFacts.

Module RegistrationExamples.

Import Registration RegistrationFacts RegistrationSamples.

(** A definition action that throws half way: what it registered before
    stays under "A", the pointer is back to "no current suite", and the
    next [describe] lands in the root registry, not under "A". *)
Example failing_definition_does_not_capture_later_suites :
  currentSuite (fst (twoRoots initialState)) = None
  /\ snd (twoRoots initialState) = Returns tt
  /\ (map (fun s => (suite_name s, map test_name (suite_tests s),
                     map suite_name (suite_suites s)))
        <$> rootTrees 3 (fst (twoRoots initialState)))
     = Some [ ("A", ["a1"], ["A1"]); ("B", ["b1"], ["B1"; "B2"]) ].
Proof. vm_compute. repeat split. Qed.

Lemma describe_witness :
  currentSuite insideOuter = Some 0
  /\ store insideOuter !! 1 = None
  /\ describe "inner" failingDefinition insideOuter
     = (set_currentSuite (Some 0)
          (fst (failingDefinition
                  (stateAtEntry "inner" false false insideOuter))),
        Throws (JsError "bad definition"))
  /\ (so_suites <$> store (stateAtEntry "inner" false false insideOuter) !! 0)
     = Some [1]
  /\ (so_name <$> store (stateAtEntry "inner" false false insideOuter) !! 1)
     = Some "inner".
Proof.
  destruct (describe_restores_current_suite (V := unit)
              "inner" failingDefinition insideOuter)
    as (Hentry & Hdescribe & _).
  pose proof (Hentry false) as H. cbv zeta in H.
  destruct H as (Hfresh & _ & Hnew & Hparent & _).
  split; [reflexivity|]. split; [exact Hfresh|]. split; [|split].
  - apply Hdescribe. vm_compute. reflexivity.
  - destruct (Hparent 0 (emptySuite "outer" false false) eq_refl eq_refl)
      as [-> _].
    reflexivity.
  - assert (Hl : fresh (dom (store insideOuter)) = 1)
      by (vm_compute; reflexivity).
    rewrite Hl in Hnew. rewrite Hnew; [reflexivity|].
    intros p [= <-]. exists (emptySuite "outer" false false). reflexivity.
Defined.

End RegistrationExamples.

(** ** The assertion engine *)

Module ExpectFacts.

Import Expect.

Lemma Number_sameValue_refl (x : spec_float) : Number_sameValue x x = true.
Proof.
  destruct x as [s|s| |s m e]; simpl.
  - apply Bool.eqb_reflx.
  - destruct s; reflexivity.
  - reflexivity.
  - destruct s; rewrite Z.compare_refl;
      change (Pos.compare_cont Eq m m) with (Pos.compare m m);
      rewrite Pos.compare_refl; reflexivity.
Qed.

Lemma Object_is_refl (v : JsValue) : Object_is v v = true.
Proof.
  destruct v; simpl; auto using Bool.eqb_reflx, Number_sameValue_refl,
    String.eqb_refl, Nat.eqb_refl.
Qed.

Lemma deepEqual_refl (v : JsValue) : deepEqual v v = true.
Proof. destruct v; simpl; rewrite ?Object_is_refl; auto;
       try (rewrite Nat.eqb_refl; reflexivity).
       - rewrite Bool.eqb_reflx. reflexivity.
       - rewrite Number_sameValue_refl. reflexivity.
       - rewrite String.eqb_refl. reflexivity.
Qed.

(** [deepEqual] on two objects, with its loop written as a [forallb]. *)
Lemma deepEqual_objects ra pa rb pb :
  deepEqual (VObject ra pa) (VObject rb pb)
  = if Nat.eqb ra rb then true
    else if negb (Nat.eqb (length (keysOf pa)) (length (keysOf pb)))
         then false
         else forallb (fun entry =>
                         includes (keysOf pb) (fst entry)
                         && deepEqual (snd entry) (getProp pb (fst entry)))
                pa.
Proof.
  cbn [deepEqual Object_is isNull typeof JsType_eqb orb negb].
  destruct (Nat.eqb ra rb); [reflexivity|].
  destruct (negb _); [reflexivity|].
  induction pa as [|[k v] pa IH]; [reflexivity|].
  cbn [forallb fst snd].
  destruct (includes (keysOf pb) k); cbn [negb andb]; [|reflexivity].
  destruct (deepEqual v (getProp pb k)); cbn [negb]; [exact IH | reflexivity].
Qed.

Lemma includes_In (keys : list string) (key : string) :
  includes keys key = true <-> In key keys.
Proof.
  unfold includes. rewrite existsb_exists. split.
  - intros (k & Hk & Heq). apply String.eqb_eq in Heq. subst. exact Hk.
  - intros Hk. exists key. split; [exact Hk | apply String.eqb_refl].
Qed.

(** In an object without duplicate keys, [o[key]] is the value of the
    entry for [key]. *)
Lemma getProp_entry (props : list (string * JsValue)) k v :
  List.NoDup (keysOf props) -> In (k, v) props -> getProp props k = v.
Proof.
  induction props as [|[k' v'] props IH]; intros Hnd Hin; [destruct Hin|].
  cbn [keysOf map fst] in Hnd. apply NoDup_cons_iff in Hnd as [Hk' Hnd].
  cbn [getProp]. destruct Hin as [[= -> ->] | Hin].
  - rewrite String.eqb_refl. reflexivity.
  - destruct (String.eqb k k') eqn:Heq.
    + apply String.eqb_eq in Heq. subst k'. exfalso. apply Hk'.
      change (In (fst (k, v)) (map fst props)). apply in_map. exact Hin.
    + apply IH; assumption.
Qed.

Lemma entry_of_key (props : list (string * JsValue)) k :
  List.NoDup (keysOf props) -> In k (keysOf props) ->
  In (k, getProp props k) props.
Proof.
  intros Hnd Hk. unfold keysOf in Hk. apply in_map_iff in Hk as ([k' v] & <- & Hin).
  cbn [fst]. rewrite (getProp_entry props k' v Hnd Hin). exact Hin.
Qed.

Import ExpectSamples.

Lemma toBe_passes_iff formatValue (v expected : JsValue) :
  toBe formatValue (expect v) expected = Returns tt
  <-> Object_is v expected = true.
Proof.
  unfold toBe, assert, expect; cbn.
  destruct (Object_is v expected); cbn; split; congruence.
Qed.

(** C7 (amended): [toBe] is [Object.is]: [expect(NaN).toBe(NaN)] passes,
    and positive and negative zero are told apart:
    [expect(0).toBe(-0)] throws an AssertionError (while
    [expect(0).toBe(0)] and [expect(0).not.toBe(-0)] pass). *)
Theorem toBe_is_sameValue (formatValue : JsValue -> string) :
  toBe formatValue (expect NaN) NaN = Returns tt
  /\ toBe formatValue (expect posZero) negZero
     = Throws {| ae_message := "Expected " ++ formatValue posZero
                                 ++ " to be " ++ formatValue negZero;
                 ae_expected := negZero;
                 ae_actual := posZero |}
  /\ toBe formatValue (expect posZero) posZero = Returns tt
  /\ toBe formatValue (not_ (expect posZero)) negZero = Returns tt.
Proof. repeat split. Qed.

(** [expect(0).toBe(-0)] does not pass. *)
Lemma toBe_zero_negative_zero_fails :
  passes (toBe plainFormat (expect posZero) negZero) = false.
Proof. reflexivity. Qed.



End ExpectFacts.

(** ** The call recorder *)

Module MockFacts.

Import Mock EffFacts.

Section Facts.

Context {World Value : Type}.
Variable undefined : Value.
Variable Date_now : World -> World * Z.

Local Abbreviation Recorder := (@MockFunction World Value).
Local Abbreviation execute := (execute undefined Date_now).
Local Abbreviation steps := (steps undefined Date_now).
Local Abbreviation step := (step undefined Date_now).

(** What one call of [execute] does to the recorder: one record is
    appended, with [result] set when the behaviour returned and [error]
    set when it threw; the value or the error goes to its history and
    the call completes the way the behaviour did. *)
Lemma execute_records (args : list Value) (s : World * Recorder) :
  exists call,
    mf_calls (snd (fst (execute args s))) = mf_calls (snd s) ++ [call]
    /\ mc_args call = args
    /\ match snd (execute args s) with
       | Returns r =>
           mc_result call = Some r /\ mc_error call = None
           /\ mf_returnValues (snd (fst (execute args s)))
              = mf_returnValues (snd s) ++ [r]
           /\ mf_errors (snd (fst (execute args s))) = mf_errors (snd s)
       | Throws e =>
           mc_result call = None /\ mc_error call = Some e
           /\ mf_returnValues (snd (fst (execute args s)))
              = mf_returnValues (snd s)
           /\ mf_errors (snd (fst (execute args s)))
              = mf_errors (snd s) ++ [e]
       end.
Proof.
  destruct s as [w m].
  unfold Mock.execute, bind, try_catch, Mock.date_now,
    callImplementation, pushCall, pushReturnValue, pushError,
    updateMock, modify, ret, throw; cbn.
  destruct (Date_now w) as [w1 ts]; cbn.
  destruct (mf_implementation m) as [impl|]; cbn.
  - destruct (callImpl undefined impl args w1) as [[w2 [r|e]] impl']; cbn;
      eexists; repeat split.
  - eexists; repeat split.
Qed.

(** A recorder whose behaviour is "throw this error" keeps it, and
    every call throws that error and is recorded. *)
Lemma execute_ThrowImpl (error : Thrown Value) (args : list Value)
      (s : World * Recorder) :
  mf_implementation (snd s) = Some (ThrowImpl error) ->
  snd (execute args s) = Throws error
  /\ mf_implementation (snd (fst (execute args s)))
     = Some (ThrowImpl error)
  /\ length (mf_calls (snd (fst (execute args s))))
     = S (length (mf_calls (snd s)))
  /\ length (mf_errors (snd (fst (execute args s))))
     = S (length (mf_errors (snd s)))
  /\ mf_returnValues (snd (fst (execute args s)))
     = mf_returnValues (snd s).
Proof.
  destruct s as [w m]. cbn [snd fst]. intros Himpl.
  unfold Mock.execute, bind, try_catch, Mock.date_now,
    callImplementation, pushCall, pushReturnValue, pushError,
    updateMock, modify, ret, throw; cbn.
  destruct (Date_now w) as [w1 ts]; cbn. rewrite Himpl; cbn.
  rewrite !length_app; cbn. repeat split; lia.
Qed.

Lemma executes_ThrowImpl (error : Thrown Value)
      (argss : list (list Value)) (s : World * Recorder) :
  mf_implementation (snd s) = Some (ThrowImpl error) ->
  mf_implementation (snd (steps s (map OpExecute argss)))
  = Some (ThrowImpl error)
  /\ length (mf_calls (snd (steps s (map OpExecute argss))))
     = length (mf_calls (snd s)) + length argss
  /\ length (mf_errors (snd (steps s (map OpExecute argss))))
     = length (mf_errors (snd s)) + length argss
  /\ mf_returnValues (snd (steps s (map OpExecute argss)))
     = mf_returnValues (snd s).
Proof.
  revert s. induction argss as [|args argss IH]; intros s Himpl.
  - cbn. repeat split; auto.
  - cbn [map Mock.steps fold_left Mock.step].
    destruct (execute_ThrowImpl error args s Himpl)
      as (_ & Hi & Hc & He & Hr).
    destruct (IH _ Hi) as (Hi' & Hc' & He' & Hr').
    unfold Mock.steps in *. rewrite Hi', Hc', He', Hr', Hc, He, Hr.
    cbn [length]. repeat split; lia.
Qed.

(** Every record of a recorder has exactly one of [result] and [error],
    whatever the test did with the recorder. *)
Lemma steps_exactlyOne (ops : list (@MockOp World Value))
      (s : World * Recorder) :
  Forall (fun c => exactlyOne c = true) (mf_calls (snd s)) ->
  Forall (fun c => exactlyOne c = true) (mf_calls (snd (steps s ops))).
Proof.
  revert s. induction ops as [|op ops IH]; intros s Hs; [exact Hs|].
  cbn [Mock.steps fold_left]. apply IH.
  destruct op; cbn [Mock.step snd fst]; try exact Hs;
    try (constructor; fail).
  destruct (execute_records args s) as (call & -> & _ & Hcall).
  apply List.Forall_app. split; [exact Hs|].
  constructor; [|constructor]. unfold exactlyOne.
  destruct (snd (execute args s)); destruct Hcall as (-> & -> & _);
    reflexivity.
Qed.

(** C9: a recorder built with [throwError: "boom"] throws an Error with
    message "boom" on every call, and each failing call is appended to
    the call list and to the error history (after one call both have
    length 1 and [toHaveBeenCalledTimes(1)] holds); every call record of
    any recorder has exactly one of [result] and [error], set according
    to how the behaviour completed. *)
Theorem throwing_recorder_counts_calls (name : string) (w : World) :
  let boom := mockTool name
                (Some {| opt_returnValue := None;
                         opt_implementation := None;
                         opt_throwError := Some (ErrString "boom") |}) in
  (forall (argss : list (list Value)) (args : list Value),
      let s := steps (w, boom) (map OpExecute argss) in
      snd (execute args s) = Throws (JsError "boom")
      /\ messageOf (JsError "boom" : Thrown Value) = Some "boom"
      /\ length (mf_calls (snd s)) = length argss
      /\ length (mf_errors (snd s)) = length argss
      /\ mf_returnValues (snd s) = [])
  /\ (forall args,
         let m1 := snd (fst (execute args (w, boom))) in
         length (mf_errors m1) = 1
         /\ length (mf_calls m1) = 1
         /\ calledTimes m1 1 = true)
  /\ (forall options (ops : list (@MockOp World Value)),
         Forall (fun c => exactlyOne c = true)
           (mf_calls (snd (steps (w, mockTool name options) ops))))
  /\ (forall args (s : World * Recorder),
         exists call,
           mf_calls (snd (fst (execute args s)))
           = mf_calls (snd s) ++ [call]
           /\ match snd (execute args s) with
              | Returns r => mc_result call = Some r /\ mc_error call = None
              | Throws e => mc_result call = None /\ mc_error call = Some e
              end).
Proof.
  intros boom.
  assert (Hboom : mf_implementation (snd (w, boom))
                  = Some (ThrowImpl (JsError "boom"))) by reflexivity.
  split; [|split; [|split]].
  - intros argss args s.
    destruct (executes_ThrowImpl _ argss _ Hboom) as (Hi & Hc & He & Hr).
    fold s in Hi, Hc, He, Hr.
    destruct (execute_ThrowImpl _ args s Hi) as (Hthrow & _).
    repeat split; assumption.
  - intros args m1. subst m1.
    destruct (execute_ThrowImpl _ args _ Hboom) as (_ & _ & Hc & He & _).
    unfold calledTimes. rewrite Hc, He. repeat split.
  - intros options ops. apply steps_exactlyOne. constructor.
  - intros args s.
    destruct (execute_records args s) as (call & Hcalls & _ & Hcall).
    exists call. split; [exact Hcalls|].
    destruct (snd (execute args s)); destruct Hcall as (? & ? & _);
      split; assumption.
Qed.

End Facts.

End MockFacts.

Module MockExamples.

Import Mock Samples MockSamples.

(** const tool = mockTool('failing-tool', { throwError: 'boom' });
    try { await tool.execute('x') } catch (e) { .. } *)
Example boomTool_one_call :
  let r := execute None tick [Some "x"] (w0, boomTool) in
  snd r = Throws (JsError "boom")
  /\ mf_calls (snd (fst r))
     = [ {| mc_args := [Some "x"]; mc_timestamp := 0%Z;
            mc_result := None; mc_error := Some (JsError "boom") |} ]
  /\ mf_errors (snd (fst r)) = [JsError "boom"]
  /\ mf_returnValues (snd (fst r)) = []
  /\ calledTimes (snd (fst r)) 1 = true.
Proof. repeat split. Qed.

(** [mockReturnValueOnce] in front of the throwing behaviour: the first
    call returns, the second one throws again; both are recorded. *)
Example once_then_boom :
  let s := steps None tick (w0, boomTool)
             [OpMockReturnValueOnce (Some "first"); OpExecute []; OpExecute []] in
  map (fun c => (mc_result c, mc_error c)) (mf_calls (snd s))
  = [ (Some (Some "first"), None); (None, Some (JsError "boom")) ]
  /\ mf_returnValues (snd s) = [Some "first"]
  /\ mf_errors (snd s) = [JsError "boom"].
Proof. repeat split. Qed.

End MockExamples.

(** ** More about the runner *)

Module RunnerProps.

Import Runner RunnerMore EffFacts RunnerFacts.

Section Props.

Context {World Err : Type}.
Variable Date_now : World -> World * Z.

Local Abbreviation Act := (@Action World Err).
Local Abbreviation runHooks := (@runHooks World Err).
Local Abbreviation runTest := (runTest Date_now).
Local Abbreviation runSuite := (runSuite Date_now).
Local Abbreviation runNested := (runNested Date_now).
Local Abbreviation runTests := (runTests Date_now).
Local Abbreviation runAllTests := (runAllTests Date_now).
Local Abbreviation testIteration := (testIteration Date_now).
Local Abbreviation suiteIteration := (@suiteIteration World Err).
Local Abbreviation hasOnlyOf := (@hasOnlyOf World Err).
Local Abbreviation recordedTests := (@recordedTests World Err).
Local Abbreviation runChildren := (@runChildren World Err).
Local Abbreviation skippedResult := (@skippedResult World Err).

(** The two shapes of the record [runTest] returns. *)
Lemma runTest_result (test : Test Act) (suite : Suite Act) w w' r :
  runTest test suite w = (w', Returns r) ->
  tr_name r = test_name test
  /\ tr_assertions r = []
  /\ ((tr_passed r = true /\ tr_error r = None)
      \/ (tr_passed r = false /\ exists e, tr_error r = Some e)).
Proof.
  unfold Runner.runTest. intros H.
  apply bind_returns_inv in H as (w1 & t0 & _ & H).
  unfold try_catch in H.
  match type of H with
  | match ?body w1 with _ => _ end = _ =>
      destruct (body w1) as [w2 [r2|e]] eqn:Hbody
  end.
  - injection H as _ <-.
    repeat (apply bind_returns_inv in Hbody as (? & ? & _ & Hbody)).
    unfold ret in Hbody. injection Hbody as _ <-. cbn. auto.
  - repeat (apply bind_returns_inv in H as (? & ? & _ & H)).
    unfold ret in H. injection H as _ <-. cbn. eauto 6.
Qed.

(** The loop over the direct tests relates each recorded test to its
    result. *)
Lemma testLoop_related (R : Test Act -> TestResult Err -> Prop)
      (s : Suite Act) (hasOnly : bool) :
  (forall t, test_skip t = true -> R t (skippedResult t)) ->
  (forall t w w' r,
      test_skip t = false -> runTest t s w = (w', Returns r) -> R t r) ->
  forall (tests : list (Test Act)) acc w w' rs,
    for_of_acc tests (testIteration s hasOnly) acc w = (w', Returns rs) ->
    exists direct,
      rs = acc ++ direct
      /\ Forall2 R
           (List.filter
              (fun t => test_skip t || negb (hasOnly && negb (test_only t)))
              tests)
           direct.
Proof.
  intros Hskip Hrun tests.
  induction tests as [|t tests IH]; intros acc w w' rs H.
  - simpl in H. injection H as _ <-. exists []. split.
    + symmetry. apply app_nil_r.
    + constructor.
  - cbn [for_of_acc] in H.
    apply bind_returns_inv in H as (w1 & acc1 & Hit & H).
    apply IH in H as (direct & -> & Hall).
    unfold Runner.testIteration in Hit. cbn [List.filter].
    destruct (test_skip t) eqn:Hs; cbn [orb].
    + injection Hit as _ <-. exists (skippedResult t :: direct). split.
      * rewrite <- app_assoc. reflexivity.
      * constructor; [apply Hskip, Hs | exact Hall].
    + destruct (hasOnly && negb (test_only t)) eqn:Ho; cbn [negb].
      * injection Hit as _ <-. exists direct. split; [reflexivity | exact Hall].
      * apply bind_returns_inv in Hit as (w2 & r & Hr & Hit).
        injection Hit as _ <-. exists (r :: direct). split.
        -- rewrite <- app_assoc. reflexivity.
        -- constructor; [eapply Hrun; [exact Hs | exact Hr] | exact Hall].
Qed.

(** What a suite run that returns computed. *)
Lemma runSuite_returns_fields (s : Suite Act) parentName w w' r :
  runSuite s parentName w = (w', Returns r) ->
  exists w2 w3 w4 direct,
    runTests s (hasOnlyOf s) [] w2 = (w3, Returns direct)
    /\ runNested (fullNameOf parentName (suite_name s)) (hasOnlyOf s)
         (suite_suites s) direct w3 = (w4, Returns (sr_tests r))
    /\ sr_passed r = countPassed (sr_tests r)
    /\ sr_failed r = countFailed (sr_tests r)
    /\ sr_skipped r = countSkipped (suite_tests s).
Proof.
  rewrite runSuite_eq. cbv zeta. intros H.
  apply bind_returns_inv in H as (w1 & t0 & _ & H).
  apply bind_returns_inv in H as (w2 & [] & _ & H).
  apply bind_returns_inv in H as (w3 & direct & Htests & H).
  apply bind_returns_inv in H as (w4 & rs & Hnested & H).
  apply bind_returns_inv in H as (w5 & [] & _ & H).
  apply bind_returns_inv in H as (w6 & t1 & _ & H).
  unfold ret in H. injection H as _ <-.
  exists w2, w3, w4, direct. cbn. auto.
Qed.

(** A property of the results of single tests and of skip records holds
    for every result of a suite run. *)
Lemma runSuite_results_Forall (P : TestResult Err -> Prop) :
  (forall t, P (skippedResult t)) ->
  (forall t s w w' r, runTest t s w = (w', Returns r) -> P r) ->
  forall (s : Suite Act) parentName w w' r,
    runSuite s parentName w = (w', Returns r) -> Forall P (sr_tests r).
Proof.
  intros Hskip Hrun s.
  induction s as [s IHc] using Suite_nested_ind.
  intros parentName w w' r H.
  apply runSuite_returns_fields in H
    as (w2 & w3 & w4 & direct & Ht & Hn & _).
  apply (testLoop_related (fun _ x => P x)) in Ht as (direct' & -> & Hd);
    [| intros; apply Hskip | intros; eapply Hrun; eassumption].
  apply nestedLoop_order in Hn as (lists & -> & Hlists).
  cbn [app]. apply List.Forall_app. split.
  - clear -Hd. induction Hd; constructor; assumption.
  - assert (Hkept : Forall (fun c => forall p w w' r,
                                runSuite c p w = (w', Returns r) ->
                                Forall P (sr_tests r))
                      (List.filter
                         (fun c => negb (suite_skip c)
                                   && negb (hasOnlyOf s && negb (suite_only c)))
                         (suite_suites s))).
    { rewrite List.Forall_forall in *. intros c Hc.
      apply List.filter_In in Hc as [Hc _]. apply IHc. exact Hc. }
    clear IHc Hd. revert Hkept.
    induction Hlists as [|c l cs ls (w1 & w1' & rc & Hrc & ->) _ IH];
      intros Hkept; cbn [concat]; [constructor|].
    apply List.Forall_cons_iff in Hkept as [Hc Hkept].
    apply List.Forall_app. split; [eapply Hc; exact Hrc | apply IH, Hkept].
Qed.

(** The root loop relates each root suite that is run to its result. *)
Lemma runAllTests_related (Q : Suite Act -> TestSuiteResult Err -> Prop) :
  (forall s w w' r, runSuite s "" w = (w', Returns r) -> Q s r) ->
  forall (roots : list (Suite Act)) w w' rs,
    runAllTests roots w = (w', Returns rs) ->
    Forall2 Q (List.filter (fun s => negb (suite_skip s)) roots) rs.
Proof.
  intros HQ roots w w' rs H. unfold Runner.runAllTests in H.
  assert (Hgen : forall acc w0,
             for_of_acc roots
               (fun results suite =>
                  if suite_skip suite then ret results
                  else result <- runSuite suite "" ;;
                       ret (results ++ [result])) acc w0
             = (w', Returns rs) ->
             exists new,
               rs = acc ++ new
               /\ Forall2 Q (List.filter (fun s => negb (suite_skip s)) roots)
                    new).
  { clear H. induction roots as [|root roots IH]; intros acc w0 H.
    - simpl in H. injection H as _ <-. exists []. split.
      + symmetry. apply app_nil_r.
      + constructor.
    - cbn [for_of_acc] in H.
      apply bind_returns_inv in H as (w1 & acc1 & Hit & H).
      apply IH in H as (new & -> & Hall). cbn [List.filter].
      destruct (suite_skip root) eqn:Hs; cbn [negb].
      + injection Hit as _ <-. exists new. split; [reflexivity | exact Hall].
      + apply bind_returns_inv in Hit as (w2 & r & Hrun & Hit).
        injection Hit as _ <-. exists (r :: new). split.
        * rewrite <- app_assoc. reflexivity.
        * constructor; [eapply HQ; exact Hrun | exact Hall]. }
  apply Hgen in H as (new & -> & Hall). exact Hall.
Qed.

Lemma countPassed_countFailed (l : list (TestResult Err)) :
  countPassed l + countFailed l = length l.
Proof.
  unfold countPassed, countFailed.
  induction l as [|x l IH]; cbn; [reflexivity|].
  destruct (tr_passed x); cbn; lia.
Qed.

Lemma countPassed_app (l l' : list (TestResult Err)) :
  countPassed (l ++ l') = countPassed l + countPassed l'.
Proof. unfold countPassed. rewrite List.filter_app, length_app. reflexivity. Qed.

Lemma countFailed_app (l l' : list (TestResult Err)) :
  countFailed (l ++ l') = countFailed l + countFailed l'.
Proof. unfold countFailed. rewrite List.filter_app, length_app. reflexivity. Qed.

Lemma skipped_are_passed (tests : list (Test Act))
      (direct : list (TestResult Err)) :
  Forall2 (fun t x => test_skip t = true -> tr_passed x = true) tests direct ->
  countSkipped tests <= countPassed direct.
Proof.
  unfold countSkipped, countPassed.
  induction 1 as [|t x tests direct Hx _ IH]; cbn; [lia|].
  destruct (test_skip t); cbn.
  - rewrite Hx by reflexivity. cbn. lia.
  - destruct (tr_passed x); cbn; lia.
Qed.

Lemma countSkipped_recorded (keep : Test Act -> bool) (tests : list (Test Act)) :
  countSkipped (List.filter (fun t => test_skip t || keep t) tests)
  = countSkipped tests.
Proof.
  unfold countSkipped. induction tests as [|t tests IH]; cbn; [reflexivity|].
  destruct (test_skip t) eqn:Hs; cbn.
  - rewrite Hs. cbn. f_equal. exact IH.
  - destruct (keep t); cbn; [rewrite Hs|]; exact IH.
Qed.

(** The counters of a suite result, from the two loops of [runSuite]. *)
Lemma runSuite_counters (s : Suite Act) parentName w w' r :
  runSuite s parentName w = (w', Returns r) ->
  sr_passed r + sr_failed r = length (sr_tests r)
  /\ sr_skipped r = length (List.filter (fun t => test_skip t) (suite_tests s))
  /\ sr_skipped r <= sr_passed r.
Proof.
  intros H.
  apply runSuite_returns_fields in H
    as (w2 & w3 & w4 & direct & Ht & Hn & -> & -> & ->).
  split; [apply countPassed_countFailed|]. split; [reflexivity|].
  apply (testLoop_related
           (fun t x => test_skip t = true -> tr_passed x = true)) in Ht
    as (direct' & -> & Hd);
    [| intros; reflexivity | intros; congruence].
  apply nestedLoop_order in Hn as (lists & -> & _).
  cbn [app]. rewrite countPassed_app.
  apply skipped_are_passed in Hd. rewrite countSkipped_recorded in Hd. lia.
Qed.

(** X1: the counters of a TestSuiteResult.  [passed] and [failed] add up to
    the number of TestResults of the flattened list, [skipped] is the number
    of direct tests declared with skip, and every skipped direct test is also
    counted in [passed]. *)
Theorem suite_counters (s : Suite Act) parentName w w' r :
  runSuite s parentName w = (w', Returns r) ->
  sr_passed r + sr_failed r = length (sr_tests r)
  /\ sr_skipped r = length (List.filter (fun t => test_skip t) (suite_tests s))
  /\ sr_skipped r <= sr_passed r.
Proof. apply runSuite_counters. Qed.

(** X2: every TestResult of a suite run is consistent: it carries an error
    exactly when [passed] is false, and its [assertions] array is empty. *)
Theorem results_are_consistent (s : Suite Act) parentName w w' r :
  runSuite s parentName w = (w', Returns r) ->
  Forall (fun x => consistentResult x = true) (sr_tests r).
Proof.
  apply runSuite_results_Forall.
  - intros t. reflexivity.
  - intros t s0 w0 w0' r0 Hr.
    destruct (runTest_result _ _ _ _ _ Hr)
      as (_ & Ha & [[Hp He] | [Hp [e He]]]);
      unfold consistentResult; rewrite Hp, He, Ha; reflexivity.
Qed.

(** X3: a test passes exactly when its before-each hooks, its body and its
    after-each hooks all return, one after the other; the world is then the
    one they leave, and the duration is the difference of the two clock
    readings. *)
Theorem test_passes_iff_all_return
  (test : Test Act) (suite : Suite Act) (w w0 : World) (t0 : Z) :
  Date_now w = (w0, t0) ->
  (forall w3,
      (runHooks (suite_beforeEach suite) ;;;
       test_fn test ;;;
       runHooks (suite_afterEach suite)) w0 = (w3, Returns tt) ->
      runTest test suite w
      = (let (w4, t1) := Date_now w3 in
         (w4, Returns {| tr_name := test_name test;
                         tr_passed := true;
                         tr_error := None;
                         tr_duration := t1 - t0;
                         tr_assertions := [] |})))
  /\ (forall w' r,
         runTest test suite w = (w', Returns r) ->
         (tr_passed r = true <->
          exists w3,
            (runHooks (suite_beforeEach suite) ;;;
             test_fn test ;;;
             runHooks (suite_afterEach suite)) w0 = (w3, Returns tt))).
Proof.
  intros Hnow.
  assert (Hpass : forall w3,
             (runHooks (suite_beforeEach suite) ;;;
              test_fn test ;;;
              runHooks (suite_afterEach suite)) w0 = (w3, Returns tt) ->
             runTest test suite w
             = (let (w4, t1) := Date_now w3 in
                (w4, Returns {| tr_name := test_name test;
                                tr_passed := true;
                                tr_error := None;
                                tr_duration := t1 - t0;
                                tr_assertions := [] |}))).
  { intros w3 Hall. unfold Runner.runTest, bind, try_catch, Runner.date_now, ret.
    rewrite Hnow. unfold bind in Hall.
    destruct (runHooks (suite_beforeEach suite) w0) as [w1 [[]|e]];
      [|discriminate].
    destruct (test_fn test w1) as [w2 [[]|e]]; [|discriminate].
    rewrite Hall. destruct (Date_now w3) as [w4 t1]. reflexivity. }
  split; [exact Hpass|].
  intros w' r Hr. split.
  - intros Hp. unfold Runner.runTest, bind, try_catch, Runner.date_now, ret in Hr.
    rewrite Hnow in Hr. unfold bind.
    destruct (runHooks (suite_beforeEach suite) w0) as [w1 [[]|e]].
    + destruct (test_fn test w1) as [w2 [[]|e]].
      * destruct (runHooks (suite_afterEach suite) w2) as [w3 [[]|e]].
        -- exists w3. reflexivity.
        -- exfalso.
           destruct (runHooks (suite_afterEach suite) w3) as [w4 [[]|e']];
             destruct (Date_now w4) as [w5 t1]; injection Hr as _ <-;
             discriminate Hp.
      * exfalso.
        destruct (runHooks (suite_afterEach suite) w2) as [w4 [[]|e']];
          destruct (Date_now w4) as [w5 t1]; injection Hr as _ <-;
          discriminate Hp.
    + exfalso.
      destruct (runHooks (suite_afterEach suite) w1) as [w4 [[]|e']];
        destruct (Date_now w4) as [w5 t1]; injection Hr as _ <-;
        discriminate Hp.
  - intros [w3 Hall]. rewrite (Hpass w3 Hall) in Hr.
    destruct (Date_now w3) as [w4 t1]. injection Hr as _ <-. reflexivity.
Qed.

Local Abbreviation withoutSkipped := (@withoutSkipped World Err).
Local Abbreviation withEachHooks := (@withEachHooks World Err).
Local Abbreviation noDirectTestRuns := (@noDirectTestRuns World Err).

Lemma bind_cong_both {S E A B} (m1 m2 : M S E A) (k1 k2 : A -> M S E B) s :
  m1 s = m2 s -> (forall a s', k1 a s' = k2 a s') ->
  bind m1 k1 s = bind m2 k2 s.
Proof.
  intros Hm Hk. unfold bind. rewrite Hm.
  destruct (m2 s) as [s' [a|e]]; [apply Hk | reflexivity].
Qed.

(** The test loop only reads the before-each and after-each hooks of the
    suite it is given. *)
Lemma runTests_hooks_only (tests : list (Test Act)) (s s' : Suite Act)
      hasOnly acc w :
  suite_beforeEach s = suite_beforeEach s' ->
  suite_afterEach s = suite_afterEach s' ->
  for_of_acc tests (testIteration s hasOnly) acc w
  = for_of_acc tests (testIteration s' hasOnly) acc w.
Proof.
  intros Hb Ha. apply for_of_acc_ext. intros acc' t w0 _.
  unfold Runner.testIteration.
  destruct (test_skip t); [reflexivity|].
  destruct (hasOnly && negb (test_only t)); [reflexivity|].
  apply bind_cong_l. apply runTest_hooks_only; assumption.
Qed.

(** X4: a skipped suite leaves no trace.  A suite runs exactly as the suite
    without its skipped child suites (which [describe.skip] never marks
    [only]), and [runAllTests] runs exactly as on the root suites that are
    not skipped: hooks, tests and nested suites of a skipped suite are never
    run and give no result. *)
Theorem skipped_suites_are_left_out :
  (forall (s : Suite Act) parentName w,
      (forall c, In c (suite_suites s) ->
                 suite_skip c = true -> suite_only c = false) ->
      runSuite s parentName w = runSuite (withoutSkipped s) parentName w)
  /\ (forall (roots : list (Suite Act)) w,
         runAllTests roots w
         = runAllTests (List.filter (fun s => negb (suite_skip s)) roots) w).
Proof.
  split.
  - intros s parentName w Hapi. rewrite !runSuite_eq.
    assert (Honly : hasOnlyOf (withoutSkipped s) = hasOnlyOf s).
    { unfold Runner.hasOnlyOf, RunnerMore.withoutSkipped; cbn. f_equal.
      revert Hapi. generalize (suite_suites s).
      induction l as [|c l IH]; intros Hapi; cbn; [reflexivity|].
      destruct (suite_skip c) eqn:Hs; cbn.
      - rewrite (Hapi c (or_introl eq_refl) Hs). cbn.
        apply IH. intros c' Hc'. apply Hapi. right. exact Hc'.
      - f_equal. apply IH. intros c' Hc'. apply Hapi. right. exact Hc'. }
    rewrite Honly.
    cbn [RunnerMore.withoutSkipped suite_name suite_tests suite_beforeAll
         suite_afterAll suite_suites].
    apply bind_cong; intros t0 w1.
    apply bind_cong; intros _ w2.
    apply bind_cong_both.
    { unfold Runner.runTests. cbn [RunnerMore.withoutSkipped suite_tests].
      apply runTests_hooks_only; reflexivity. }
    intros rs w3.
    apply bind_cong_l. unfold Runner.runNested.
    apply (for_of_acc_filter (fun c => negb (suite_skip c))).
    intros acc c w' _ Hk. apply negb_false_iff in Hk.
    unfold Runner.suiteIteration. rewrite Hk. reflexivity.
  - intros roots w. unfold Runner.runAllTests.
    apply (for_of_acc_filter (fun s => negb (suite_skip s))).
    intros acc s w' _ Hk. apply negb_false_iff in Hk. rewrite Hk. reflexivity.
Qed.

(** X5: before-each and after-each hooks are not inherited.  When no direct
    test of a suite is executed (each one is skipped or left out by
    only-mode), the run of the suite does not depend on its before-each and
    after-each hooks: they are never run for the tests of its nested
    suites. *)
Theorem each_hooks_are_not_inherited
  (s : Suite Act) (beforeEach afterEach : list Act) parentName w :
  noDirectTestRuns s = true ->
  runSuite (withEachHooks beforeEach afterEach s) parentName w
  = runSuite s parentName w.
Proof.
  intros Hno. rewrite !runSuite_eq.
  change (hasOnlyOf (withEachHooks beforeEach afterEach s))
    with (hasOnlyOf s).
  cbn [RunnerMore.withEachHooks suite_name suite_tests suite_beforeAll
       suite_afterAll suite_suites].
  apply bind_cong; intros t0 w1.
  apply bind_cong; intros _ w2.
  apply bind_cong_l. unfold Runner.runTests.
  cbn [RunnerMore.withEachHooks suite_tests].
  apply for_of_acc_ext. intros acc t w0 Hin.
  unfold RunnerMore.noDirectTestRuns in Hno.
  rewrite forallb_forall in Hno. specialize (Hno t Hin).
  unfold Runner.testIteration.
  destruct (test_skip t); [reflexivity|]. cbn [orb] in Hno.
  rewrite Hno. reflexivity.
Qed.

Lemma fold_left_sum {A} (f : A -> nat) (l : list A) (a : nat) :
  fold_left (fun sum x => sum + f x) l a = a + list_sum (map f l).
Proof.
  revert a. induction l as [|x l IH]; intros a; cbn [fold_left map].
  - cbn. lia.
  - rewrite IH. unfold list_sum. cbn [fold_right]. lia.
Qed.

Lemma countFailed_concat (ls : list (list (TestResult Err))) :
  countFailed (concat ls) = list_sum (map (@countFailed Err) ls).
Proof.
  induction ls as [|l ls IH]; cbn [concat map]; [reflexivity|].
  rewrite countFailed_app, IH. reflexivity.
Qed.

Lemma countPassed_concat (ls : list (list (TestResult Err))) :
  countPassed (concat ls) = list_sum (map (@countPassed Err) ls).
Proof.
  induction ls as [|l ls IH]; cbn [concat map]; [reflexivity|].
  rewrite countPassed_app, IH. reflexivity.
Qed.

Lemma countFailed_pos (l : list (TestResult Err)) :
  0 < countFailed l <-> exists x, In x l /\ tr_passed x = false.
Proof.
  unfold countFailed. induction l as [|x l IH]; cbn.
  - split; [lia | intros (x & [] & _)].
  - destruct (tr_passed x) eqn:Hp; cbn.
    + rewrite IH. split.
      * intros (y & Hy & Hf). exists y. auto.
      * intros (y & [<- | Hy] & Hf); [congruence | eauto].
    + split; [intros _; exists x; auto | lia].
Qed.

(** The counters of the results of [runAllTests] are those of their lists. *)
Lemma runAllTests_counters (roots : list (Suite Act)) w w' rs :
  runAllTests roots w = (w', Returns rs) ->
  Forall (fun r => sr_passed r = countPassed (sr_tests r)
                   /\ sr_failed r = countFailed (sr_tests r)
                   /\ sr_skipped r <= sr_passed r) rs.
Proof.
  intros H.
  apply (runAllTests_related
           (fun _ r => sr_passed r = countPassed (sr_tests r)
                       /\ sr_failed r = countFailed (sr_tests r)
                       /\ sr_skipped r <= sr_passed r)) in H.
  - clear -H. induction H; constructor; assumption.
  - intros s w0 w0' r Hr.
    destruct (runSuite_counters _ _ _ _ _ Hr) as (_ & _ & Hle).
    apply runSuite_returns_fields in Hr
      as (_ & _ & _ & _ & _ & _ & Hp & Hf & _).
    auto.
Qed.

Lemma list_sum_map_ext {A} (f g : A -> nat) (l : list A) :
  Forall (fun x => f x = g x) l -> list_sum (map f l) = list_sum (map g l).
Proof.
  induction 1 as [|x l Hx _ IH]; [reflexivity|].
  cbn [map]. unfold list_sum in *. cbn [fold_right]. rewrite Hx, IH.
  reflexivity.
Qed.

Lemma list_sum_map_le {A} (f g : A -> nat) (l : list A) :
  Forall (fun x => f x <= g x) l -> list_sum (map f l) <= list_sum (map g l).
Proof.
  induction 1 as [|x l Hx _ IH]; [reflexivity|].
  cbn [map]. unfold list_sum in *. cbn [fold_right]. lia.
Qed.

Lemma totalFailedOf_count (roots : list (Suite Act)) w w' rs :
  runAllTests roots w = (w', Returns rs) ->
  totalFailedOf rs = countFailed (allResults rs).
Proof.
  intros H. apply runAllTests_counters in H.
  unfold totalFailedOf, allResults. rewrite fold_left_sum. cbn [plus].
  rewrite countFailed_concat, map_map.
  apply list_sum_map_ext. eapply List.Forall_impl; [|exact H].
  intros r (_ & Hf & _). exact Hf.
Qed.

(** X6: the exit code of the [run] action.  After [runAllTests] has
    returned, the process ends with code 1 exactly when some TestResult of
    some suite has [passed] false, and with code 0 exactly when every
    TestResult passed (skip records included). *)
Theorem exit_code_reports_failures (roots : list (Suite Act)) w w' rs :
  runAllTests roots w = (w', Returns rs) ->
  (exitCode rs = 1 <-> exists x, In x (allResults rs) /\ tr_passed x = false)
  /\ (exitCode rs = 0 <-> forall x, In x (allResults rs) -> tr_passed x = true).
Proof.
  intros H. unfold exitCode. rewrite (totalFailedOf_count _ _ _ _ H).
  pose proof (countFailed_pos (allResults rs)) as Hpos.
  destruct (Nat.ltb 0 (countFailed (allResults rs))) eqn:Hlt.
  - apply Nat.ltb_lt in Hlt. split.
    + split; [intros _; apply Hpos, Hlt | reflexivity].
    + split; [discriminate|]. intros Hall. exfalso.
      apply Hpos in Hlt as (x & Hx & Hf). rewrite (Hall x Hx) in Hf.
      discriminate.
  - apply Nat.ltb_ge in Hlt. split.
    + split; [discriminate|]. intros Hex. apply Hpos in Hex. lia.
    + split; [|reflexivity]. intros _ x Hx.
      destruct (tr_passed x) eqn:Hp; [reflexivity|].
      exfalso. assert (0 < countFailed (allResults rs)); [|lia].
      apply Hpos. eauto.
Qed.

Lemma totalsOf_sums (rs : list (TestSuiteResult Err)) :
  totalPassed (totalsOf rs) = list_sum (map sr_passed rs)
  /\ totalFailed (totalsOf rs) = list_sum (map sr_failed rs)
  /\ totalSkipped (totalsOf rs) = list_sum (map sr_skipped rs).
Proof.
  unfold totalsOf.
  assert (Hgen : forall t,
             let t' := fold_left
                         (fun t suite =>
                            {| totalPassed := totalPassed t + sr_passed suite;
                               totalFailed := totalFailed t + sr_failed suite;
                               totalSkipped := totalSkipped t + sr_skipped suite |})
                         rs t in
             totalPassed t' = totalPassed t + list_sum (map sr_passed rs)
             /\ totalFailed t' = totalFailed t + list_sum (map sr_failed rs)
             /\ totalSkipped t' = totalSkipped t + list_sum (map sr_skipped rs)).
  { induction rs as [|r rs IH]; intros t; cbn [fold_left map].
    - cbn. lia.
    - cbv zeta in *.
      match goal with
      | |- context [fold_left _ rs ?t'] => destruct (IH t') as (-> & -> & ->)
      end.
      unfold list_sum. cbn [fold_right totalPassed totalFailed totalSkipped].
      lia. }
  apply (Hgen {| totalPassed := 0; totalFailed := 0; totalSkipped := 0 |}).
Qed.

(** X7: the summary of [printResults].  For the results of [runAllTests],
    "Passed" is the number of TestResults with [passed] true, "Failed" the
    number with [passed] false, "Total" the number of all TestResults, and
    "Skipped" is at most "Passed": a skipped test is counted as passed and as
    skipped, and is part of the total. *)
Theorem summary_counts_results (roots : list (Suite Act)) w w' rs :
  runAllTests roots w = (w', Returns rs) ->
  totalPassed (totalsOf rs) = countPassed (allResults rs)
  /\ totalFailed (totalsOf rs) = countFailed (allResults rs)
  /\ printedTotal (totalsOf rs) = length (allResults rs)
  /\ totalSkipped (totalsOf rs) <= totalPassed (totalsOf rs).
Proof.
  intros H. apply runAllTests_counters in H.
  destruct (totalsOf_sums rs) as (Hp & Hf & Hs).
  assert (Hpassed : totalPassed (totalsOf rs) = countPassed (allResults rs)).
  { rewrite Hp. unfold allResults. rewrite countPassed_concat, map_map.
    apply list_sum_map_ext. eapply List.Forall_impl; [|exact H].
    intros r (Hr & _). exact Hr. }
  assert (Hfailed : totalFailed (totalsOf rs) = countFailed (allResults rs)).
  { rewrite Hf. unfold allResults. rewrite countFailed_concat, map_map.
    apply list_sum_map_ext. eapply List.Forall_impl; [|exact H].
    intros r (_ & Hr & _). exact Hr. }
  split; [exact Hpassed|]. split; [exact Hfailed|]. split.
  - unfold printedTotal. rewrite Hpassed, Hfailed.
    apply countPassed_countFailed.
  - rewrite Hs, Hp. apply list_sum_map_le.
    eapply List.Forall_impl; [|exact H]. intros r (_ & _ & Hr). exact Hr.
Qed.

End Props.

End RunnerProps.

Module RunnerPropsExamples.

Import Runner RunnerMore RunnerProps Samples MoreSamples.
Local Open Scope Z_scope.

Lemma suite_counters_witness :
  exists w' r,
    runSuite tick plainSuite "" w0 = (w', Returns r)
    /\ (sr_passed r, sr_failed r, sr_skipped r) = (4%nat, 1%nat, 1%nat)
    /\ (sr_passed r + sr_failed r = length (sr_tests r))%nat
    /\ (sr_skipped r <= sr_passed r)%nat.
Proof.
  eexists. eexists. split; [vm_compute; reflexivity|].
  split; [reflexivity|].
  refine (let H := suite_counters tick plainSuite "" w0 _ _ _ in
          conj (proj1 H) (proj2 (proj2 H))).
  vm_compute. reflexivity.
Defined.

Lemma results_are_consistent_witness :
  exists w' r,
    runSuite tick plainSuite "" w0 = (w', Returns r)
    /\ Forall (fun x => consistentResult x = true) (sr_tests r).
Proof.
  eexists. eexists. split; [vm_compute; reflexivity|].
  refine (results_are_consistent tick plainSuite "" w0 _ _ _).
  vm_compute. reflexivity.
Defined.

Lemma test_passes_witness :
  runTest tick adds plainSuite w0
  = ({| clock := 2; log := ["beforeEach"; "adds"; "afterEach"] |},
     Returns {| tr_name := "adds"; tr_passed := true; tr_error := None;
                tr_duration := 1; tr_assertions := [] |}).
Proof.
  refine (proj1 (test_passes_iff_all_return tick adds plainSuite w0
                   {| clock := 1; log := [] |} 0 eq_refl)
            {| clock := 1; log := ["beforeEach"; "adds"; "afterEach"] |} _).
  reflexivity.
Defined.

(** The skipped suite "hidden" of [plainSuite] is left out. *)
Lemma skipped_suites_witness :
  runSuite tick plainSuite "" w0 = runSuite tick (withoutSkipped plainSuite) "" w0
  /\ ~ In "never" (log (fst (runSuite tick plainSuite "" w0))).
Proof.
  split.
  - apply (proj1 (skipped_suites_are_left_out tick)).
    intros c [<- | [<- | [<- | []]]]; cbn; congruence.
  - vm_compute. intuition discriminate.
Defined.

(** The hooks of "parent" are not run for the test of "child". *)
Lemma each_hooks_witness :
  runSuite tick (withEachHooks [] [] parentWithHooks) "" w0
  = runSuite tick parentWithHooks "" w0
  /\ log (fst (runSuite tick parentWithHooks "" w0)) = ["nested"].
Proof.
  split; [|reflexivity].
  apply (each_hooks_are_not_inherited tick parentWithHooks [] [] "" w0).
  reflexivity.
Defined.

Lemma exit_code_witness :
  exists rs w',
    runAllTests tick [plainSuite; greenSuite] w0 = (w', Returns rs)
    /\ exitCode rs = 1%nat
    /\ exists x, In x (allResults rs) /\ tr_passed x = false.
Proof.
  eexists. eexists. split; [vm_compute; reflexivity|].
  split; [reflexivity|].
  refine (proj1 (proj1 (exit_code_reports_failures tick
                          [plainSuite; greenSuite] w0 _ _ _)) _);
    vm_compute; reflexivity.
Defined.

Lemma summary_witness :
  exists rs w',
    runAllTests tick [plainSuite; greenSuite] w0 = (w', Returns rs)
    /\ totalsOf rs
       = {| totalPassed := 6; totalFailed := 1; totalSkipped := 2 |}
    /\ printedTotal (totalsOf rs) = length (allResults rs).
Proof.
  eexists. eexists. split; [vm_compute; reflexivity|].
  split; [reflexivity|].
  refine (proj1 (proj2 (proj2 (summary_counts_results tick
                                 [plainSuite; greenSuite] w0 _ _ _)))).
  vm_compute. reflexivity.
Defined.

End RunnerPropsExamples.

(** ** Registration of a test file *)

Module DeclarationFacts.

Import Registration RegistrationFacts Declarations EffFacts.

Section Facts.

Context {Fn V : Type}.

Local Abbreviation State := (ModuleState Fn).
Local Abbreviation Obj := (SuiteObj Fn).
Local Abbreviation declare := (@declare Fn V).
Local Abbreviation declareAll := (@declareAll Fn V).
Local Abbreviation describe := (@describe Fn V).
Local Abbreviation describe_dot_only := (@describe_dot_only Fn V).
Local Abbreviation describe_dot_skip := (@describe_dot_skip Fn V).

(** An induction principle that reaches the bodies. *)
Lemma Decl_nested_ind (P : Decl Fn -> Prop) :
  (forall name fn, P (DTest name fn)) ->
  (forall name fn, P (DTestSkip name fn)) ->
  (forall name fn, P (DTestOnly name fn)) ->
  (forall kind fn, P (DHook kind fn)) ->
  (forall name body, Forall P body -> P (DDescribe name body)) ->
  (forall name body, Forall P body -> P (DDescribeSkip name body)) ->
  (forall name body, Forall P body -> P (DDescribeOnly name body)) ->
  forall d, P d.
Proof.
  intros Ht Hs Ho Hh Hd Hds Hdo. fix IH 1. intros d.
  destruct d as [name fn|name fn|name fn|kind fn|name body|name body|name body].
  - apply Ht.
  - apply Hs.
  - apply Ho.
  - apply Hh.
  - apply Hd. induction body as [|d' body IHbody].
    + apply List.Forall_nil.
    + apply List.Forall_cons; [apply IH | exact IHbody].
  - apply Hds. induction body as [|d' body IHbody].
    + apply List.Forall_nil.
    + apply List.Forall_cons; [apply IH | exact IHbody].
  - apply Hdo. induction body as [|d' body IHbody].
    + apply List.Forall_nil.
    + apply List.Forall_cons; [apply IH | exact IHbody].
Qed.

(** *** Trees read off the store *)

Lemma treeOf_more_fuel (h : gmap loc Obj) (n : nat) :
  forall l t, treeOf n h l = Some t -> treeOf (S n) h l = Some t.
Proof.
  induction n as [|n IH]; intros l t H; [discriminate|].
  cbn [treeOf] in H. change (treeOf (S (S n)) h l) with
    (match h !! l with
     | None => None
     | Some o =>
         match mapM (treeOf (S n) h) (so_suites o) with
         | None => None
         | Some children =>
             Some (mkSuite (so_name o) (so_tests o) (so_beforeEach o)
                     (so_afterEach o) (so_beforeAll o) (so_afterAll o)
                     children (so_skip o) (so_only o))
         end
     end).
  destruct (h !! l) as [o|]; [|discriminate].
  destruct (mapM (treeOf n h) (so_suites o)) as [children|] eqn:Hc;
    [|discriminate].
  apply mapM_Some in Hc.
  assert (Hc' : mapM (treeOf (S n) h) (so_suites o) = Some children).
  { apply mapM_Some. eapply Forall2_impl; [exact Hc|]. intros k c. apply IH. }
  rewrite Hc'. exact H.
Qed.

Lemma treeOf_fuel_le (h : gmap loc Obj) (n m : nat) l t :
  n <= m -> treeOf n h l = Some t -> treeOf m h l = Some t.
Proof.
  induction 1 as [|m _ IH]; [auto|].
  intros H. apply treeOf_more_fuel, IH, H.
Qed.

Lemma treeOf_weaken (h h' : gmap loc Obj) (n : nat) :
  h ⊆ h' -> forall l t, treeOf n h l = Some t -> treeOf n h' l = Some t.
Proof.
  intros Hsub. induction n as [|n IH]; intros l t H; [discriminate|].
  cbn [treeOf] in *.
  destruct (h !! l) as [o|] eqn:Ho; [|discriminate].
  rewrite (lookup_weaken _ _ _ _ Ho Hsub).
  destruct (mapM (treeOf n h) (so_suites o)) as [children|] eqn:Hc;
    [|discriminate].
  apply mapM_Some in Hc.
  assert (Hc' : mapM (treeOf n h') (so_suites o) = Some children).
  { apply mapM_Some. eapply Forall2_impl; [exact Hc|]. intros k c. apply IH. }
  rewrite Hc'. exact H.
Qed.

Lemma denotes_weaken (h h' : gmap loc Obj) l t :
  h ⊆ h' -> denotes h l t -> denotes h' l t.
Proof. intros Hsub [n H]. exists n. eapply treeOf_weaken; eassumption. Qed.

(** Trees that exist each with its own fuel exist with a common one. *)
Lemma denotes_common_fuel (h : gmap loc Obj) (ls : list loc)
      (ts : list (Suite Fn)) :
  Forall2 (denotes h) ls ts ->
  exists n, Forall2 (fun l t => treeOf n h l = Some t) ls ts.
Proof.
  induction 1 as [|l t ls ts [n Hn] _ [m Hm]].
  - exists 0. constructor.
  - exists (Nat.max n m). constructor.
    + eapply treeOf_fuel_le; [|exact Hn]. lia.
    + eapply Forall2_impl; [exact Hm|]. intros l' t' H'.
      eapply treeOf_fuel_le; [|exact H']. lia.
Qed.

Lemma denotes_object (h : gmap loc Obj) l o (children : list (Suite Fn)) :
  h !! l = Some o ->
  Forall2 (denotes h) (so_suites o) children ->
  denotes h l (mkSuite (so_name o) (so_tests o) (so_beforeEach o)
                 (so_afterEach o) (so_beforeAll o) (so_afterAll o)
                 children (so_skip o) (so_only o)).
Proof.
  intros Ho Hc. apply denotes_common_fuel in Hc as [n Hn].
  exists (S n). cbn [treeOf]. rewrite Ho.
  apply mapM_Some in Hn. rewrite Hn. reflexivity.
Qed.

Lemma lookup_newPart (h h' : gmap loc Obj) i x :
  newPart h h' !! i = Some x <-> h' !! i = Some x /\ h !! i = None.
Proof.
  unfold newPart. rewrite map_lookup_filter_Some. cbn.
  rewrite not_elem_of_dom. reflexivity.
Qed.

Lemma newPart_mono (h1 h1' h2 h2' : gmap loc Obj) :
  (forall i x, h1' !! i = Some x -> h1 !! i = None ->
               h2' !! i = Some x /\ h2 !! i = None) ->
  newPart h1 h1' ⊆ newPart h2 h2'.
Proof.
  intros H. apply map_subseteq_spec. intros i x Hi.
  apply lookup_newPart in Hi as [Hi Hn]. apply lookup_newPart. auto.
Qed.

(** *** The API calls *)

Lemma all_is_declareAll (body : list (Decl Fn)) (st : State) :
  (fix all (l : list (Decl Fn)) : Reg Fn V unit :=
     match l with
     | [] => ret tt
     | d' :: rest => bind (declare d') (fun _ => all rest)
     end) body st
  = declareAll body st.
Proof.
  revert st. induction body as [|d body IH]; intros st; [reflexivity|].
  cbn [Declarations.declareAll for_of].
  apply bind_cong. intros _ st'. apply IH.
Qed.

(** What [describe] and [describe.only] do, in terms of the state in which
    the action starts. *)
Lemma describe_run (name : string) (only : bool) (fn : Reg Fn V unit)
      (st : State) :
  (if only then describe_dot_only name fn st else describe name fn st)
  = (let (st2, c) := fn (stateAtEntry name false only st) in
     (set_currentSuite (currentSuite st) st2, c)).
Proof.
  destruct only; [unfold Registration.describe_dot_only
                 | unfold Registration.describe];
    apply define_eq.
Qed.

Lemma describe_skip_run (name : string) (fn : Reg Fn V unit) (st : State) :
  describe_dot_skip name fn st
  = (set_currentSuite (currentSuite st) (stateAtEntry name true false st),
     Returns tt).
Proof.
  unfold Registration.describe_dot_skip, bind, newSuite, attach, get, modify,
    update, stateAtEntry, set_currentSuite; cbn.
  destruct (currentSuite st) as [parent|]; cbn; reflexivity.
Qed.

(** The state in which a definition action starts. *)
Lemma entry_facts (name : string) (skip only : bool) (st : State) :
  currentIsLive st ->
  let l := fresh (dom (store st)) in
  let entry := stateAtEntry name skip only st in
  store st !! l = None
  /\ currentSuite entry = Some l
  /\ store entry !! l = Some (emptySuite name skip only)
  /\ (forall i x, currentSuite st <> Some i -> store st !! i = Some x ->
                  store entry !! i = Some x)
  /\ (forall p o, currentSuite st = Some p -> store st !! p = Some o ->
                  store entry !! p = Some (push_suite l o)
                  /\ rootSuites entry = rootSuites st)
  /\ (currentSuite st = None -> rootSuites entry = rootSuites st ++ [l]).
Proof.
  intros Hlive l entry. subst entry. unfold stateAtEntry. fold l.
  pose proof (fresh_unused st) as Hfresh. fold l in Hfresh.
  split; [exact Hfresh|].
  destruct (currentSuite st) as [parent|] eqn:Hcur; cbn.
  - destruct (Hlive parent Hcur) as [op Hop].
    assert (Hne : parent <> l) by congruence.
    split; [reflexivity|]. split; [|split; [|split]].
    + rewrite lookup_alter_ne by exact Hne. apply lookup_insert_eq.
    + intros i x Hi Hx.
      rewrite lookup_alter_ne by congruence.
      rewrite lookup_insert_ne by congruence. exact Hx.
    + intros p o [= <-] Ho. split; [|reflexivity].
      rewrite lookup_alter_eq, lookup_insert_ne by congruence.
      rewrite Ho. reflexivity.
    + discriminate.
  - split; [reflexivity|]. split; [|split; [|split]].
    + apply lookup_insert_eq.
    + intros i x _ Hx. rewrite lookup_insert_ne by congruence. exact Hx.
    + discriminate.
    + reflexivity.
Qed.

(** A test or a hook declared while [l] is the current suite. *)
Lemma inCurrentSuite_live (msg : string) (f : Obj -> Obj) (st : State) l o :
  currentSuite st = Some l -> store st !! l = Some o ->
  exists st',
    @inCurrentSuite Fn V msg f st = (st', Returns tt)
    /\ currentSuite st' = Some l
    /\ rootSuites st' = rootSuites st
    /\ store st' !! l = Some (f o)
    /\ (forall i x, i <> l -> store st !! i = Some x -> store st' !! i = Some x)
    /\ (forall i, store st !! i = None -> store st' !! i = None).
Proof.
  intros Hcur Ho. unfold inCurrentSuite, bind, get, update, modify.
  rewrite Hcur. eexists. split; [reflexivity|]. cbn.
  split; [exact Hcur|]. split; [reflexivity|]. split; [|split].
  - rewrite lookup_alter_eq, Ho. reflexivity.
  - intros i x Hi Hx. rewrite lookup_alter_ne by congruence. exact Hx.
  - intros i Hi. destruct (decide (l = i)) as [->|Hne]; [congruence|].
    rewrite lookup_alter_ne by exact Hne. exact Hi.
Qed.

Lemma suitesOf_children (body : list (Decl Fn)) :
  (fix children (l : list (Decl Fn)) : list (Suite Fn) :=
     match l with
     | [] => []
     | d' :: rest => suitesOf d' ++ children rest
     end) body
  = declaredSuites body.
Proof.
  induction body as [|d body IH]; [reflexivity|].
  cbn [declaredSuites flat_map]. rewrite IH. reflexivity.
Qed.

Local Abbreviation registers := (@registers Fn V).

Lemma grown_nothing (o : Obj) : grown o [] [] = o.
Proof.
  destruct o. unfold grown; cbn. rewrite !app_nil_r. reflexivity.
Qed.

Lemma grown_grown (o : Obj) (body1 body2 : list (Decl Fn)) news1 news2 :
  grown (grown o body1 news1) body2 news2
  = grown o (body1 ++ body2) (news1 ++ news2).
Proof.
  unfold grown; cbn. rewrite !flat_map_app, !app_assoc. reflexivity.
Qed.

(** Objects are never removed by a run that registers. *)
Lemma registers_keeps (st st' : State) (body : list (Decl Fn)) news :
  currentIsLive st ->
  (forall i x, currentSuite st <> Some i -> store st !! i = Some x ->
               store st' !! i = Some x) ->
  (forall l o, currentSuite st = Some l -> store st !! l = Some o ->
               store st' !! l = Some (grown o body news)
               /\ rootSuites st' = rootSuites st) ->
  forall i, store st' !! i = None -> store st !! i = None.
Proof.
  intros Hlive Hframe Hgrown i Hi.
  destruct (store st !! i) as [x|] eqn:Hx; [|reflexivity].
  destruct (decide (currentSuite st = Some i)) as [Hc|Hc].
  - destruct (Hgrown i x Hc Hx) as [Hl _]. congruence.
  - rewrite (Hframe i x Hc Hx) in Hi. discriminate.
Qed.

(** Declarations made one after the other. *)
Lemma registers_seq (run1 run2 : Reg Fn V unit) (body1 body2 : list (Decl Fn))
      (st : State) :
  currentIsLive st ->
  registers run1 body1 st ->
  (forall st1, currentIsLive st1 -> currentSuite st1 = currentSuite st ->
               registers run2 body2 st1) ->
  registers (bind run1 (fun _ => run2)) (body1 ++ body2) st.
Proof.
  intros Hlive (st1 & news1 & Hrun1 & Hcur1 & Hframe1 & Hgrown1 & Hroots1 & Hden1)
         H2.
  assert (Hlive1 : currentIsLive st1).
  { intros p Hp. rewrite Hcur1 in Hp. destruct (Hlive p Hp) as [o Ho].
    destruct (Hgrown1 p o Hp Ho) as [Hl _]. eauto. }
  destruct (H2 st1 Hlive1 Hcur1)
    as (st2 & news2 & Hrun2 & Hcur2 & Hframe2 & Hgrown2 & Hroots2 & Hden2).
  pose proof (registers_keeps _ _ _ _ Hlive Hframe1 Hgrown1) as Hkeep1.
  exists st2, (news1 ++ news2).
  split; [rewrite (bind_returns_l _ _ _ _ _ Hrun1); exact Hrun2|].
  split; [congruence|]. split; [|split; [|split]].
  - intros i x Hi Hx. apply Hframe2; [congruence|]. apply Hframe1; assumption.
  - intros l o Hl Ho. destruct (Hgrown1 l o Hl Ho) as [Ho1 Hr1].
    destruct (Hgrown2 l _ (eq_trans Hcur1 Hl) Ho1) as [Ho2 Hr2].
    rewrite grown_grown in Ho2. split; [exact Ho2 | congruence].
  - intros Hnone. rewrite Hroots2 by congruence. rewrite Hroots1 by exact Hnone.
    rewrite app_assoc. reflexivity.
  - unfold declaredSuites. rewrite flat_map_app. apply Forall2_app.
    + eapply Forall2_impl; [exact Hden1|]. intros l t.
      apply denotes_weaken. apply newPart_mono. intros i x Hi Hn.
      split; [|exact Hn]. apply Hframe2; [|exact Hi].
      rewrite Hcur1. intros Hc. destruct (Hlive i Hc) as [o Ho]. congruence.
    + eapply Forall2_impl; [exact Hden2|]. intros l t.
      apply denotes_weaken. apply newPart_mono. intros i x Hi Hn.
      split; [exact Hi|]. apply Hkeep1. exact Hn.
Qed.

Lemma registers_nothing (st : State) : registers (ret tt) [] st.
Proof.
  exists st, []. split; [reflexivity|]. split; [reflexivity|].
  split; [auto|]. split; [|split].
  - intros l o _ Ho. rewrite grown_nothing. auto.
  - intros _. symmetry. apply app_nil_r.
  - constructor.
Qed.

(** Two runs that agree register the same. *)
Lemma registers_ext (run run' : Reg Fn V unit) body (st : State) :
  run st = run' st -> registers run' body st -> registers run body st.
Proof.
  intros Heq (st' & news & Hrun & H). exists st', news.
  split; [congruence | exact H].
Qed.

(** A test or a hook declared inside a suite. *)
Lemma registers_leaf (d : Decl Fn) (msg : string) (f : Obj -> Obj)
      (st : State) :
  isDescribe d = false ->
  (forall st0, declare d st0 = @inCurrentSuite Fn V msg f st0) ->
  (forall o, f o = grown o [d] []) ->
  currentIsLive st -> is_Some (currentSuite st) ->
  registers (declare d) [d] st.
Proof.
  intros Hleaf Hdecl Hf Hlive [l Hl]. destruct (Hlive l Hl) as [o Ho].
  destruct (inCurrentSuite_live msg f st l o Hl Ho)
    as (st' & Hrun & Hcur & Hroots & Hobj & Hframe & _).
  exists st', []. split; [rewrite Hdecl; exact Hrun|].
  split; [congruence|]. split; [|split; [|split]].
  - intros i x Hi Hx. apply Hframe; congruence.
  - intros l' o' Hl' Ho'. assert (l' = l) by congruence. subst l'.
    assert (o' = o) by congruence. subst o'.
    rewrite <- Hf. auto.
  - congruence.
  - unfold declaredSuites. cbn [flat_map].
    destruct d; try discriminate Hleaf; constructor.
Qed.

(** A suite declared with [describe], [describe.only] or [describe.skip],
    given that its body registers in the state in which it starts. *)
Lemma registers_describe (d : Decl Fn) (name : string) (skip only : bool)
      (body : list (Decl Fn)) (st : State) :
  currentIsLive st ->
  (d = DDescribe name body /\ skip = false /\ only = false
   \/ d = DDescribeOnly name body /\ skip = false /\ only = true
   \/ d = DDescribeSkip name body /\ skip = true /\ only = false) ->
  (skip = false ->
   registers (declareAll body) body (stateAtEntry name skip only st)) ->
  registers (declare d) [d] st.
Proof.
  intros Hlive Hd Hbody.
  destruct (entry_facts name skip only st Hlive)
    as (Hfresh & Hecur & Henew & Heframe & Heparent & Heroots).
  set (l := fresh (dom (store st))) in *.
  set (entry := stateAtEntry name skip only st) in *.
  assert (Hrun : exists st2 news,
             declare d st = (set_currentSuite (currentSuite st) st2, Returns tt)
             /\ currentSuite st2 = Some l
             /\ rootSuites st2 = rootSuites entry
             /\ (forall i x, i <> l -> store entry !! i = Some x ->
                             store st2 !! i = Some x)
             /\ (forall i, store st2 !! i = None -> store entry !! i = None)
             /\ store st2 !! l
                = Some (if skip then emptySuite name skip only
                        else grown (emptySuite name skip only) body news)
             /\ Forall2 (denotes (newPart (store entry) (store st2))) news
                  (if skip then [] else declaredSuites body)).
  { destruct skip.
    - exists entry, [].
      assert (Heq : d = DDescribeSkip name body)
        by (destruct Hd as [(_ & ? & _) | [(_ & ? & _) | (? & _)]];
            congruence).
      subst d. split.
      { cbn [Declarations.declare].
        assert (only = false)
          by (destruct Hd as [(_ & ? & _) | [(_ & ? & _) | (_ & _ & ?)]];
              congruence).
        subst only. apply describe_skip_run. }
      repeat split; auto; try constructor.
    - destruct (Hbody eq_refl)
        as (st2 & news & Hb & Hcur2 & Hframe2 & Hgrown2 & _ & Hden2).
      exists st2, news. split.
      { assert (Heq : declare d st
                      = (if only then describe_dot_only name (declareAll body) st
                         else describe name (declareAll body) st)).
        { destruct Hd as [(-> & _ & ->) | [(-> & _ & ->) | (_ & ? & _)]];
            [| |discriminate]; cbn [Declarations.declare];
            [ unfold Registration.describe
            | unfold Registration.describe_dot_only ];
            rewrite !define_eq; rewrite all_is_declareAll; reflexivity. }
        rewrite Heq, describe_run. fold entry. rewrite Hb. reflexivity. }
      assert (Hlive_entry : currentSuite entry = Some l) by exact Hecur.
      destruct (Hgrown2 l _ Hecur Henew) as [Hl2 Hr2].
      split; [congruence|]. split; [exact Hr2|]. split; [|split; [|split]].
      + intros i x Hi Hx. apply Hframe2; [congruence | exact Hx].
      + assert (Hlive' : currentIsLive entry).
        { intros p Hp. assert (p = l) by congruence. subst p. eauto. }
        apply (registers_keeps _ _ _ _ Hlive' Hframe2 Hgrown2).
      + exact Hl2.
      + exact Hden2. }
  destruct Hrun as (st2 & news & Hrun & Hcur2 & Hroots2 & Hframe2 & Hkeep2
                    & Hobj2 & Hden2).
  exists (set_currentSuite (currentSuite st) st2), [l].
  split; [exact Hrun|]. split; [reflexivity|].
  cbn [set_currentSuite store rootSuites currentSuite].
  split; [|split; [|split]].
  - intros i x Hi Hx. apply Hframe2; [congruence|]. apply Heframe; assumption.
  - intros p o Hp Ho. destruct (Heparent p o Hp Ho) as [Hpo Hr].
    split; [|congruence].
    rewrite (Hframe2 p _ ltac:(congruence) Hpo). f_equal.
    unfold grown, push_suite, declaredSuites.
    destruct Hd as [(-> & _) | [(-> & _) | (-> & _)]]; cbn;
      rewrite !app_nil_r; reflexivity.
  - intros Hnone. rewrite Hroots2. apply Heroots. exact Hnone.
  - assert (Hnew : newPart (store st) (store st2) !! l
                   = Some (if skip then emptySuite name skip only
                           else grown (emptySuite name skip only) body news)).
    { apply lookup_newPart. split; [exact Hobj2 | exact Hfresh]. }
    assert (Hchildren : Forall2 (denotes (newPart (store st) (store st2))) news
                          (if skip then [] else declaredSuites body)).
    { eapply Forall2_impl; [exact Hden2|]. intros k t.
      apply denotes_weaken. apply newPart_mono. intros i x Hi Hn.
      split; [exact Hi|].
      destruct (store st !! i) as [y|] eqn:Hy; [|reflexivity].
      destruct (decide (currentSuite st = Some i)) as [Hc|Hc].
      - destruct (Heparent i y Hc Hy) as [Hpi _]. congruence.
      - rewrite (Heframe i y Hc Hy) in Hn. discriminate. }
    unfold declaredSuites. cbn [flat_map]. rewrite app_nil_r.
    destruct Hd as [(-> & -> & ->) | [(-> & -> & ->) | (-> & -> & ->)]];
      cbn [suitesOf]; rewrite ?suitesOf_children;
      (constructor; [|constructor]).
    + pose proof (denotes_object _ _ _ (declaredSuites body) Hnew) as Hd.
      cbn in Hd. apply Hd. exact Hchildren.
    + pose proof (denotes_object _ _ _ (declaredSuites body) Hnew) as Hd.
      cbn in Hd. apply Hd. exact Hchildren.
    + inversion Hchildren; subst.
      pose proof (denotes_object _ _ _ [] Hnew) as Hd. cbn in Hd.
      apply Hd. constructor.
Qed.

Lemma registers_body (body : list (Decl Fn)) :
  Forall (fun d => forall st,
              currentIsLive st ->
              isDescribe d = true \/ is_Some (currentSuite st) ->
              registers (declare d) [d] st) body ->
  forall st,
    currentIsLive st ->
    forallb isDescribe body = true \/ is_Some (currentSuite st) ->
    registers (declareAll body) body st.
Proof.
  induction body as [|d body IH]; intros Hall st Hlive Hcond.
  - apply registers_nothing.
  - apply List.Forall_cons_iff in Hall as [Hd Hall].
    change (d :: body) with ([d] ++ body) at 2.
    cbn [Declarations.declareAll for_of].
    apply registers_seq; [exact Hlive | |].
    + apply Hd; [exact Hlive|].
      destruct Hcond as [Hc | Hc]; [|right; exact Hc].
      left. cbn [forallb] in Hc. apply andb_prop in Hc as [Hc _]. exact Hc.
    + intros st1 Hlive1 Hcur1. apply IH; [exact Hall | exact Hlive1 |].
      destruct Hcond as [Hc | Hc]; [left | right; congruence].
      cbn [forallb] in Hc. apply andb_prop in Hc as [_ Hc]. exact Hc.
Qed.

(** Every declaration registers: a suite anywhere, a test or a hook inside
    a suite. *)
Lemma registers_decl (d : Decl Fn) :
  forall st,
    currentIsLive st ->
    isDescribe d = true \/ is_Some (currentSuite st) ->
    registers (declare d) [d] st.
Proof.
  induction d as [name fn|name fn|name fn|kind fn|name body IH|name body IH
                 |name body IH] using Decl_nested_ind;
    intros st Hlive Hcond.
  - destruct Hcond as [Hc|Hc]; [discriminate|].
    eapply registers_leaf; try eassumption; try reflexivity.
    intros o. unfold grown, push_test; cbn. rewrite !app_nil_r. reflexivity.
  - destruct Hcond as [Hc|Hc]; [discriminate|].
    eapply registers_leaf; try eassumption; try reflexivity.
    intros o. unfold grown, push_test; cbn. rewrite !app_nil_r. reflexivity.
  - destruct Hcond as [Hc|Hc]; [discriminate|].
    eapply registers_leaf; try eassumption; try reflexivity.
    intros o. unfold grown, push_test; cbn. rewrite !app_nil_r. reflexivity.
  - destruct Hcond as [Hc|Hc]; [discriminate|].
    destruct kind;
      (eapply registers_leaf; try eassumption; try reflexivity;
       intros o;
       unfold grown, push_beforeEach, push_afterEach, push_beforeAll,
         push_afterAll; cbn; rewrite !app_nil_r; reflexivity).
  - apply (registers_describe _ name false false body); [exact Hlive|auto|].
    intros _. apply registers_body; [exact IH | |].
    + intros p Hp.
      destruct (entry_facts name false false st Hlive) as (_ & Hc & Hn & _).
      cbv zeta in Hc, Hn. rewrite Hc in Hp. injection Hp as <-. eauto.
    + right.
      destruct (entry_facts name false false st Hlive) as (_ & Hc & _).
      cbv zeta in Hc. rewrite Hc. eauto.
  - apply (registers_describe _ name true false body); [exact Hlive|auto|].
    discriminate.
  - apply (registers_describe _ name false true body); [exact Hlive|auto|].
    intros _. apply registers_body; [exact IH | |].
    + intros p Hp.
      destruct (entry_facts name false true st Hlive) as (_ & Hc & Hn & _).
      cbv zeta in Hc, Hn. rewrite Hc in Hp. injection Hp as <-. eauto.
    + right.
      destruct (entry_facts name false true st Hlive) as (_ & Hc & _).
      cbv zeta in Hc. rewrite Hc. eauto.
Qed.

(** A file of suites, read with no current suite. *)
Lemma file_registers
  (file : list (Decl Fn)) (st : State) (fuel0 : nat)
  (before : list (Suite Fn)) :
  currentSuite st = None ->
  forallb isDescribe file = true ->
  rootTrees fuel0 st = Some before ->
  exists st' fuel,
    declareAll file st = (st', Returns tt)
    /\ currentSuite st' = None
    /\ rootTrees fuel st' = Some (before ++ declaredSuites file).
Proof.
  intros Hnone Hfile Hbefore.
  assert (Hlive : currentIsLive st) by (intros p Hp; congruence).
  destruct (registers_body file) with (st := st)
    as (st' & news & Hrun & Hcur & Hframe & _ & Hroots & Hden);
    [| exact Hlive | left; exact Hfile |].
  { apply List.Forall_forall. intros d _. apply registers_decl. }
  assert (Hsub : store st ⊆ store st').
  { apply map_subseteq_spec. intros i x Hx. apply Hframe; [congruence | exact Hx]. }
  assert (Hnew : Forall2 (denotes (store st')) news (declaredSuites file)).
  { eapply Forall2_impl; [exact Hden|]. intros l t.
    apply denotes_weaken. apply map_filter_subseteq. }
  apply denotes_common_fuel in Hnew as [n Hn].
  unfold rootTrees in Hbefore. apply mapM_Some in Hbefore.
  exists st', (Nat.max fuel0 n). split; [exact Hrun|].
  split; [congruence|].
  unfold rootTrees. rewrite (Hroots Hnone). apply mapM_Some.
  apply Forall2_app.
  - eapply Forall2_impl; [exact Hbefore|]. intros l t Hl. cbn beta in Hl.
    apply (treeOf_fuel_le _ fuel0); [lia|].
    apply (treeOf_weaken _ _ _ Hsub). exact Hl.
  - eapply Forall2_impl; [exact Hn|]. intros l t Hl. cbn beta in Hl.
    apply (treeOf_fuel_le _ n); [lia | exact Hl].
Qed.

(** X8: registering a test file builds the declared tree.  A file made of
    [describe], [describe.only] and [describe.skip] calls, whose bodies
    declare tests, hooks and nested suites, read with no current suite,
    returns with no current suite and leaves in the root registry the suites
    that were there followed by the suites of the file, each with its tests,
    its four hook lists and its child suites in the order of the file and
    with the flags of the variant used; the body of a [describe.skip] is not
    registered. *)
Theorem registration_builds_declared_tree
  (file : list (Decl Fn)) (st : State) (fuel0 : nat)
  (before : list (Suite Fn)) :
  currentSuite st = None ->
  forallb isDescribe file = true ->
  rootTrees fuel0 st = Some before ->
  exists st' fuel,
    declareAll file st = (st', Returns tt)
    /\ currentSuite st' = None
    /\ rootTrees fuel st' = Some (before ++ declaredSuites file).
Proof. apply file_registers. Qed.

(** X9: a test or a hook declared while there is no current suite throws
    an Error that names the function, and changes nothing. *)
Theorem registration_outside_describe_throws
  (st : State) (name : string) (fn : Fn) :
  currentSuite st = None ->
  @test Fn V name fn st
  = (st, Throws (JsError "test() must be called inside describe()"))
  /\ @test_dot_skip Fn V name fn st
     = (st, Throws (JsError "test.skip() must be called inside describe()"))
  /\ @test_dot_only Fn V name fn st
     = (st, Throws (JsError "test.only() must be called inside describe()"))
  /\ @beforeEach Fn V fn st
     = (st, Throws (JsError "beforeEach() must be called inside describe()"))
  /\ @afterEach Fn V fn st
     = (st, Throws (JsError "afterEach() must be called inside describe()"))
  /\ @beforeAll Fn V fn st
     = (st, Throws (JsError "beforeAll() must be called inside describe()"))
  /\ @afterAll Fn V fn st
     = (st, Throws (JsError "afterAll() must be called inside describe()")).
Proof.
  intros Hnone.
  unfold test, test_dot_skip, test_dot_only, beforeEach, afterEach, beforeAll,
    afterAll, inCurrentSuite, bind, get, throw.
  rewrite Hnone. repeat split.
Qed.

(** X10: [clearSuites] empties the registry and drops the current suite.
    Whatever was registered, reading a file after [clearSuites] leaves
    exactly the suites of that file in the registry; and a definition action
    that calls [clearSuites] loses its current suite: a test declared after
    it in the same action throws, the registry stays empty, and [describe]
    still puts the previous pointer back. *)
Theorem clearSuites_resets_registration (st : State) :
  (forall fuel,
      @clearSuites Fn V st
      = ({| store := store st; currentSuite := None; rootSuites := [] |},
         Returns tt)
      /\ rootTrees fuel (fst (@clearSuites Fn V st)) = Some [])
  /\ (forall file,
         forallb isDescribe file = true ->
         exists st' fuel,
           (bind clearSuites (fun _ => declareAll file)) st = (st', Returns tt)
           /\ currentSuite st' = None
           /\ rootTrees fuel st' = Some (declaredSuites file))
  /\ (forall name testName fn,
         exists st',
           describe name (bind clearSuites (fun _ => test testName fn)) st
           = (st', Throws (JsError "test() must be called inside describe()"))
           /\ currentSuite st' = currentSuite st
           /\ rootSuites st' = []).
Proof.
  split; [|split].
  - intros fuel. split; reflexivity.
  - intros file Hfile.
    destruct (file_registers file
                {| store := store st; currentSuite := None; rootSuites := [] |}
                0 [] eq_refl Hfile eq_refl) as (st' & fuel & Hrun & Hcur & Ht).
    exists st', fuel. split; [|split; [exact Hcur | exact Ht]].
    unfold bind, clearSuites, modify. exact Hrun.
  - intros name testName fn. eexists. split; [|split].
    + unfold Registration.describe. rewrite define_eq.
      unfold bind, clearSuites, modify, test, inCurrentSuite, get, throw.
      cbn. reflexivity.
    + reflexivity.
    + reflexivity.
Qed.

End Facts.

End DeclarationFacts.

Module DeclarationExamples.

Import Registration Declarations DeclarationFacts Samples DeclarationSamples.

(** The registry after the sample file has been read is the tree of the
    file, and running it gives the results in the order of the file. *)
Example sampleFile_registered_and_run :
  rootTrees 3 (fst (declareAll (V := unit) sampleFile initialState))
  = Some (declaredSuites sampleFile)
  /\ map (fun r => (Runner.sr_name r, map Runner.tr_name (Runner.sr_tests r)))
       match snd (Runner.runAllTests tick (declaredSuites sampleFile) w0) with
       | Returns rs => rs
       | Throws _ => []
       end
     = [ ("A", ["a1"; "a2"; "deep"]); ("C", []) ].
Proof. split; vm_compute; reflexivity. Qed.

Lemma registration_witness :
  exists st' fuel,
    declareAll (V := unit) sampleFile initialState = (st', Returns tt)
    /\ currentSuite st' = None
    /\ rootTrees fuel st' = Some ([] ++ declaredSuites sampleFile).
Proof.
  apply (registration_builds_declared_tree (V := unit)
           sampleFile initialState 0 []); reflexivity.
Defined.

Lemma registration_outside_witness :
  test (V := unit) "orphan" (say "orphan") initialState
  = (initialState, Throws (JsError "test() must be called inside describe()")).
Proof.
  apply (proj1 (registration_outside_describe_throws (V := unit)
                  initialState "orphan" (say "orphan") eq_refl)).
Defined.

Lemma clearSuites_witness :
  exists st' fuel,
    (bind clearSuites (fun _ => declareAll (V := unit) sampleFile))
      (fst (declareAll (V := unit) sampleFile initialState))
    = (st', Returns tt)
    /\ currentSuite st' = None
    /\ rootTrees fuel st' = Some (declaredSuites sampleFile).
Proof.
  apply (proj1 (proj2 (clearSuites_resets_registration (V := unit) _))).
  reflexivity.
Defined.

End DeclarationExamples.

(** ** More about the assertion engine *)

Module MatcherFacts.

Import Expect Matchers ExpectFacts.

(** An induction principle that reaches the property values. *)
Lemma JsValue_nested_ind (P : JsValue -> Prop) :
  P VUndefined -> P VNull -> (forall b, P (VBool b)) ->
  (forall x, P (VNumber x)) -> (forall s, P (VString s)) ->
  (forall r, P (VFunction r)) ->
  (forall r props,
      Forall (fun entry => P (snd entry)) props -> P (VObject r props)) ->
  forall v, P v.
Proof.
  intros Hu Hn Hb Hx Hs Hf Ho. fix IH 1. intros v.
  destruct v as [| |b|x|s|r|r props];
    [exact Hu | exact Hn | apply Hb | apply Hx | apply Hs | apply Hf |].
  apply Ho. induction props as [|[k x] props IHprops].
  - apply List.Forall_nil.
  - apply List.Forall_cons; [apply IH | exact IHprops].
Qed.

(** SameValue on numbers is equality of the IEEE values. *)
Lemma Number_sameValue_eq (x y : spec_float) :
  Number_sameValue x y = true <-> x = y.
Proof.
  split; [|intros <-; apply Number_sameValue_refl].
  destruct x as [sx|sx| |sx mx ex], y as [sy|sy| |sy my ey]; cbn;
    try discriminate; try reflexivity.
  - intros H. apply Bool.eqb_prop in H. congruence.
  - destruct sy; discriminate.
  - destruct sy; discriminate.
  - destruct sx; discriminate.
  - destruct sx, sy; intros H; try discriminate; reflexivity.
  - destruct sx; discriminate.
  - destruct sx; discriminate.
  - destruct sy; discriminate.
  - destruct sx, sy; try discriminate;
      destruct (Z.compare ex ey) eqn:He; try discriminate;
      apply Z.compare_eq in He; subst ey;
      change (Pos.compare_cont Eq mx my) with (Pos.compare mx my);
      destruct (Pos.compare mx my) eqn:Hm; try discriminate;
      apply Pos.compare_eq in Hm; subst my; reflexivity.
Qed.

Lemma Object_is_sym (a b : JsValue) : Object_is a b = Object_is b a.
Proof.
  destruct a, b; cbn; try reflexivity.
  - destruct b, b0; reflexivity.
  - apply Bool.eq_iff_eq_true. rewrite !Number_sameValue_eq.
    split; congruence.
  - apply String.eqb_sym.
  - apply Nat.eqb_sym.
  - apply Nat.eqb_sym.
Qed.

Lemma deepEqual_of_Object_is (a b : JsValue) :
  Object_is a b = true -> deepEqual a b = true.
Proof. intros H. destruct a; cbn [deepEqual]; rewrite H; reflexivity. Qed.

(** When one side is not a non-null object, [deepEqual] is [Object.is]. *)
Lemma deepEqual_primitive (a b : JsValue) :
  isObject a && isObject b = false -> deepEqual a b = Object_is a b.
Proof.
  intros H.
  destruct a, b; cbn in H |- *; try discriminate H; try reflexivity;
    match goal with
    | |- (if ?c then true else false) = ?c => destruct c; reflexivity
    end.
Qed.

(** Two distinct objects with distinct keys each are deep-equal exactly
    when they have the same keys and deep-equal values under each. *)
Lemma deepEqual_distinct_objects ra pa rb pb :
  ra <> rb ->
  List.NoDup (keysOf pa) -> List.NoDup (keysOf pb) ->
  (deepEqual (VObject ra pa) (VObject rb pb) = true <->
   (forall k, In k (keysOf pa) <-> In k (keysOf pb))
   /\ (forall k, In k (keysOf pa) ->
                 deepEqual (getProp pa k) (getProp pb k) = true)).
Proof.
  intros Href Hna Hnb. rewrite deepEqual_objects.
  apply Nat.eqb_neq in Href. rewrite Href.
  destruct (Nat.eqb (length (keysOf pa)) (length (keysOf pb))) eqn:Hlen;
    cbn [negb].
  - apply Nat.eqb_eq in Hlen. rewrite forallb_forall. split.
    + intros Hall.
      assert (Hincl : incl (keysOf pa) (keysOf pb)).
      { intros k Hk. apply (entry_of_key pa k Hna) in Hk.
        apply Hall in Hk. apply andb_prop in Hk as [Hk _].
        apply includes_In in Hk. exact Hk. }
      split.
      * intros k. split; [apply Hincl|].
        apply (NoDup_length_incl Hna); [lia | exact Hincl].
      * intros k Hk. apply (entry_of_key pa k Hna) in Hk.
        apply Hall in Hk. apply andb_prop in Hk as [_ Hk]. exact Hk.
    + intros [Hkeys Hvals] [k v] Hin. cbn [fst snd].
      assert (Hk : In k (keysOf pa)).
      { change (In (fst (k, v)) (map fst pa)). apply in_map. exact Hin. }
      apply andb_true_intro. split.
      * apply includes_In, Hkeys, Hk.
      * rewrite <- (getProp_entry pa k v Hna Hin). apply Hvals, Hk.
  - apply Nat.eqb_neq in Hlen. split; [discriminate|].
    intros [Hkeys _]. exfalso. apply Hlen. apply Nat.le_antisymm.
    + apply NoDup_incl_length; [exact Hna|]. intros k. apply Hkeys.
    + apply NoDup_incl_length; [exact Hnb|]. intros k. apply Hkeys.
Qed.

Lemma wellFormed_object r props :
  wellFormed (VObject r props) <->
  List.NoDup (keysOf props) /\ Forall (fun entry => wellFormed (snd entry)) props.
Proof.
  cbn [wellFormed].
  assert (Heach : (fix each (l : list (string * JsValue)) : Prop :=
                     match l with
                     | [] => True
                     | (_, x) :: rest => wellFormed x /\ each rest
                     end) props
                  <-> Forall (fun entry => wellFormed (snd entry)) props).
  { induction props as [|[k x] props IH].
    - split; [intros _; apply List.Forall_nil | reflexivity].
    - rewrite List.Forall_cons_iff, <- IH. reflexivity. }
  rewrite Heach. reflexivity.
Qed.

Lemma wellFormed_member r props k :
  wellFormed (VObject r props) -> In k (keysOf props) ->
  wellFormed (getProp props k).
Proof.
  intros Hwf Hk. apply wellFormed_object in Hwf as [Hnd Hall].
  apply (entry_of_key props k Hnd) in Hk.
  rewrite List.Forall_forall in Hall. apply (Hall _ Hk).
Qed.

Lemma deepEqual_sym (a : JsValue) :
  wellFormed a -> forall b, wellFormed b -> deepEqual a b = deepEqual b a.
Proof.
  induction a as [| |ba|xa|sa|fa|ra pa IH] using JsValue_nested_ind;
    intros Hwa b Hwb;
    try (rewrite (deepEqual_primitive _ b) by reflexivity;
         rewrite (deepEqual_primitive b _)
           by (cbn; apply andb_false_r);
         apply Object_is_sym).
  destruct b as [| |bb|xb|sb|fb|rb pb];
    try (rewrite (deepEqual_primitive (VObject ra pa) _) by reflexivity;
         rewrite (deepEqual_primitive _ (VObject ra pa)) by reflexivity;
         apply Object_is_sym).
  destruct (Nat.eq_dec ra rb) as [<-|Href].
  - rewrite !deepEqual_objects, Nat.eqb_refl. reflexivity.
  - pose proof Hwa as Hwa'. pose proof Hwb as Hwb'.
    apply wellFormed_object in Hwa' as [Hna Hva].
    apply wellFormed_object in Hwb' as [Hnb Hvb].
    apply Bool.eq_iff_eq_true.
    rewrite (deepEqual_distinct_objects ra pa rb pb Href Hna Hnb).
    rewrite (deepEqual_distinct_objects rb pb ra pa (not_eq_sym Href) Hnb Hna).
    rewrite List.Forall_forall in IH.
    split; intros [Hkeys Hvals]; (split; [intros k; symmetry; apply Hkeys|]).
    + intros k Hk. apply Hkeys in Hk.
      rewrite <- (IH _ (entry_of_key pa k Hna Hk)).
      * apply Hvals, Hk.
      * apply (wellFormed_member ra pa k Hwa Hk).
      * apply (wellFormed_member rb pb k Hwb). apply Hkeys, Hk.
    + intros k Hk.
      rewrite (IH _ (entry_of_key pa k Hna Hk)).
      * apply Hvals, Hkeys, Hk.
      * apply (wellFormed_member ra pa k Hwa Hk).
      * apply (wellFormed_member rb pb k Hwb). apply Hkeys, Hk.
Qed.

Import ExpectSamples.

Lemma passes_assert (e : ExpectImpl) (passed : bool) message expected actual :
  passes (assert e passed message expected actual)
  = if isNot e then negb passed else passed.
Proof.
  unfold assert. destruct (isNot e), passed; reflexivity.
Qed.

Lemma assert_returns_iff (v : JsValue) (passed : bool) message expected actual :
  assert (expect v) passed message expected actual = Returns tt
  <-> passed = true.
Proof.
  unfold assert, expect; cbn. destruct passed; cbn; split; congruence.
Qed.

(** X11: [.not] inverts the outcome of each of these matchers, whatever the
    subject and the expected value, and [.not.not] is the plain
    expectation. *)
Theorem not_inverts_matchers
  (formatValue : JsValue -> string) (getDiff : JsValue -> JsValue -> string)
  (e : ExpectImpl) :
  not_ (not_ e) = e
  /\ (forall x, passes (toBe formatValue (not_ e) x)
                = negb (passes (toBe formatValue e x)))
  /\ (forall x, passes (toEqual formatValue getDiff (not_ e) x)
                = negb (passes (toEqual formatValue getDiff e x)))
  /\ passes (toBeNull formatValue (not_ e))
     = negb (passes (toBeNull formatValue e))
  /\ passes (toBeUndefined formatValue (not_ e))
     = negb (passes (toBeUndefined formatValue e))
  /\ passes (toBeDefined (not_ e)) = negb (passes (toBeDefined e))
  /\ passes (toBeTruthy formatValue (not_ e))
     = negb (passes (toBeTruthy formatValue e))
  /\ passes (toBeFalsy formatValue (not_ e))
     = negb (passes (toBeFalsy formatValue e)).
Proof.
  split.
  { destruct e as [v n]. unfold not_; cbn. rewrite negb_involutive.
    reflexivity. }
  unfold toBe, toEqual, toBeNull, toBeUndefined, toBeDefined, toBeTruthy,
    toBeFalsy.
  repeat split; intros; rewrite !passes_assert; cbn [not_ isNot value];
    destruct (isNot e); cbn; rewrite ?negb_involutive; reflexivity.
Qed.

(** X12: the absence and truthiness matchers.  [toBeNull] passes for [null]
    only and [toBeUndefined] for [undefined] only; [toBeDefined] passes for
    everything but [undefined] (so for [null]); [toBeFalsy] passes exactly
    for [undefined], [null], [false], [+0], [-0], [NaN] and the empty
    string, and [toBeTruthy] exactly when [toBeFalsy] fails. *)
Theorem absence_and_truthiness (formatValue : JsValue -> string)
  (v : JsValue) :
  (toBeNull formatValue (expect v) = Returns tt <-> v = VNull)
  /\ (toBeUndefined formatValue (expect v) = Returns tt <-> v = VUndefined)
  /\ (toBeDefined (expect v) = Returns tt <-> v <> VUndefined)
  /\ (toBeFalsy formatValue (expect v) = Returns tt <->
      v = VUndefined \/ v = VNull \/ v = VBool false \/ v = posZero
      \/ v = negZero \/ v = NaN \/ v = VString EmptyString)
  /\ passes (toBeTruthy formatValue (expect v))
     = negb (passes (toBeFalsy formatValue (expect v))).
Proof.
  unfold toBeNull, toBeUndefined, toBeDefined, toBeFalsy, toBeTruthy.
  rewrite !assert_returns_iff, !passes_assert. cbn [expect value isNot].
  split; [|split; [|split; [|split]]].
  - destruct v; cbn; split; congruence.
  - destruct v; cbn; split; congruence.
  - destruct v; cbn; split; congruence.
  - unfold posZero, negZero, NaN. split.
    + destruct v as [| |[|]|[[|]|sx| |sx mx ex]|[|c s]|r|r props]; cbn;
        intros H; try discriminate H; auto 8.
    + intros [->|[->|[->|[->|[->|[->| ->]]]]]]; reflexivity.
  - rewrite negb_involutive. reflexivity.
Qed.

(** X13: [toEqual] does not depend on which side is the subject: for values
    whose objects have distinct keys, [expect(a).toEqual(b)] passes exactly
    when [expect(b).toEqual(a)] does; and whenever [toBe] passes, [toEqual]
    passes. *)
Theorem toEqual_symmetric
  (formatValue : JsValue -> string) (getDiff : JsValue -> JsValue -> string)
  (a b : JsValue) :
  wellFormed a -> wellFormed b ->
  passes (toEqual formatValue getDiff (expect a) b)
  = passes (toEqual formatValue getDiff (expect b) a)
  /\ (toBe formatValue (expect a) b = Returns tt ->
      toEqual formatValue getDiff (expect a) b = Returns tt).
Proof.
  intros Ha Hb. unfold toEqual, toBe. rewrite !passes_assert.
  cbn [expect isNot value]. split.
  - apply deepEqual_sym; assumption.
  - rewrite !assert_returns_iff. apply deepEqual_of_Object_is.
Qed.

Lemma toEqual_symmetric_witness :
  passes (toEqual plainFormat noDiff (expect nestedLeft) nestedRight)
  = passes (toEqual plainFormat noDiff (expect nestedRight) nestedLeft)
  /\ passes (toEqual plainFormat noDiff (expect small) large)
     = passes (toEqual plainFormat noDiff (expect large) small).
Proof.
  split.
  - apply (toEqual_symmetric plainFormat noDiff nestedLeft nestedRight);
      cbn; repeat split; repeat constructor; cbn; intuition discriminate.
  - apply (toEqual_symmetric plainFormat noDiff small large);
      cbn; repeat split; repeat constructor; cbn; intuition discriminate.
Defined.

Lemma includes_app (xs ys : list string) (k : string) :
  includes (xs ++ ys) k = includes xs k || includes ys k.
Proof. unfold includes. apply existsb_app. Qed.

Lemma includes_false (keys : list string) (k : string) :
  ~ In k keys -> includes keys k = false.
Proof.
  intros H. destruct (includes keys k) eqn:Hi; [|reflexivity].
  apply includes_In in Hi. contradiction.
Qed.

Lemma getProp_missing (props : list (string * JsValue)) (k : string) :
  ~ In k (keysOf props) -> getProp props k = VUndefined.
Proof.
  induction props as [|[k' v] props IH]; intros H; [reflexivity|].
  cbn [getProp]. destruct (String.eqb k k') eqn:Heq.
  - apply String.eqb_eq in Heq. subst. exfalso. apply H. left. reflexivity.
  - apply IH. intros Hin. apply H. right. exact Hin.
Qed.

Lemma getProp_app (props extra : list (string * JsValue)) (k : string) :
  getProp (props ++ extra) k
  = if includes (keysOf props) k then getProp props k else getProp extra k.
Proof.
  induction props as [|[k' v] props IH]; [reflexivity|].
  cbn [app getProp keysOf map fst includes existsb].
  destruct (String.eqb k k'); [reflexivity|]. exact IH.
Qed.

Lemma getMember_own (hidden : JsValue -> string -> option JsValue)
      (obj : JsValue) (k : string) :
  In k (keysOf (propsOf obj)) ->
  hasProperty hidden obj k = true
  /\ getMember hidden obj k = getProp (propsOf obj) k.
Proof.
  intros Hin. apply includes_In in Hin. unfold hasProperty, getMember.
  rewrite Hin. split; reflexivity.
Qed.

(** X14: [toMatchObject] is a partial match.  On a subject that is not a
    non-null object it throws its usage error, with or without [.not]; on
    an object it passes when every key of the pattern is an own key of the
    subject with a deep-equal value, so in particular when the two are
    deep-equal.  A property that [Object.keys] does not list (the [length]
    of an array) is matched by a pattern that names it.  Properties of the
    subject under keys that the pattern does not have make no difference,
    as long as the two subjects agree on the unlisted properties that the
    pattern names. *)
Theorem toMatchObject_is_partial
  (formatValue : JsValue -> string)
  (hidden : JsValue -> string -> option JsValue) :
  (forall e object,
      isObject (value e) = false ->
      toMatchObject formatValue hidden e object
      = Throws {| ae_message := "toMatchObject() requires an object";
                  ae_expected := VUndefined;
                  ae_actual := VUndefined |})
  /\ (forall r props object,
         (forall k, In k (keysOf (propsOf object)) ->
                    In k (keysOf props)
                    /\ deepEqual (getProp props k) (getProp (propsOf object) k)
                       = true) ->
         toMatchObject formatValue hidden (expect (VObject r props)) object
         = Returns tt)
  /\ (forall ra pa rb pb,
         List.NoDup (keysOf pa) -> List.NoDup (keysOf pb) ->
         (ra = rb -> pa = pb) ->
         deepEqual (VObject ra pa) (VObject rb pb) = true ->
         toMatchObject formatValue hidden (expect (VObject ra pa))
           (VObject rb pb)
         = Returns tt)
  /\ (forall r props key v r',
         ~ In key (keysOf props) ->
         (toMatchObject formatValue hidden (expect (VObject r props))
            (VObject r' [(key, v)])
          = Returns tt
          <-> exists x, hidden (VObject r props) key = Some x
                        /\ deepEqual x v = true))
  /\ (forall r props extra object,
         (forall k, In k (keysOf extra) -> ~ In k (keysOf (propsOf object))) ->
         (forall k, In k (keysOf (propsOf object)) ->
                    ~ In k (keysOf props) ->
                    hidden (VObject r (props ++ extra)) k
                    = hidden (VObject r props) k) ->
         passes (toMatchObject formatValue hidden
                   (expect (VObject r (props ++ extra))) object)
         = passes (toMatchObject formatValue hidden
                     (expect (VObject r props)) object)).
Proof.
  assert (Hown : forall r props object,
             (forall k, In k (keysOf (propsOf object)) ->
                        In k (keysOf props)
                        /\ deepEqual (getProp props k)
                             (getProp (propsOf object) k) = true) ->
             toMatchObject formatValue hidden (expect (VObject r props))
               object = Returns tt).
  { intros r props object Hall. unfold toMatchObject. cbn [expect value].
    cbn [typeof JsType_eqb isNull negb orb].
    apply assert_returns_iff. unfold objectMatches.
    apply forallb_forall. intros k Hk. destruct (Hall k Hk) as [Hin Heq].
    destruct (getMember_own hidden (VObject r props) k Hin) as [-> ->].
    destruct (getMember_own hidden object k Hk) as [_ ->].
    cbn [andb propsOf]. exact Heq. }
  split; [|split; [exact Hown|split; [|split]]].
  - intros e object Hno. unfold toMatchObject. unfold isObject in Hno.
    destruct (JsType_eqb (typeof (value e)) TObject); cbn in Hno |- *;
      [|reflexivity].
    apply negb_false_iff in Hno. rewrite Hno. reflexivity.
  - intros ra pa rb pb Hna Hnb Hsame Heq. apply Hown. cbn [propsOf].
    destruct (Nat.eq_dec ra rb) as [Href|Href].
    + rewrite <- (Hsame Href). intros k Hk. split; [exact Hk|].
      apply deepEqual_refl.
    + apply (deepEqual_distinct_objects ra pa rb pb Href Hna Hnb) in Heq
        as [Hkeys Hvals].
      intros k Hk. apply Hkeys in Hk. split; [exact Hk | apply Hvals, Hk].
  - intros r props key v r' Hno. unfold toMatchObject.
    cbn [expect value typeof JsType_eqb isNull negb orb].
    rewrite assert_returns_iff. unfold objectMatches.
    cbn [propsOf keysOf map fst forallb]. rewrite andb_true_r.
    destruct (getMember_own hidden (VObject r' [(key, v)]) key
                (or_introl eq_refl)) as [_ ->].
    cbn [propsOf getProp]. rewrite String.eqb_refl.
    unfold hasProperty, getMember. cbn [propsOf].
    rewrite (includes_false _ _ Hno). cbn [orb].
    destruct (hidden (VObject r props) key) as [x|].
    + cbn [andb]. split.
      * intros H. exists x. split; [reflexivity | exact H].
      * intros (x' & [= <-] & H). exact H.
    + cbn [andb]. split; [discriminate|].
      intros (x' & H & _). discriminate H.
  - intros r props extra object Hextra Hhidden. unfold toMatchObject.
    cbn [expect value typeof JsType_eqb isNull negb orb].
    assert (Hsame : objectMatches hidden (VObject r (props ++ extra)) object
                    = objectMatches hidden (VObject r props) object).
    { unfold objectMatches.
      assert (Hext : forall (f g : string -> bool) (l : list string),
                 (forall k, In k l -> f k = g k) -> forallb f l = forallb g l).
      { intros f g l. induction l as [|k l IH]; intros Hfg; [reflexivity|].
        cbn [forallb]. rewrite (Hfg k (or_introl eq_refl)), IH;
          [reflexivity|]. intros k' Hk'. apply Hfg. right. exact Hk'. }
      apply Hext. intros k Hk.
      assert (Hno : includes (keysOf extra) k = false).
      { apply includes_false. intros Hin. apply (Hextra k Hin Hk). }
      unfold hasProperty, getMember. cbn [propsOf]. unfold keysOf.
      rewrite map_app.
      fold (keysOf props). fold (keysOf extra).
      rewrite includes_app, Hno, orb_false_r, getProp_app.
      destruct (includes (keysOf props) k) eqn:Hk'; [reflexivity|].
      rewrite Hhidden; [reflexivity | exact Hk |].
      intros Hin. apply includes_In in Hin. congruence. }
    rewrite !passes_assert, Hsame. reflexivity.
Qed.

Lemma toMatchObject_witness :
  toMatchObject plainFormat (fun _ _ => None) (expect large) small
  = Returns tt
  /\ toMatchObject plainFormat (fun _ _ => None) (not_ (expect (num 1))) small
     = Throws {| ae_message := "toMatchObject() requires an object";
                 ae_expected := VUndefined;
                 ae_actual := VUndefined |}
  /\ toMatchObject plainFormat arrayLength (expect pair) lengthTwo
     = Returns tt
  /\ passes (toMatchObject plainFormat arrayLength (expect triple) lengthTwo)
     = false.
Proof.
  split; [|split; [|split]].
  - apply (proj1 (proj2 (toMatchObject_is_partial plainFormat
                           (fun _ _ => None)))).
    intros k [<- | []]. split; [left; reflexivity | reflexivity].
  - apply (proj1 (toMatchObject_is_partial plainFormat (fun _ _ => None))).
    reflexivity.
  - apply (proj1 (proj2 (proj2 (proj2 (toMatchObject_is_partial plainFormat
                                         arrayLength))))).
    + vm_compute. intros [H | [H | []]]; discriminate H.
    + exists (num 2). split; reflexivity.
  - reflexivity.
Defined.

Lemma prefix_app (needle haystack : string) :
  String.prefix needle haystack = true <->
  exists rest, haystack = (needle ++ rest)%string.
Proof.
  revert haystack. induction needle as [|c needle IH]; intros haystack.
  - destruct haystack; cbn;
      (split; [intros _; eexists; reflexivity | reflexivity]).
  - destruct haystack as [|c' haystack]; cbn.
    + split; [discriminate | intros [rest H]; discriminate H].
    + destruct (Ascii.ascii_dec c c') as [<-|Hne].
      * rewrite IH. split; intros [rest H]; exists rest.
        -- rewrite H. reflexivity.
        -- cbn in H. injection H as H. exact H.
      * split; [discriminate | intros [rest H]].
        cbn in H. injection H as Hc _. congruence.
Qed.

(** [stringIncludes] is the substring test. *)
Lemma stringIncludes_spec (haystack needle : string) :
  stringIncludes haystack needle = true <->
  exists before rest, haystack = (before ++ needle ++ rest)%string.
Proof.
  induction haystack as [|c haystack IH].
  - cbn [stringIncludes].
    destruct (String.prefix needle EmptyString) eqn:Hp.
    + apply prefix_app in Hp as [rest Hr]. split; [|reflexivity].
      intros _. exists EmptyString, rest. exact Hr.
    + split; [discriminate|]. intros (before & rest & H).
      destruct before; [|discriminate H]. cbn in H.
      assert (String.prefix needle EmptyString = true)
        by (apply prefix_app; exists rest; exact H).
      congruence.
  - cbn [stringIncludes].
    destruct (String.prefix needle (String c haystack)) eqn:Hp.
    + apply prefix_app in Hp as [rest Hr]. split; [|reflexivity].
      intros _. exists EmptyString, rest. exact Hr.
    + rewrite IH. split.
      * intros (before & rest & ->). exists (String c before), rest.
        reflexivity.
      * intros (before & rest & H). destruct before as [|c' before].
        -- cbn in H.
           assert (String.prefix needle (String c haystack) = true)
             by (apply prefix_app; exists rest; exact H).
           congruence.
        -- cbn in H. injection H as _ ->. exists before, rest. reflexivity.
Qed.

(** X15: the promise projections.  [resolves] and [rejects] throw on a
    subject that is not a promise.  [resolves.toBe] does not look at [.not]:
    it passes exactly when the promise resolves to a value that [Object.is]
    the expected one, and when the promise rejects it fails with the reason
    of the promise, not with an AssertionError.  [rejects.toThrow] does not
    look at [.not] either: without an argument it passes exactly when the
    promise rejects, and with a string exactly when the promise rejects
    with a message that contains the string. *)
Theorem promise_projections (formatValue : JsValue -> string) :
  (forall v isNot,
      resolves (Plain v) isNot
      = Throws {| ae_message := "Expected value to be a Promise";
                  ae_expected := VUndefined; ae_actual := VUndefined |}
      /\ rejects (Plain v) isNot
         = Throws {| ae_message := "Expected value to be a Promise";
                     ae_expected := VUndefined; ae_actual := VUndefined |})
  /\ (forall p isNot x,
         resolves_toBe formatValue (mkAsyncExpect p isNot) x
         = resolves_toBe formatValue (mkAsyncExpect p false) x)
  /\ (forall p isNot x,
         resolves_toBe formatValue (mkAsyncExpect p isNot) x = Returns tt
         <-> exists v, p = Resolved v /\ Object_is v x = true)
  /\ (forall message isNot x,
         resolves_toBe formatValue (mkAsyncExpect (Rejected message) isNot) x
         = Throws (Reason message))
  /\ (forall p isNot error,
         rejects_toThrow (mkAsyncExpect p isNot) error
         = rejects_toThrow (mkAsyncExpect p false) error)
  /\ (forall p isNot,
         rejects_toThrow (mkAsyncExpect p isNot) None = Returns tt
         <-> exists message, p = Rejected message)
  /\ (forall p isNot s,
         rejects_toThrow (mkAsyncExpect p isNot) (Some (ByString s))
         = Returns tt
         <-> exists message before rest,
             p = Rejected message
             /\ message = (before ++ s ++ rest)%string).
Proof.
  split; [|split; [|split; [|split; [|split; [|split]]]]].
  - intros v isNot. split; reflexivity.
  - reflexivity.
  - intros p isNot x. unfold resolves_toBe. cbn [promise].
    destruct p as [v|message].
    + unfold toBe, assert, liftAssertion; cbn.
      destruct (Object_is v x) eqn:Hv; cbn.
      * split; [intros _; exists v; auto | reflexivity].
      * split; [discriminate|]. intros (v' & [= <-] & H). congruence.
    + split; [discriminate|]. intros (v' & H & _). discriminate H.
  - reflexivity.
  - reflexivity.
  - intros p isNot. unfold rejects_toThrow. cbn [promise].
    destruct p as [v|message].
    + split; [discriminate|]. intros [m H]. discriminate H.
    + split; [intros _; exists message | ]; reflexivity.
  - intros p isNot s. unfold rejects_toThrow. cbn [promise].
    destruct p as [v|message].
    + split; [discriminate|]. intros (m & b & r & H & _). discriminate H.
    + destruct (stringIncludes message s) eqn:Hs; cbn.
      * apply stringIncludes_spec in Hs as (before & rest & Hm).
        split; [|reflexivity]. intros _. exists message, before, rest. auto.
      * split; [discriminate|]. intros (m & before & rest & [= <-] & Hm).
        assert (stringIncludes message s = true)
          by (apply stringIncludes_spec; eauto).
        congruence.
Qed.

End MatcherFacts.

(** ** More about the call recorder *)

Module MockProps.

Import Mock MockRuns EffFacts MockFacts.

Section Props.

Context {World Value : Type}.
Variable undefined : Value.
Variable Date_now : World -> World * Z.

Local Abbreviation Recorder := (@MockFunction World Value).
Local Abbreviation Impl := (@Implementation World Value).
Local Abbreviation execute := (execute undefined Date_now).
Local Abbreviation steps := (steps undefined Date_now).
Local Abbreviation callImpl := (callImpl undefined).
Local Abbreviation fixedBehaviour := (@fixedBehaviour World Value undefined).
Local Abbreviation callOpt := (@callOpt World Value undefined).
Local Abbreviation outcomes := (@outcomes World Value undefined Date_now).
Local Abbreviation clock := (@clock World Date_now).
Local Abbreviation behavesLike := (@behavesLike World Value).
Local Abbreviation isCall := (@isCall World Value).
Local Abbreviation callsAndAssignments := (@callsAndAssignments World Value).
Local Abbreviation currentReturnValue := (@currentReturnValue World Value).

(** [execute], with its effects on the recorder written out. *)
Lemma execute_eq (args : list Value) (w : World) (m : Recorder) :
  execute args (w, m)
  = (let (w1, timestamp) := Date_now w in
     match mf_implementation m with
     | None =>
         ((w1, {| mf_name := mf_name m;
                  mf_implementation := None;
                  mf_calls := mf_calls m
                              ++ [mkMockCall args timestamp (Some undefined) None];
                  mf_returnValues := mf_returnValues m ++ [undefined];
                  mf_errors := mf_errors m |}),
          Returns undefined)
     | Some impl =>
         let '(w2, c, impl') := callImpl impl args w1 in
         match c with
         | Returns r =>
             ((w2, {| mf_name := mf_name m;
                      mf_implementation := Some impl';
                      mf_calls := mf_calls m
                                  ++ [mkMockCall args timestamp (Some r) None];
                      mf_returnValues := mf_returnValues m ++ [r];
                      mf_errors := mf_errors m |}),
              Returns r)
         | Throws e =>
             ((w2, {| mf_name := mf_name m;
                      mf_implementation := Some impl';
                      mf_calls := mf_calls m
                                  ++ [mkMockCall args timestamp None (Some e)];
                      mf_returnValues := mf_returnValues m;
                      mf_errors := mf_errors m ++ [e] |}),
              Throws e)
         end
     end).
Proof.
  unfold Mock.execute, bind, try_catch, Mock.date_now,
    callImplementation, pushCall, pushReturnValue, pushError,
    updateMock, modify, ret, throw; cbn.
  destruct (Date_now w) as [w1 ts]; cbn.
  destruct (mf_implementation m) as [impl|] eqn:Hi; cbn.
  - destruct (callImpl impl args w1) as [[w2 [r|e]] impl']; cbn; reflexivity.
  - rewrite Hi. reflexivity.
Qed.

(** X16: the two histories of a recorder are the projections of its call
    list: [returnValues] holds the results of the calls that returned and
    [errors] the errors of the calls that threw, in call order, whatever was
    done with the recorder since it was built; the two lengths add up to the
    number of calls. *)
Theorem histories_follow_calls
  (name : string) (options : option (@MockToolOptions World Value))
  (ops : list (@MockOp World Value)) (w : World) :
  let m := snd (steps (w, mockTool name options) ops) in
  mf_returnValues m = omap mc_result (mf_calls m)
  /\ mf_errors m = omap mc_error (mf_calls m)
  /\ length (mf_calls m)
     = length (mf_returnValues m) + length (mf_errors m).
Proof.
  cbv zeta.
  assert (Hinv : forall (s : World * Recorder),
             mf_returnValues (snd s) = omap mc_result (mf_calls (snd s))
             /\ mf_errors (snd s) = omap mc_error (mf_calls (snd s))
             /\ length (mf_calls (snd s))
                = length (mf_returnValues (snd s)) + length (mf_errors (snd s)) ->
             forall ops',
               let m := snd (steps s ops') in
               mf_returnValues m = omap mc_result (mf_calls m)
               /\ mf_errors m = omap mc_error (mf_calls m)
               /\ length (mf_calls m)
                  = length (mf_returnValues m) + length (mf_errors m)).
  { intros s Hs ops'. revert s Hs.
    induction ops' as [|op ops' IH]; intros s Hs; [exact Hs|].
    cbn [Mock.steps fold_left]. apply IH.
    destruct op; cbn [Mock.step snd fst]; try exact Hs;
      try (repeat split; reflexivity).
    destruct s as [w0 m0]. destruct Hs as (Hr & He & Hl). cbn [snd] in *.
    rewrite execute_eq. destruct (Date_now w0) as [w1 ts].
    destruct (mf_implementation m0) as [impl|].
    - destruct (callImpl impl args w1) as [[w2 [r|e]] impl'];
        cbn [fst snd mf_returnValues mf_errors mf_calls];
        rewrite !omap_app, <- Hr, <- He, !length_app; cbn;
        rewrite ?app_nil_r; repeat split; first [reflexivity | lia].
    - cbn [fst snd mf_returnValues mf_errors mf_calls].
      rewrite !omap_app, <- Hr, <- He, !length_app; cbn.
      rewrite ?app_nil_r. repeat split; first [reflexivity | lia]. }
  apply Hinv. cbn. repeat split.
Qed.

Lemma fixed_behaviours (v : Value) (e : Thrown Value)
      (spec : @ErrorSpec Value) :
  fixedBehaviour (ReturnImpl v) (Returns v)
  /\ fixedBehaviour (ResolvedImpl v) (Returns v)
  /\ fixedBehaviour (ThrowImpl e) (Throws e)
  /\ fixedBehaviour (RejectedImpl spec) (Throws (toError spec)).
Proof. repeat split. Qed.

(** Calls, and assignments to the options object, on a recorder with a
    fixed behaviour that does not hold the options object. *)
Lemma runs_fixed (impl : Impl) (c : completion (Thrown Value) Value)
      (ops : list (@MockOp World Value)) (s : World * Recorder) :
  fixedBehaviour impl c ->
  (forall v, assignReturnValue v impl = impl) ->
  callsAndAssignments ops = true ->
  mf_implementation (snd s) = Some impl ->
  mf_implementation (snd (steps s ops)) = Some impl
  /\ length (mf_calls (snd (steps s ops)))
     = length (mf_calls (snd s)) + length (List.filter isCall ops)
  /\ (forall args, snd (execute args (steps s ops)) = c).
Proof.
  intros Hfixed Hassign. revert s.
  assert (Hone : forall (s : World * Recorder) args,
             mf_implementation (snd s) = Some impl ->
             snd (execute args s) = c
             /\ mf_implementation (snd (fst (execute args s))) = Some impl
             /\ length (mf_calls (snd (fst (execute args s))))
                = S (length (mf_calls (snd s)))).
  { intros [w m] args Hi. cbn [snd] in Hi. rewrite execute_eq.
    destruct (Date_now w) as [w1 ts]. rewrite Hi, Hfixed.
    destruct c; cbn; rewrite length_app; cbn; repeat split; lia. }
  induction ops as [|op ops IH]; intros s Hops Hi.
  - cbn. split; [exact Hi|]. split; [lia|].
    intros args. apply Hone. exact Hi.
  - unfold MockRuns.callsAndAssignments in Hops. cbn [forallb] in Hops.
    apply andb_true_iff in Hops as [Hop Hops].
    cbn [Mock.steps fold_left]. unfold Mock.steps in IH.
    destruct op; try discriminate Hop; cbn [Mock.step List.filter isCall].
    + destruct (Hone s args Hi) as (_ & Hi' & Hc').
      destruct (IH _ Hops Hi') as (Hi'' & Hc'' & Hall).
      split; [exact Hi''|]. split; [|exact Hall].
      rewrite Hc'', Hc'. cbn [length]. lia.
    + assert (Hi' : mf_implementation
                      (snd (fst s,
                            setImplementation
                              (option_map (assignReturnValue value)
                                 (mf_implementation (snd s))) (snd s)))
                    = Some impl).
      { cbn [snd setImplementation mf_implementation]. rewrite Hi.
        cbn [option_map]. rewrite Hassign. reflexivity. }
      destruct (IH _ Hops Hi') as (Hi'' & Hc'' & Hall).
      split; [exact Hi''|]. split; [|exact Hall].
      rewrite Hc''. reflexivity.
Qed.

(** Calls, and assignments to the options object, on a recorder whose
    behaviour is the closure [() => options.returnValue]. *)
Lemma runs_options (ops : list (@MockOp World Value)) :
  forall (s : World * Recorder) (o : @MockToolOptions World Value),
    callsAndAssignments ops = true ->
    mf_implementation (snd s) = Some (OptionsReturnImpl o) ->
    exists o',
      mf_implementation (snd (steps s ops)) = Some (OptionsReturnImpl o')
      /\ opt_returnValue o' = currentReturnValue (opt_returnValue o) ops.
Proof.
  induction ops as [|op ops IH]; intros s o Hops Hi.
  - exists o. split; [exact Hi | reflexivity].
  - unfold MockRuns.callsAndAssignments in Hops. cbn [forallb] in Hops.
    apply andb_true_iff in Hops as [Hop Hops].
    cbn [Mock.steps fold_left]. unfold Mock.steps in IH.
    unfold MockRuns.currentReturnValue in *. cbn [fold_left].
    destruct op; try discriminate Hop; cbn [Mock.step].
    + apply (IH _ o Hops).
      destruct s as [w0 m0]. cbn [snd] in Hi. rewrite execute_eq.
      destruct (Date_now w0) as [w1 ts]. rewrite Hi. reflexivity.
    + apply (IH _ {| opt_returnValue := value;
                     opt_implementation := opt_implementation o;
                     opt_throwError := opt_throwError o |} Hops).
      cbn [snd setImplementation mf_implementation]. rewrite Hi. reflexivity.
Qed.

(** X17: which behaviours are fixed.  After [mockReturnValue(v)] or
    [mockResolvedValue(v)] every call returns [v], and after
    [mockRejectedValue(e)] every call throws [e] (a string is wrapped in an
    Error), however many calls are made, whatever behaviour and history
    the recorder had, and whatever the caller assigns to the [returnValue]
    of the options object in between; each call is appended to the call
    list.  A recorder built with a [returnValue] is different: its closure
    reads the options object at every call, so a call returns the value
    that was assigned last ([undefined] when that was assigned), and the
    value given to the constructor only as long as nothing was assigned. *)
Theorem fixed_behaviour_persists
  (m : Recorder) (w : World) (ops : list (@MockOp World Value))
  (args : list Value) :
  callsAndAssignments ops = true ->
  (forall v,
      let s := steps (w, mockReturnValue v m) ops in
      snd (execute args s) = Returns v
      /\ length (mf_calls (snd s))
         = length (mf_calls m) + length (List.filter isCall ops))
  /\ (forall v,
         let s := steps (w, mockResolvedValue v m) ops in
         snd (execute args s) = Returns v
         /\ length (mf_calls (snd s))
            = length (mf_calls m) + length (List.filter isCall ops))
  /\ (forall spec,
         let s := steps (w, mockRejectedValue spec m) ops in
         snd (execute args s) = Throws (toError spec)
         /\ length (mf_calls (snd s))
            = length (mf_calls m) + length (List.filter isCall ops))
  /\ (forall name v throwError,
         let s := steps (w, mockTool name
                              (Some {| opt_returnValue := Some v;
                                       opt_implementation := None;
                                       opt_throwError := throwError |}))
                    ops in
         snd (execute args s)
         = Returns (match currentReturnValue (Some v) ops with
                    | Some v' => v'
                    | None => undefined
                    end)).
Proof.
  intros Hops.
  split; [|split; [|split]].
  - intros v s. subst s.
    destruct (runs_fixed (ReturnImpl v) (Returns v) ops
                (w, mockReturnValue v m)) as (_ & Hc & Hall);
      [intros ? ?; reflexivity | reflexivity | exact Hops | reflexivity |].
    auto.
  - intros v s. subst s.
    destruct (runs_fixed (ResolvedImpl v) (Returns v) ops
                (w, mockResolvedValue v m)) as (_ & Hc & Hall);
      [intros ? ?; reflexivity | reflexivity | exact Hops | reflexivity |].
    auto.
  - intros spec s. subst s.
    destruct (runs_fixed (RejectedImpl spec) (Throws (toError spec)) ops
                (w, mockRejectedValue spec m)) as (_ & Hc & Hall);
      [intros ? ?; reflexivity | reflexivity | exact Hops | reflexivity |].
    auto.
  - intros name v throwError s. subst s.
    set (o := {| opt_returnValue := Some v; opt_implementation := None;
                 opt_throwError := throwError |}).
    destruct (runs_options ops (w, mockTool name (Some o)) o Hops eq_refl)
      as (o' & Hi & Hv).
    cbn [opt_returnValue o] in Hv.
    destruct (steps (w, mockTool name (Some o)) ops) as [w1 m1].
    cbn [snd] in Hi. rewrite execute_eq.
    destruct (Date_now w1) as [w2 ts]. rewrite Hi.
    cbn [Mock.callImpl snd]. rewrite Hv. reflexivity.
Qed.

Lemma behavesLike_trans (i j k : option Impl) :
  behavesLike i j -> behavesLike j k -> behavesLike i k.
Proof.
  induction 1 as [i|v i j Hij IH]; intros Hjk; [exact Hjk|].
  apply spent. apply IH. exact Hjk.
Qed.

(** Two closures that behave alike answer a call alike. *)
Lemma callOpt_behavesLike (i j : option Impl) (args : list Value) (w : World) :
  behavesLike i j ->
  fst (callOpt i args w) = fst (callOpt j args w)
  /\ behavesLike (snd (callOpt i args w)) (snd (callOpt j args w)).
Proof.
  induction 1 as [i|v i j Hij IH].
  - split; [reflexivity | apply same].
  - destruct IH as [Hfst Hsnd]. revert Hfst Hsnd.
    unfold MockRuns.callOpt. cbn [Mock.callImpl].
    destruct i as [old|].
    + destruct (callImpl old args w) as [[w1 c1] old1]. cbn [fst snd].
      intros Hfst Hsnd. split; [exact Hfst|]. apply spent. exact Hsnd.
    + cbn [fst snd]. intros Hfst Hsnd. split; [exact Hfst|].
      apply spent. exact Hsnd.
Qed.

(** [execute] through [callOpt]. *)
Lemma execute_callOpt (args : list Value) (w : World) (m : Recorder) :
  let r := callOpt (mf_implementation m) args (fst (Date_now w)) in
  snd (execute args (w, m)) = snd (fst r)
  /\ fst (fst (execute args (w, m))) = fst (fst r)
  /\ mf_implementation (snd (fst (execute args (w, m)))) = snd r.
Proof.
  cbv zeta. rewrite execute_eq. unfold MockRuns.callOpt.
  destruct (Date_now w) as [w1 ts]. cbn [fst].
  destruct (mf_implementation m) as [impl|]; [|repeat split].
  destruct (callImpl impl args w1) as [[w2 [r|e]] impl']; repeat split.
Qed.

(** What calls return depends on the stored closure and the world, not on
    the histories. *)
Lemma outcomes_ext (argss : list (list Value)) (w : World) (m1 m2 : Recorder) :
  behavesLike (mf_implementation m1) (mf_implementation m2) ->
  outcomes (w, m1) argss = outcomes (w, m2) argss.
Proof.
  revert w m1 m2.
  induction argss as [|args argss IH]; intros w m1 m2 Hlike; [reflexivity|].
  cbn [MockRuns.outcomes].
  destruct (execute_callOpt args w m1) as (Hc1 & Hw1 & Hi1).
  destruct (execute_callOpt args w m2) as (Hc2 & Hw2 & Hi2).
  destruct (callOpt_behavesLike _ _ args (fst (Date_now w)) Hlike)
    as [Hfst Hsnd].
  rewrite Hc1, Hc2, Hfst. f_equal.
  destruct (execute args (w, m1)) as [[w1 m1'] c1].
  destruct (execute args (w, m2)) as [[w2 m2'] c2].
  cbn [fst snd] in *.
  assert (w1 = w2) as -> by (rewrite Hw1, Hw2, Hfst; reflexivity).
  apply IH. rewrite Hi1, Hi2. exact Hsnd.
Qed.

Lemma stack_snoc (vs : list Value) (v : Value) (old : option Impl) :
  stack (vs ++ [v]) old = Some (OnceImpl false v (stack vs old)).
Proof. unfold stack. rewrite fold_left_app. reflexivity. Qed.

Lemma registerOnce_implementation (vs : list Value) (m : Recorder) :
  mf_implementation (registerOnce vs m) = stack vs (mf_implementation m)
  /\ mf_calls (registerOnce vs m) = mf_calls m.
Proof.
  revert m. induction vs as [|v vs IH]; intros m; [split; reflexivity|].
  unfold registerOnce, stack in *. cbn [fold_left].
  destruct (IH (mockReturnValueOnce v m)) as [Hi Hc]. rewrite Hi, Hc.
  split; reflexivity.
Qed.

Lemma once_stack (old : option Impl) (argss2 : list (list Value))
      (vs : list Value) :
  forall (m1 : Recorder) (w : World) (argss1 : list (list Value)),
    length argss1 = length vs ->
    behavesLike (mf_implementation m1) (stack vs old) ->
    outcomes (w, m1) (argss1 ++ argss2)
    = map Returns (rev vs)
      ++ outcomes (clock (length vs) w, setImplementation old m1) argss2.
Proof.
  induction vs as [|v vs IH] using rev_ind; intros m1 w argss1 Hlen Hlike.
  - destruct argss1; [|discriminate Hlen]. cbn.
    apply outcomes_ext. exact Hlike.
  - rewrite length_app in Hlen. cbn [length] in Hlen.
    destruct argss1 as [|args argss1]; [cbn in Hlen; lia|].
    cbn [length] in Hlen.
    rewrite stack_snoc in Hlike.
    rewrite rev_app_distr. cbn [rev app map].
    rewrite length_app. cbn [length].
    replace (length vs + 1) with (S (length vs)) by lia.
    cbn [MockRuns.clock MockRuns.outcomes].
    destruct (execute_callOpt args w m1) as (Hc1 & Hw1 & Hi1).
    destruct (callOpt_behavesLike _ _ args (fst (Date_now w)) Hlike)
      as [Hfst Hsnd].
    cbn in Hfst, Hsnd.
    rewrite Hc1, Hfst. cbn [fst snd]. f_equal.
    destruct (execute args (w, m1)) as [[w1 m1'] c1].
    cbn [fst snd] in *.
    rewrite Hw1, Hfst. cbn [fst].
    rewrite (IH m1' (fst (Date_now w)) argss1); [|lia|].
    + f_equal. apply outcomes_ext. apply same.
    + rewrite Hi1. eapply behavesLike_trans; [exact Hsnd|].
      apply spent. apply same.
Qed.

(** X18: values registered with [mockReturnValueOnce] are handed out one
    per call, the last registered first; the calls after them are answered
    as the recorder would have answered them without the registrations.
    The calls that hand out the values only read the clock. *)
Theorem once_values_last_registered_first
  (m : Recorder) (values : list Value) (w : World)
  (first rest : list (list Value)) :
  length first = length values ->
  outcomes (w, registerOnce values m) (first ++ rest)
  = map Returns (rev values) ++ outcomes (clock (length values) w, m) rest.
Proof.
  intros Hlen.
  rewrite (once_stack (mf_implementation m) rest values
             (registerOnce values m) w first Hlen).
  - f_equal. apply outcomes_ext. apply same.
  - rewrite (proj1 (registerOnce_implementation values m)). apply same.
Qed.

(** Calls on a recorder without a behaviour. *)
Lemma outcomes_None (argss : list (list Value)) (w : World) (m : Recorder) :
  mf_implementation m = None ->
  outcomes (w, m) argss = map (fun _ => Returns undefined) argss
  /\ fst (steps (w, m) (map OpExecute argss)) = clock (length argss) w
  /\ mf_implementation (snd (steps (w, m) (map OpExecute argss))) = None.
Proof.
  revert w m. induction argss as [|args argss IH]; intros w m Hi.
  - cbn. auto.
  - cbn [MockRuns.outcomes map length MockRuns.clock Mock.steps fold_left
           Mock.step].
    rewrite execute_eq. destruct (Date_now w) as [w1 ts]. rewrite Hi.
    cbn [fst snd]. unfold Mock.steps in IH.
    match goal with
    | |- context [MockRuns.outcomes _ _ (w1, ?m') argss] =>
        destruct (IH w1 m' eq_refl) as (Ho & Hw & Hi')
    end.
    rewrite Ho, Hw, Hi'. auto.
Qed.

(** X19: [mockClear] empties the three histories and keeps the behaviour:
    the calls that follow are answered as they would have been without it.
    [mockReset] empties the histories and forgets the behaviour: every call
    that follows returns [undefined] and only reads the clock. *)
Theorem clear_keeps_and_reset_forgets
  (m : Recorder) (w : World) (argss : list (list Value)) :
  (mf_calls (mockClear m) = [] /\ mf_returnValues (mockClear m) = []
   /\ mf_errors (mockClear m) = []
   /\ outcomes (w, mockClear m) argss = outcomes (w, m) argss)
  /\ (mf_calls (mockReset m) = [] /\ mf_returnValues (mockReset m) = []
      /\ mf_errors (mockReset m) = []
      /\ outcomes (w, mockReset m) argss
         = map (fun _ => Returns undefined) argss
      /\ fst (steps (w, mockReset m) (map OpExecute argss))
         = clock (length argss) w
      /\ mf_returnValues (snd (steps (w, mockReset m) (map OpExecute argss)))
         = map (fun _ => undefined) argss).
Proof.
  split.
  - repeat split. apply outcomes_ext. apply same.
  - destruct (outcomes_None argss w (mockReset m) eq_refl) as (Ho & Hw & _).
    repeat split; [exact Ho | exact Hw |].
    assert (Hgen : forall (s : World * Recorder),
               mf_implementation (snd s) = None ->
               mf_returnValues (snd (steps s (map OpExecute argss)))
               = mf_returnValues (snd s) ++ map (fun _ => undefined) argss).
    { clear. induction argss as [|a argss IH]; intros [w0 mm] Hi.
      - cbn. rewrite app_nil_r. reflexivity.
      - cbn [map Mock.steps fold_left Mock.step].
        cbn [snd] in Hi. rewrite execute_eq.
        destruct (Date_now w0) as [w1 ts]. rewrite Hi. cbn [fst].
        unfold Mock.steps in IH. rewrite IH; [|reflexivity].
        cbn. rewrite <- app_assoc. reflexivity. }
    rewrite Hgen; reflexivity.
Qed.

(** X20: what the options of [mockTool] choose.  An [implementation] wins
    over a [returnValue], which wins over [throwError]; a [throwError]
    that is a string is thrown as an [Error] with that message, except for
    the empty string, which is ignored: such a recorder, like one built
    without options, returns [undefined]. *)
Theorem options_precedence
  (name : string) (args : list Value) (w : World)
  (returnValue : option Value) (throwError : option (@ErrorSpec Value)) :
  let w1 := fst (Date_now w) in
  let call options := snd (execute args (w, mockTool name options)) in
  (forall fn,
      call (Some (mkOptions returnValue (Some fn) throwError))
      = snd (fn args w1))
  /\ (forall v,
         call (Some (mkOptions (Some v) None throwError)) = Returns v)
  /\ (forall spec,
         truthy spec = true ->
         call (Some (mkOptions None None (Some spec)))
         = Throws (toError spec))
  /\ call (Some (mkOptions None None (Some (ErrString EmptyString))))
     = Returns undefined
  /\ call (Some (mkOptions None None None)) = Returns undefined
  /\ call None = Returns undefined.
Proof.
  cbv zeta.
  repeat split; intros; rewrite execute_eq;
    destruct (Date_now w) as [w1 ts]; cbn [fst];
    unfold mockTool, new_MockFunction;
    cbn [opt_implementation opt_returnValue opt_throwError
         mf_implementation Mock.callImpl truthy String.eqb negb];
    try reflexivity.
  - destruct (fn args w1) as [w2 [r|e]]; reflexivity.
  - rewrite H. reflexivity.
Qed.

(** The arguments of the recorded calls are the arguments of the calls
    made, in order. *)
Lemma executes_args (argss : list (list Value)) (s : World * Recorder) :
  map mc_args (mf_calls (snd (steps s (map OpExecute argss))))
  = map mc_args (mf_calls (snd s)) ++ argss.
Proof.
  revert s. induction argss as [|args argss IH]; intros [w m].
  - cbn. rewrite app_nil_r. reflexivity.
  - cbn [map Mock.steps fold_left Mock.step]. unfold Mock.steps in IH.
    rewrite IH. rewrite execute_eq. destruct (Date_now w) as [w1 ts].
    destruct (mf_implementation m) as [impl|].
    + destruct (callImpl impl args w1) as [[w2 [r|e]] impl'];
        cbn [fst snd mf_calls]; rewrite map_app, <- app_assoc; reflexivity.
    + cbn [fst snd mf_calls]. rewrite map_app, <- app_assoc. reflexivity.
Qed.

End Props.

End MockProps.

Module MockPropsExamples.

Import Mock MockRuns Samples MockSamples.

(** tool.mockReturnValueOnce('a').mockReturnValueOnce('b'): the calls give
    'b', then 'a', then the error of the behaviour underneath. *)
Lemma once_values_witness :
  length [[]; [Some "x"]] = length [Some "a"; Some "b"]
  /\ outcomes None tick (w0, registerOnce [Some "a"; Some "b"] boomTool)
       ([[]; [Some "x"]] ++ [[]])
     = [Returns (Some "b"); Returns (Some "a"); Throws (JsError "boom")].
Proof.
  split; [reflexivity|].
  exact (MockProps.once_values_last_registered_first None tick boomTool
           [Some "a"; Some "b"] w0 [[]; [Some "x"]] [[]] eq_refl).
Defined.

(** mockTool('t', { throwError: 'boom' }) throws an Error('boom'). *)
Lemma options_precedence_witness :
  @truthy (option string) (ErrString "boom") = true
  /\ snd (execute (None : option string) tick []
            (w0, mockTool "t" (Some (mkOptions None None
                                       (Some (ErrString "boom"))))))
     = Throws (JsError "boom").
Proof.
  split; [reflexivity|].
  exact (proj1 (proj2 (proj2
           (MockProps.options_precedence None tick "t" [] w0 None None)))
           (ErrString "boom") eq_refl).
Defined.

(** const options = { returnValue: 'v' }; const t = mockTool('t', options);
    await t.execute(); options.returnValue = 'changed'; await t.execute();
    options.returnValue = undefined; await t.execute():
    the calls return 'v', 'changed' and undefined. *)
Example options_are_read_at_every_call :
  mf_returnValues
    (snd (steps None tick
            (w0, mockTool "t" (Some (mkOptions (Some (Some "v")) None None)))
            [ OpExecute []; OpAssignReturnValue (Some (Some "changed"));
              OpExecute []; OpAssignReturnValue None; OpExecute [] ]))
  = [Some "v"; Some "changed"; None].
Proof. reflexivity. Qed.

(** After the assignment the recorder built with [returnValue: 'v'] returns
    'changed'; the one set up with mockReturnValue('v') still returns 'v'. *)
Lemma fixed_behaviour_witness :
  @callsAndAssignments W (option string)
    [OpExecute []; OpAssignReturnValue (Some (Some "changed"))] = true
  /\ snd (execute None tick []
            (steps None tick
               (w0, mockTool "t"
                      (Some (mkOptions (Some (Some "v")) None None)))
               [OpExecute []; OpAssignReturnValue (Some (Some "changed"))]))
     = Returns (Some "changed")
  /\ snd (execute None tick []
            (steps None tick (w0, mockReturnValue (Some "v") boomTool)
               [OpExecute []; OpAssignReturnValue (Some (Some "changed"))]))
     = Returns (Some "v").
Proof.
  split; [reflexivity|].
  pose (H := MockProps.fixed_behaviour_persists None tick boomTool w0
               [OpExecute []; OpAssignReturnValue (Some (Some "changed"))]
               [] eq_refl).
  split.
  - exact (proj2 (proj2 (proj2 H)) "t" (Some "v") None).
  - exact (proj1 (proj1 H (Some "v"))).
Defined.

End MockPropsExamples.

(** ** The recorder matchers *)

Module RecorderMatcherFacts.

Import Expect Mock MockMatchers ExpectFacts MatcherFacts MockProps.

Section Facts.

Context {World : Type}.
Variable Date_now : World -> World * Z.
Variable showNumber : nat -> string.
Variable formatValue : JsValue -> string.
Variable arrayOf : list JsValue -> JsValue.

Local Abbreviation Recorder := (@MockFunction World JsValue).
Local Abbreviation steps := (@steps World JsValue VUndefined Date_now).
Local Abbreviation toHaveBeenCalledTimes :=
  (@toHaveBeenCalledTimes World showNumber).
Local Abbreviation toHaveBeenCalledWith :=
  (@toHaveBeenCalledWith World formatValue arrayOf).

Lemma argsMatch_refl (args : list JsValue) : argsMatch args args = true.
Proof.
  unfold argsMatch. rewrite Nat.eqb_refl. cbn [andb].
  induction args as [|a args IH]; [reflexivity|].
  cbn. rewrite deepEqual_refl. exact IH.
Qed.

Lemma calledWith_passes (isNot : bool) (m : Recorder) (args : list JsValue) :
  passes (toHaveBeenCalledWith isNot m args)
  = xorb isNot (existsb (fun a => argsMatch a args) (map mc_args (mf_calls m))).
Proof.
  unfold MockMatchers.toHaveBeenCalledWith, assertFor.
  rewrite passes_assert. cbn [Expect.isNot].
  replace (existsb (fun a => argsMatch a args) (map mc_args (mf_calls m)))
    with (existsb (fun call => argsMatch (mc_args call) args) (mf_calls m)).
  - destruct isNot, (existsb _ (mf_calls m)); reflexivity.
  - induction (mf_calls m) as [|c cs IH]; [reflexivity|].
    cbn. rewrite IH. reflexivity.
Qed.

(** X21: the recorder matchers follow the call list.  Once a call with
    [args] was made, [toHaveBeenCalledWith(...args)] and
    [toHaveBeenCalled()] pass and stay passing through every later call,
    their [.not] forms fail, and [toHaveBeenCalledTimes(n)] passes for the
    number of calls made so far and for no other [n].  After [mockClear]
    the recorder counts as never called. *)
Theorem matchers_follow_calls
  (m : Recorder) (w : World) (args : list JsValue)
  (later : list (list JsValue)) :
  let m' := snd (steps (w, m) (map OpExecute (args :: later))) in
  passes (toHaveBeenCalledWith false m' args) = true
  /\ passes (toHaveBeenCalledWith true m' args) = false
  /\ passes (toHaveBeenCalled false m') = true
  /\ passes (toHaveBeenCalled true m') = false
  /\ (forall n,
         passes (toHaveBeenCalledTimes false m' n) = true
         <-> n = length (mf_calls m) + 1 + length later)
  /\ passes (toHaveBeenCalled false (mockClear m')) = false
  /\ passes (toHaveBeenCalledTimes false (mockClear m') 0) = true
  /\ (forall args', passes (toHaveBeenCalledWith false (mockClear m') args')
                    = false).
Proof.
  cbv zeta.
  pose proof (executes_args VUndefined Date_now (args :: later) (w, m))
    as Hargs.
  cbn [snd] in Hargs.
  set (m' := snd (steps (w, m) (map OpExecute (args :: later)))) in *.
  assert (Hlen : length (mf_calls m')
                 = length (mf_calls m) + 1 + length later).
  { rewrite <- (length_map mc_args (mf_calls m')), Hargs, length_app,
      length_map. cbn [length]. lia. }
  assert (Hex : existsb (fun a => argsMatch a args)
                  (map mc_args (mf_calls m')) = true).
  { rewrite Hargs, existsb_app. cbn [existsb].
    rewrite argsMatch_refl. cbn. apply orb_true_r. }
  split; [rewrite calledWith_passes, Hex; reflexivity|].
  split; [rewrite calledWith_passes, Hex; reflexivity|].
  unfold toHaveBeenCalled, MockMatchers.toHaveBeenCalledTimes, assertFor.
  rewrite !passes_assert. cbn [Expect.isNot mockClear mf_calls length].
  assert (Hpos : (0 <? length (mf_calls m'))%nat = true)
    by (apply Nat.ltb_lt; lia).
  rewrite Hpos.
  split; [reflexivity|]. split; [reflexivity|].
  split.
  { intros n. rewrite passes_assert. cbn [Expect.isNot].
    rewrite Nat.eqb_eq, Hlen. split; intros; lia. }
  split; [reflexivity|]. split; [reflexivity|].
  intros args'. rewrite calledWith_passes. reflexivity.
Qed.

End Facts.

End RecorderMatcherFacts.
